(** * Population pyramid viewer: a shallow embedding of
      [src/js/population-pyramid.js] and the properties of its data shaping,
      chart lifecycle and animation control.

    The script is a set of top-level functions over a handful of module
    variables ([pyramidChart], [allYearsData], [currentYearIndex],
    [animationInterval], [isPlaying], [countryList]), the DOM elements it
    looks up once, and the host's timer table.  Each function is embedded as
    a computation over one [State] record that holds exactly those pieces;
    a JavaScript exception is an explicit [Throw] outcome that keeps the
    state reached when it was raised. *)

From Stdlib Require Import ZArith Lia Ascii String.
From stdpp Require Import base option list strings gmap pretty.

Local Open Scope Z_scope.
Local Open Scope string_scope.

(** ** JavaScript values used by the script *)

Module Js.

(** The numbers the script computes with are indices and years: integers,
    or [NaN] (from [parseInt] on a string with no digits, or from [%] by
    zero).  Population counts only ever go through sign flip and
    [Math.abs], both exact. *)
Inductive num : Type :=
| NaN
| Num (z : Z).

#[global] Instance num_eq_dec : EqDecision num.
Proof. solve_decision. Defined.

(** [a < b], [a >= b]: every comparison with [NaN] is false. *)
Definition lt (a b : num) : bool :=
  match a, b with
  | Num x, Num y => bool_decide (x < y)
  | _, _ => false
  end.

Definition ge (a b : num) : bool :=
  match a, b with
  | Num x, Num y => bool_decide (y <= x)
  | _, _ => false
  end.

(** [a === b] on numbers: [NaN] is different from everything. *)
Definition strict_eq (a b : num) : bool :=
  match a, b with
  | Num x, Num y => bool_decide (x = y)
  | _, _ => false
  end.

Definition add (a b : num) : num :=
  match a, b with
  | Num x, Num y => Num (x + y)
  | _, _ => NaN
  end.

(** [a % b]: the remainder has the sign of the dividend ([Z.rem]); a zero
    divisor gives [NaN]. *)
Definition rem (a b : num) : num :=
  match a, b with
  | Num x, Num y => if bool_decide (y = 0) then NaN else Num (Z.rem x y)
  | _, _ => NaN
  end.

(** Template-literal interpolation [`${n}`] of a number. *)
Definition to_string (a : num) : string :=
  match a with
  | NaN => "NaN"
  | Num z => pretty z
  end.

(** *** [parseInt(s, 10)]

    A string is the sequence of bytes of its UTF-8 encoding.  Leading white
    space is skipped: every WhiteSpace and LineTerminator character of
    ECMAScript, that is the six of ASCII (U+0009 to U+000D and U+0020),
    U+00A0, U+1680, U+2000 to U+200A, U+2028, U+2029, U+202F, U+205F, U+3000
    and U+FEFF, each in its encoding of one, two or three bytes.  Then an
    optional sign, then the longest run of decimal digits is read; with no
    digit the result is [NaN].  The digits are read exactly: [parseInt]
    returns the nearest double, which is the integer itself up to [2^53],
    far beyond any year or index. *)

Definition is_white_space (c : ascii) : bool :=
  let n := nat_of_ascii c in
  bool_decide (n = 9 ∨ n = 10 ∨ n = 11 ∨ n = 12 ∨ n = 13 ∨ n = 32)%nat.

(** The first byte of the white space characters of two and of three
    bytes. *)
Definition leads_white_space2 (c : ascii) : bool :=
  bool_decide (nat_of_ascii c = 194)%nat.

Definition leads_white_space3 (c : ascii) : bool :=
  let n := nat_of_ascii c in
  bool_decide (n = 225 ∨ n = 226 ∨ n = 227 ∨ n = 239)%nat.

(** U+00A0 is [C2 A0]. *)
Definition is_white_space2 (a b : ascii) : bool :=
  bool_decide (nat_of_ascii a = 194 ∧ nat_of_ascii b = 160)%nat.

(** U+1680 is [E1 9A 80]; U+2000 to U+200A are [E2 80 80] to [E2 80 8A];
    U+2028, U+2029 and U+202F are [E2 80 A8], [E2 80 A9] and [E2 80 AF];
    U+205F is [E2 81 9F]; U+3000 is [E3 80 80]; U+FEFF is [EF BB BF]. *)
Definition is_white_space3 (a b c : ascii) : bool :=
  let x := nat_of_ascii a in
  let y := nat_of_ascii b in
  let z := nat_of_ascii c in
  bool_decide
    ((x = 225 ∧ y = 154 ∧ z = 128)
     ∨ (x = 226 ∧ y = 128 ∧ (128 <= z <= 138 ∨ z = 168 ∨ z = 169 ∨ z = 175))
     ∨ (x = 226 ∧ y = 129 ∧ z = 159)
     ∨ (x = 227 ∧ y = 128 ∧ z = 128)
     ∨ (x = 239 ∧ y = 187 ∧ z = 191))%nat.

Fixpoint trim_start (s : string) : string :=
  match s with
  | String a r =>
      if is_white_space a then trim_start r
      else if leads_white_space2 a then
        match r with
        | String b r2 => if is_white_space2 a b then trim_start r2 else s
        | EmptyString => s
        end
      else if leads_white_space3 a then
        match r with
        | String b (String c r3) =>
            if is_white_space3 a b c then trim_start r3 else s
        | _ => s
        end
      else s
  | EmptyString => EmptyString
  end.

Definition digit_value (c : ascii) : option Z :=
  let n := nat_of_ascii c in
  if bool_decide (48 <= n <= 57)%nat then Some (Z.of_nat n - 48) else None.

(** Reads the longest prefix of decimal digits; [None] when it is empty. *)
Fixpoint digits_prefix (acc : option Z) (s : string) : option Z :=
  match s with
  | String c r =>
      match digit_value c with
      | Some d => digits_prefix (Some (10 * default 0 acc + d)) r
      | None => acc
      end
  | EmptyString => acc
  end.

Definition parseInt10 (s : string) : num :=
  let t := trim_start s in
  let '(sign, body) :=
    match t with
    | String "-" r => (-1, r)
    | String "+" r => (1, r)
    | _ => (1, t)
    end in
  match digits_prefix None body with
  | Some m => Num (sign * m)
  | None => NaN
  end.

(** Truthiness of a value that is [null] or a string. *)
Definition truthy (v : option string) : bool :=
  match v with
  | Some s => negb (bool_decide (s = ""))
  | None => false
  end.

(** [s.replace(/c/g, d)] for single characters [c], [d]. *)
Fixpoint replace_all (c d : ascii) (s : string) : string :=
  match s with
  | String x r => String (if bool_decide (x = c) then d else x) (replace_all c d r)
  | EmptyString => EmptyString
  end.

(** [Array.prototype.findIndex]: first index whose element satisfies [p],
    or [-1]. *)
Fixpoint findIndex_from {A} (p : A → bool) (i : Z) (l : list A) : Z :=
  match l with
  | [] => -1
  | x :: r => if p x then i else findIndex_from p (i + 1) r
  end.

Definition findIndex {A} (p : A → bool) (l : list A) : Z := findIndex_from p 0 l.

(** [arr[i]] for a number [i]: [undefined] ([None]) unless [i] is an
    integer index inside the array. *)
Definition index {A} (l : list A) (i : num) : option A :=
  match i with
  | Num z => if bool_decide (0 <= z) then l !! Z.to_nat z else None
  | NaN => None
  end.

Definition length {A} (l : list A) : num := Num (Z.of_nat (List.length l)).

End Js.

(** ** Data model *)

(** One element of [rawData.data]: [{ ageGroup, male, female }].  Counts,
    like years, are whole numbers. *)
Record AgeRow : Type := mkAgeRow {
  ageGroup : string;
  row_male : Z;
  row_female : Z
}.

(** The raw per-country document.  [raw_data] is a reference to the array
    object held in the [heap] of the state, so that an in-place mutation of
    the caller's array would be visible. *)
Record RawCountryDataset : Type := mkRaw {
  raw_year : Z;
  raw_country : string;
  raw_data : nat
}.

(** The object [yearData] built by [processRawData]. *)
Record YearSeriesEntry : Type := mkEntry {
  year : Z;
  country : string;
  ageGroups : list string;
  male : list Z;
  female : list Z
}.

(** A Chart.js dataset: its [label] and [data]; the colour and bar-size
    options are constants of the source and play no part below. *)
Record Dataset : Type := mkDataset {
  label : string;
  data : list Z
}.

(** The chart object referenced by [pyramidChart]: the identity Chart.js
    gives it, the data bound to it, and how often [update()] and [resize()]
    were called on it. *)
Record Chart : Type := mkChart {
  chart_id : nat;
  labels : list string;
  datasets : list Dataset;
  updates : nat;
  resizes : nat
}.

(** A DOM element, as far as the script touches it.  [value] holds what the
    script last assigned (or the markup's initial value). *)
Record Element : Type := mkElement {
  textContent : string;
  classList : list string;
  value : string;
  maxAttr : string;
  options : list (string * string)
}.

(** The callbacks the script hands to [setInterval] and [setTimeout]. *)
Inductive Callback : Type :=
| CbTick
| CbHideMessage
| CbResize.

Inductive Timer : Type :=
| Interval (cb : Callback)
| Timeout (cb : Callback).

#[global] Instance Callback_eq_dec : EqDecision Callback.
Proof. solve_decision. Defined.

#[global] Instance Timer_eq_dec : EqDecision Timer.
Proof. solve_decision. Defined.

(** What a [fetch] followed by [response.json()] can produce. *)
Inductive FetchResult (A : Type) : Type :=
| NetworkError (message : string)
| Response (ok : bool) (status : Z) (body : option A).

Arguments NetworkError {A} message.
Arguments Response {A} ok status body.

(** The body of a dataset file, as parsed JSON. *)
Record RawDocument : Type := mkDocument {
  doc_year : Z;
  doc_country : string;
  doc_data : list AgeRow
}.

(** ** Program state: the script's variables and the host objects it uses *)

(** The script's variables come first, under their own names.  Then the
    page: [document] maps the id of each element the script looks up to the
    element, and the two listener counts say how many listeners
    [setupControls] has added to the button and to the slider.  Then the
    host: the table of pending timers and the next handle; the ids of the
    charts alive on the canvas, whether the Chart.js the page got takes one
    chart per canvas (versions 3 and later do, version 2 stacks them; the
    page asks the CDN for [chart.js] without a version), and the next chart
    id; the arrays of rows; the query string of the address; the URLs
    requested so far and the lines written with [console.error], newest
    first. *)
Record State : Type := mkState {
  pyramidChart : option Chart;
  allYearsData : list YearSeriesEntry;
  currentYearIndex : Js.num;
  animationInterval : option nat;
  isPlaying : bool;
  countryList : list string;
  resizeTimeout : option nat;
  document : gmap string Element;
  clickListeners : nat;
  inputListeners : nat;
  timers : gmap nat Timer;
  nextTimer : nat;
  canvasCharts : list nat;
  canvasExclusive : bool;
  nextChartId : nat;
  heap : list (list AgeRow);
  location_search : list (string * string);
  fetches : list string;
  console : list string
}.

(** Assignment to one component. *)
Definition set_pyramidChart (v : option Chart) (s : State) : State :=
  {| pyramidChart := v; allYearsData := allYearsData s; currentYearIndex :=
     currentYearIndex s; animationInterval := animationInterval s; isPlaying :=
     isPlaying s; countryList := countryList s; resizeTimeout := resizeTimeout s;
     document := document s; clickListeners := clickListeners s; inputListeners
     := inputListeners s; timers := timers s; nextTimer := nextTimer s;
     canvasCharts := canvasCharts s; canvasExclusive := canvasExclusive s;
     nextChartId := nextChartId s; heap := heap s; location_search :=
     location_search s; fetches := fetches s; console := console s |}.

Definition set_allYearsData (v : list YearSeriesEntry) (s : State) : State :=
  {| pyramidChart := pyramidChart s; allYearsData := v; currentYearIndex :=
     currentYearIndex s; animationInterval := animationInterval s; isPlaying :=
     isPlaying s; countryList := countryList s; resizeTimeout := resizeTimeout s;
     document := document s; clickListeners := clickListeners s; inputListeners
     := inputListeners s; timers := timers s; nextTimer := nextTimer s;
     canvasCharts := canvasCharts s; canvasExclusive := canvasExclusive s;
     nextChartId := nextChartId s; heap := heap s; location_search :=
     location_search s; fetches := fetches s; console := console s |}.

Definition set_currentYearIndex (v : Js.num) (s : State) : State :=
  {| pyramidChart := pyramidChart s; allYearsData := allYearsData s;
     currentYearIndex := v; animationInterval := animationInterval s; isPlaying
     := isPlaying s; countryList := countryList s; resizeTimeout := resizeTimeout
     s; document := document s; clickListeners := clickListeners s;
     inputListeners := inputListeners s; timers := timers s; nextTimer :=
     nextTimer s; canvasCharts := canvasCharts s; canvasExclusive :=
     canvasExclusive s; nextChartId := nextChartId s; heap := heap s;
     location_search := location_search s; fetches := fetches s; console :=
     console s |}.

Definition set_animationInterval (v : option nat) (s : State) : State :=
  {| pyramidChart := pyramidChart s; allYearsData := allYearsData s;
     currentYearIndex := currentYearIndex s; animationInterval := v; isPlaying :=
     isPlaying s; countryList := countryList s; resizeTimeout := resizeTimeout s;
     document := document s; clickListeners := clickListeners s; inputListeners
     := inputListeners s; timers := timers s; nextTimer := nextTimer s;
     canvasCharts := canvasCharts s; canvasExclusive := canvasExclusive s;
     nextChartId := nextChartId s; heap := heap s; location_search :=
     location_search s; fetches := fetches s; console := console s |}.

Definition set_isPlaying (v : bool) (s : State) : State :=
  {| pyramidChart := pyramidChart s; allYearsData := allYearsData s;
     currentYearIndex := currentYearIndex s; animationInterval :=
     animationInterval s; isPlaying := v; countryList := countryList s;
     resizeTimeout := resizeTimeout s; document := document s; clickListeners :=
     clickListeners s; inputListeners := inputListeners s; timers := timers s;
     nextTimer := nextTimer s; canvasCharts := canvasCharts s; canvasExclusive :=
     canvasExclusive s; nextChartId := nextChartId s; heap := heap s;
     location_search := location_search s; fetches := fetches s; console :=
     console s |}.

Definition set_countryList (v : list string) (s : State) : State :=
  {| pyramidChart := pyramidChart s; allYearsData := allYearsData s;
     currentYearIndex := currentYearIndex s; animationInterval :=
     animationInterval s; isPlaying := isPlaying s; countryList := v;
     resizeTimeout := resizeTimeout s; document := document s; clickListeners :=
     clickListeners s; inputListeners := inputListeners s; timers := timers s;
     nextTimer := nextTimer s; canvasCharts := canvasCharts s; canvasExclusive :=
     canvasExclusive s; nextChartId := nextChartId s; heap := heap s;
     location_search := location_search s; fetches := fetches s; console :=
     console s |}.

Definition set_resizeTimeout (v : option nat) (s : State) : State :=
  {| pyramidChart := pyramidChart s; allYearsData := allYearsData s;
     currentYearIndex := currentYearIndex s; animationInterval :=
     animationInterval s; isPlaying := isPlaying s; countryList := countryList s;
     resizeTimeout := v; document := document s; clickListeners := clickListeners
     s; inputListeners := inputListeners s; timers := timers s; nextTimer :=
     nextTimer s; canvasCharts := canvasCharts s; canvasExclusive :=
     canvasExclusive s; nextChartId := nextChartId s; heap := heap s;
     location_search := location_search s; fetches := fetches s; console :=
     console s |}.

Definition set_document (v : gmap string Element) (s : State) : State :=
  {| pyramidChart := pyramidChart s; allYearsData := allYearsData s;
     currentYearIndex := currentYearIndex s; animationInterval :=
     animationInterval s; isPlaying := isPlaying s; countryList := countryList s;
     resizeTimeout := resizeTimeout s; document := v; clickListeners :=
     clickListeners s; inputListeners := inputListeners s; timers := timers s;
     nextTimer := nextTimer s; canvasCharts := canvasCharts s; canvasExclusive :=
     canvasExclusive s; nextChartId := nextChartId s; heap := heap s;
     location_search := location_search s; fetches := fetches s; console :=
     console s |}.

Definition set_clickListeners (v : nat) (s : State) : State :=
  {| pyramidChart := pyramidChart s; allYearsData := allYearsData s;
     currentYearIndex := currentYearIndex s; animationInterval :=
     animationInterval s; isPlaying := isPlaying s; countryList := countryList s;
     resizeTimeout := resizeTimeout s; document := document s; clickListeners :=
     v; inputListeners := inputListeners s; timers := timers s; nextTimer :=
     nextTimer s; canvasCharts := canvasCharts s; canvasExclusive :=
     canvasExclusive s; nextChartId := nextChartId s; heap := heap s;
     location_search := location_search s; fetches := fetches s; console :=
     console s |}.

Definition set_inputListeners (v : nat) (s : State) : State :=
  {| pyramidChart := pyramidChart s; allYearsData := allYearsData s;
     currentYearIndex := currentYearIndex s; animationInterval :=
     animationInterval s; isPlaying := isPlaying s; countryList := countryList s;
     resizeTimeout := resizeTimeout s; document := document s; clickListeners :=
     clickListeners s; inputListeners := v; timers := timers s; nextTimer :=
     nextTimer s; canvasCharts := canvasCharts s; canvasExclusive :=
     canvasExclusive s; nextChartId := nextChartId s; heap := heap s;
     location_search := location_search s; fetches := fetches s; console :=
     console s |}.

Definition set_timers (v : gmap nat Timer) (s : State) : State :=
  {| pyramidChart := pyramidChart s; allYearsData := allYearsData s;
     currentYearIndex := currentYearIndex s; animationInterval :=
     animationInterval s; isPlaying := isPlaying s; countryList := countryList s;
     resizeTimeout := resizeTimeout s; document := document s; clickListeners :=
     clickListeners s; inputListeners := inputListeners s; timers := v; nextTimer
     := nextTimer s; canvasCharts := canvasCharts s; canvasExclusive :=
     canvasExclusive s; nextChartId := nextChartId s; heap := heap s;
     location_search := location_search s; fetches := fetches s; console :=
     console s |}.

Definition set_nextTimer (v : nat) (s : State) : State :=
  {| pyramidChart := pyramidChart s; allYearsData := allYearsData s;
     currentYearIndex := currentYearIndex s; animationInterval :=
     animationInterval s; isPlaying := isPlaying s; countryList := countryList s;
     resizeTimeout := resizeTimeout s; document := document s; clickListeners :=
     clickListeners s; inputListeners := inputListeners s; timers := timers s;
     nextTimer := v; canvasCharts := canvasCharts s; canvasExclusive :=
     canvasExclusive s; nextChartId := nextChartId s; heap := heap s;
     location_search := location_search s; fetches := fetches s; console :=
     console s |}.

Definition set_canvasCharts (v : list nat) (s : State) : State :=
  {| pyramidChart := pyramidChart s; allYearsData := allYearsData s;
     currentYearIndex := currentYearIndex s; animationInterval :=
     animationInterval s; isPlaying := isPlaying s; countryList := countryList s;
     resizeTimeout := resizeTimeout s; document := document s; clickListeners :=
     clickListeners s; inputListeners := inputListeners s; timers := timers s;
     nextTimer := nextTimer s; canvasCharts := v; canvasExclusive :=
     canvasExclusive s; nextChartId := nextChartId s; heap := heap s;
     location_search := location_search s; fetches := fetches s; console :=
     console s |}.

Definition set_nextChartId (v : nat) (s : State) : State :=
  {| pyramidChart := pyramidChart s; allYearsData := allYearsData s;
     currentYearIndex := currentYearIndex s; animationInterval :=
     animationInterval s; isPlaying := isPlaying s; countryList := countryList s;
     resizeTimeout := resizeTimeout s; document := document s; clickListeners :=
     clickListeners s; inputListeners := inputListeners s; timers := timers s;
     nextTimer := nextTimer s; canvasCharts := canvasCharts s; canvasExclusive :=
     canvasExclusive s; nextChartId := v; heap := heap s; location_search :=
     location_search s; fetches := fetches s; console := console s |}.

Definition set_heap (v : list (list AgeRow)) (s : State) : State :=
  {| pyramidChart := pyramidChart s; allYearsData := allYearsData s;
     currentYearIndex := currentYearIndex s; animationInterval :=
     animationInterval s; isPlaying := isPlaying s; countryList := countryList s;
     resizeTimeout := resizeTimeout s; document := document s; clickListeners :=
     clickListeners s; inputListeners := inputListeners s; timers := timers s;
     nextTimer := nextTimer s; canvasCharts := canvasCharts s; canvasExclusive :=
     canvasExclusive s; nextChartId := nextChartId s; heap := v; location_search
     := location_search s; fetches := fetches s; console := console s |}.

Definition set_location_search (v : list (string * string)) (s : State) : State :=
  {| pyramidChart := pyramidChart s; allYearsData := allYearsData s;
     currentYearIndex := currentYearIndex s; animationInterval :=
     animationInterval s; isPlaying := isPlaying s; countryList := countryList s;
     resizeTimeout := resizeTimeout s; document := document s; clickListeners :=
     clickListeners s; inputListeners := inputListeners s; timers := timers s;
     nextTimer := nextTimer s; canvasCharts := canvasCharts s; canvasExclusive :=
     canvasExclusive s; nextChartId := nextChartId s; heap := heap s;
     location_search := v; fetches := fetches s; console := console s |}.

Definition set_fetches (v : list string) (s : State) : State :=
  {| pyramidChart := pyramidChart s; allYearsData := allYearsData s;
     currentYearIndex := currentYearIndex s; animationInterval :=
     animationInterval s; isPlaying := isPlaying s; countryList := countryList s;
     resizeTimeout := resizeTimeout s; document := document s; clickListeners :=
     clickListeners s; inputListeners := inputListeners s; timers := timers s;
     nextTimer := nextTimer s; canvasCharts := canvasCharts s; canvasExclusive :=
     canvasExclusive s; nextChartId := nextChartId s; heap := heap s;
     location_search := location_search s; fetches := v; console := console s |}.

Definition set_console (v : list string) (s : State) : State :=
  {| pyramidChart := pyramidChart s; allYearsData := allYearsData s;
     currentYearIndex := currentYearIndex s; animationInterval :=
     animationInterval s; isPlaying := isPlaying s; countryList := countryList s;
     resizeTimeout := resizeTimeout s; document := document s; clickListeners :=
     clickListeners s; inputListeners := inputListeners s; timers := timers s;
     nextTimer := nextTimer s; canvasCharts := canvasCharts s; canvasExclusive :=
     canvasExclusive s; nextChartId := nextChartId s; heap := heap s;
     location_search := location_search s; fetches := fetches s; console := v |}.

(** ** Computations: state passing with exceptions

    A computation returns a value or throws; either way it leaves a state.
    What is thrown is represented by its message (the [error.message] the
    [catch] blocks read).  For errors raised by the engine (reading a
    property of [undefined], spreading a non-iterable) the wording differs
    between engines; the model's wording is one of them. *)

Inductive outcome (A : Type) : Type :=
| Ret (a : A) (s : State)
| Throw (e : string) (s : State).

Arguments Ret {A} a s.
Arguments Throw {A} e s.

Definition M (A : Type) : Type := State → outcome A.

Definition ret {A} (a : A) : M A := λ s, Ret a s.

Definition bind {A B} (m : M A) (k : A → M B) : M B :=
  λ s, match m s with
       | Ret a s' => k a s'
       | Throw e s' => Throw e s'
       end.

Definition throw {A} (e : string) : M A := λ s, Throw e s.

(** [try { m } catch (error) { h error.message }] *)
Definition try_catch {A} (m : M A) (h : string → M A) : M A :=
  λ s, match m s with
       | Ret a s' => Ret a s'
       | Throw e s' => h e s'
       end.

Definition get {A} (f : State → A) : M A := λ s, Ret (f s) s.

Definition modify (f : State → State) : M unit := λ s, Ret tt (f s).

(** The state a computation leaves behind, whether it returned or threw. *)
Definition state_of {A} (o : outcome A) : State :=
  match o with
  | Ret _ s => s
  | Throw _ s => s
  end.

Definition returns {A} (o : outcome A) : bool :=
  match o with
  | Ret _ _ => true
  | Throw _ _ => false
  end.

Declare Scope js_scope.
Delimit Scope js_scope with js.
Notation "x ← y ; z" := (bind y (λ x : _, z))
  (at level 20, y at level 100, z at level 200, only parsing) : js_scope.
Notation "x ;; z" := (bind x (λ _, z))
  (at level 100, z at level 200, only parsing, right associativity) : js_scope.
Local Open Scope js_scope.

(** ** Host operations *)

Definition dquote : string := String (ascii_of_nat 34) EmptyString.

(** *** DOM *)

Definition set_textContent (v : string) (e : Element) : Element :=
  {| textContent := v; classList := classList e; value := value e;
     maxAttr := maxAttr e; options := options e |}.

Definition set_classList (v : list string) (e : Element) : Element :=
  {| textContent := textContent e; classList := v; value := value e;
     maxAttr := maxAttr e; options := options e |}.

Definition set_value (v : string) (e : Element) : Element :=
  {| textContent := textContent e; classList := classList e; value := v;
     maxAttr := maxAttr e; options := options e |}.

Definition set_maxAttr (v : string) (e : Element) : Element :=
  {| textContent := textContent e; classList := classList e; value := value e;
     maxAttr := v; options := options e |}.

Definition set_options (v : list (string * string)) (e : Element) : Element :=
  {| textContent := textContent e; classList := classList e; value := value e;
     maxAttr := maxAttr e; options := v |}.

(** [classList.add(...)]: tokens not yet present are appended, in order. *)
Fixpoint tokens_add (new : list string) (l : list string) : list string :=
  match new with
  | [] => l
  | t :: r => tokens_add r (if bool_decide (t ∈ l) then l else l ++ [t])
  end.

(** [classList.remove(...)]. *)
Definition tokens_remove (old : list string) (l : list string) : list string :=
  List.filter (λ t, negb (bool_decide (t ∈ old))) l.

(** [classList.replace(old, new)]: nothing happens unless [old] is present;
    otherwise [old] becomes [new] in place and the set stays duplicate
    free. *)
Definition tokens_replace (old new : string) (l : list string) : list string :=
  if bool_decide (old ∈ l)
  then remove_dups ((λ t, if bool_decide (t = old) then new else t) <$> l)
  else l.

(** An element the script looked up at start-up is updated in place. *)
Definition on_element (id : string) (f : Element → Element) : M unit :=
  modify (λ s, set_document (alter f id (document s)) s).

(** Reading a property of an element (the empty element stands for a
    missing one; every id the script uses is in the page). *)
Definition element (id : string) (s : State) : Element :=
  default (mkElement "" [] "" "" []) (document s !! id).

(** *** Timers: one table for intervals and timeouts, fresh increasing ids *)

Definition set_timer (t : Timer) : M nat :=
  λ s, Ret (nextTimer s)
           (set_nextTimer (S (nextTimer s))
              (set_timers (<[nextTimer s := t]> (timers s)) s)).

Definition setInterval (cb : Callback) : M nat := set_timer (Interval cb).

Definition setTimeout (cb : Callback) : M nat := set_timer (Timeout cb).

(** [clearInterval(h)] and [clearTimeout(h)] are the same operation;
    [undefined] or an unknown handle clears nothing. *)
Definition clearTimer (h : option nat) : M unit :=
  match h with
  | Some id => modify (λ s, set_timers (delete id (timers s)) s)
  | None => ret tt
  end.

(** *** Chart.js *)

(** [new Chart(ctx, config)]: the new instance is registered on the canvas.
    Where the canvas takes one chart at a time and still has one, the
    constructor throws instead. *)
Definition new_Chart (lbls : list string) (ds : list Dataset) : M Chart :=
  λ s, if canvasExclusive s && negb (bool_decide (canvasCharts s = []))
       then Throw "Canvas is already in use." s
       else Ret (mkChart (nextChartId s) lbls ds 0 0)
                (set_nextChartId (S (nextChartId s))
                   (set_canvasCharts (canvasCharts s ++ [nextChartId s]) s)).

(** [chart.destroy()] releases the canvas. *)
Definition chart_destroy (c : Chart) : M unit :=
  modify (λ s, set_canvasCharts
                 (List.filter (λ i, negb (bool_decide (i = chart_id c))) (canvasCharts s)) s).

(** *** Arrays of rows in the heap *)

Definition array_read (r : nat) : M (list AgeRow) :=
  λ s, match heap s !! r with
       | Some rows => Ret rows s
       | None => Throw "TypeError: rawData.data is not iterable" s
       end.

(** [[...a]]: a new array object with the same elements. *)
Definition array_alloc (rows : list AgeRow) : M nat :=
  λ s, Ret (List.length (heap s)) (set_heap (heap s ++ [rows]) s).

(** [a.reverse()] reverses the array object in place. *)
Definition array_reverse (r : nat) : M unit :=
  modify (λ s, set_heap (alter reverse r (heap s)) s).

(** *** The query string, [URLSearchParams.get] and [.set] *)

Fixpoint params_get (name : string) (ps : list (string * string)) : option string :=
  match ps with
  | [] => None
  | (k, v) :: r => if bool_decide (k = name) then Some v else params_get name r
  end.

Fixpoint params_set (name v : string) (ps : list (string * string)) : list (string * string) :=
  match ps with
  | [] => [(name, v)]
  | (k, w) :: r =>
      if bool_decide (k = name)
      then (k, v) :: List.filter (λ p, negb (bool_decide (p.1 = name))) r
      else (k, w) :: params_set name v r
  end.

(** ** The script *)

(** *** Utility functions *)

Definition showMessage (message type : string) : M unit :=
  on_element "messageBox" (set_textContent message) ;;
  on_element "messageBox" (λ e, set_classList
    (tokens_remove ["hidden"; "bg-green-100"; "text-green-700"; "bg-red-100";
                    "text-red-700"; "bg-blue-100"; "text-blue-700"] (classList e)) e) ;;
  on_element "messageBox" (λ e, set_classList
    (tokens_add
       (if bool_decide (type = "success") then ["bg-green-100"; "text-green-700"]
        else if bool_decide (type = "error") then ["bg-red-100"; "text-red-700"]
        else ["bg-blue-100"; "text-blue-700"])
       (classList e)) e) ;;
  on_element "messageBox" (λ e, set_classList (tokens_remove ["hidden"] (classList e)) e) ;;
  setTimeout CbHideMessage ;;
  ret tt.

(** The callback of [showMessage]'s timeout. *)
Definition hideMessage : M unit :=
  on_element "messageBox" (λ e, set_classList (tokens_add ["hidden"] (classList e)) e).

Definition showLoading (show : bool) : M unit :=
  if show
  then on_element "loadingIndicator"
         (λ e, set_classList (tokens_remove ["hidden"] (classList e)) e)
  else on_element "loadingIndicator"
         (λ e, set_classList (tokens_add ["hidden"] (classList e)) e).

Definition processRawData (rawData : RawCountryDataset) : M (list YearSeriesEntry) :=
  rows ← array_read (raw_data rawData) ;
  copy ← array_alloc rows ;
  array_reverse copy ;;
  reversedData ← array_read copy ;
  let yearData :=
    {| year := raw_year rawData;
       country := raw_country rawData;
       ageGroups := ageGroup <$> reversedData;
       male := row_male <$> reversedData;
       female := row_female <$> reversedData |} in
  ret [yearData].

(** *** Chart functions *)

(** [options.scales.x.ticks.callback] *)
Definition ticks_callback (v : Z) : Z := Z.abs v.

(** The [context] Chart.js hands to a tooltip callback: the dataset's label
    (possibly missing) and the parsed value along x ([null] when there is
    none). *)
Record TooltipContext : Type := mkContext {
  dataset_label : option string;
  parsed_x : option Z
}.

Section Tooltip.

(** [Number.prototype.toLocaleString], which depends on the host's locale. *)
Variable toLocaleString : Z → string.

(** [options.plugins.tooltip.callbacks.label] *)
Definition tooltip_label (context : TooltipContext) : string :=
  let label := if Js.truthy (dataset_label context)
               then default "" (dataset_label context) else "" in
  let label := if bool_decide (label = "") then label else label ++ ": " in
  match parsed_x context with
  | Some x => label ++ toLocaleString (Z.abs x)
  | None => label
  end.

End Tooltip.

(** The context of the tooltip over bar [i] of dataset [d]. *)
Definition tooltip_context (d : Dataset) (i : nat) : TooltipContext :=
  {| dataset_label := Some (label d); parsed_x := data d !! i |}.

Definition initializeChart (dataIndex : Js.num) : M unit :=
  all ← get allYearsData ;
  if bool_decide (List.length all = 0%nat)
     || Js.lt dataIndex (Js.Num 0) || Js.ge dataIndex (Js.length all)
  then
    showMessage "No data available to display chart." "error" ;;
    on_element "dataSourceInfo" (set_textContent "Error: Could not load data.") ;;
    on_element "currentYearDisplay" (set_textContent "Year: ---")
  else
    match Js.index all dataIndex with
    | None => throw "TypeError: currentData is undefined"
    | Some currentData =>
        on_element "currentYearDisplay"
          (set_textContent ("Year: " ++ pretty (year currentData))) ;;
        on_element "dataSourceInfo"
          (set_textContent ("Data for " ++ dquote ++ country currentData ++ dquote)) ;;
        on_element "yearSlider" (set_value (Js.to_string dataIndex)) ;;
        let maleDataNegative := Z.opp <$> male currentData in
        old ← get pyramidChart ;
        match old with
        | Some c => chart_destroy c
        | None => ret tt
        end ;;
        c ← new_Chart (ageGroups currentData)
              [ {| label := "Male"; data := maleDataNegative |};
                {| label := "Female"; data := female currentData |} ] ;
        modify (set_pyramidChart (Some c))
    end.

(** Assignments to the chart referenced by [pyramidChart]. *)
Definition set_labels (v : list string) (c : Chart) : Chart :=
  {| chart_id := chart_id c; labels := v; datasets := datasets c;
     updates := updates c; resizes := resizes c |}.

Definition set_datasets (v : list Dataset) (c : Chart) : Chart :=
  {| chart_id := chart_id c; labels := labels c; datasets := v;
     updates := updates c; resizes := resizes c |}.

Definition chart_update (c : Chart) : Chart :=
  {| chart_id := chart_id c; labels := labels c; datasets := datasets c;
     updates := S (updates c); resizes := resizes c |}.

Definition chart_resize (c : Chart) : Chart :=
  {| chart_id := chart_id c; labels := labels c; datasets := datasets c;
     updates := updates c; resizes := S (resizes c) |}.

Definition set_data (v : list Z) (d : Dataset) : Dataset :=
  {| label := label d; data := v |}.

(** [pyramidChart.<...> = v]: a [TypeError] when [pyramidChart] is
    [undefined]. *)
Definition on_pyramidChart (f : Chart → Chart) : M unit :=
  λ s, match pyramidChart s with
       | Some c => Ret tt (set_pyramidChart (Some (f c)) s)
       | None => Throw "TypeError: pyramidChart is undefined" s
       end.

(** [pyramidChart.data.datasets[i].data = v] *)
Definition set_dataset_data (i : nat) (v : list Z) : M unit :=
  λ s, match pyramidChart s with
       | Some c =>
           match datasets c !! i with
           | Some _ => Ret tt (set_pyramidChart
                                 (Some (set_datasets (alter (set_data v) i (datasets c)) c)) s)
           | None => Throw "TypeError: pyramidChart.data.datasets[i] is undefined" s
           end
       | None => Throw "TypeError: pyramidChart is undefined" s
       end.

Definition updateChartForAnimation (dataIndex : Js.num) : M unit :=
  all ← get allYearsData ;
  if Js.lt dataIndex (Js.Num 0) || Js.ge dataIndex (Js.length all)
  then ret tt
  else
    modify (set_currentYearIndex dataIndex) ;;
    cur ← get currentYearIndex ;
    match Js.index all cur with
    | None => throw "TypeError: data is undefined"
    | Some entry =>
        on_element "currentYearDisplay"
          (set_textContent ("Year: " ++ pretty (year entry))) ;;
        on_element "yearSlider" (set_value (Js.to_string cur)) ;;
        on_pyramidChart (set_labels (ageGroups entry)) ;;
        set_dataset_data 0 (Z.opp <$> male entry) ;;
        set_dataset_data 1 (female entry) ;;
        on_pyramidChart chart_update
    end.

(** *** Animation controls *)

(** The callback [startAnimation] hands to [setInterval]. *)
Definition tick : M unit :=
  cur ← get currentYearIndex ;
  all ← get allYearsData ;
  modify (set_currentYearIndex (Js.rem (Js.add cur (Js.Num 1)) (Js.length all))) ;;
  cur ← get currentYearIndex ;
  updateChartForAnimation cur.

Definition startAnimation : M unit :=
  playing ← get isPlaying ;
  all ← get allYearsData ;
  if playing || bool_decide (List.length all ≤ 1)%nat
  then ret tt
  else
    modify (set_isPlaying true) ;;
    on_element "playPauseButton" (set_textContent "Pause") ;;
    on_element "playPauseButton"
      (λ e, set_classList (tokens_replace "bg-blue-500" "bg-red-500" (classList e)) e) ;;
    on_element "playPauseButton"
      (λ e, set_classList
              (tokens_replace "hover:bg-blue-600" "hover:bg-red-600" (classList e)) e) ;;
    id ← setInterval CbTick ;
    modify (set_animationInterval (Some id)) ;;
    showMessage "Animation started!" "info".

Definition stopAnimation : M unit :=
  playing ← get isPlaying ;
  if negb playing
  then ret tt
  else
    modify (set_isPlaying false) ;;
    on_element "playPauseButton" (set_textContent "Play") ;;
    on_element "playPauseButton"
      (λ e, set_classList (tokens_replace "bg-red-500" "bg-blue-500" (classList e)) e) ;;
    on_element "playPauseButton"
      (λ e, set_classList
              (tokens_replace "hover:bg-red-600" "hover:bg-blue-600" (classList e)) e) ;;
    h ← get animationInterval ;
    clearTimer h ;;
    showMessage "Animation paused." "info".

(** The listener [setupControls] adds for clicks on the play/pause button. *)
Definition onPlayPauseClick : M unit :=
  playing ← get isPlaying ;
  if playing then stopAnimation else startAnimation.

(** The listener [setupControls] adds for the slider's [input] event;
    [target_value] is [event.target.value]. *)
Definition onSliderInput (target_value : string) : M unit :=
  stopAnimation ;;
  let newIndex := Js.parseInt10 target_value in
  cur ← get currentYearIndex ;
  if negb (Js.strict_eq newIndex cur)
  then updateChartForAnimation newIndex
  else ret tt.

Definition setupControls : M unit :=
  all ← get allYearsData ;
  if bool_decide (List.length all ≤ 1)%nat
  then
    on_element "playPauseButton"
      (λ e, set_classList (tokens_add ["hidden-controls"] (classList e)) e) ;;
    on_element "sliderComponents"
      (λ e, set_classList (tokens_add ["hidden-controls"] (classList e)) e) ;;
    match all with
    | [first] =>
        on_element "currentYearDisplay"
          (set_textContent ("Year: " ++ pretty (year first))) ;;
        on_element "dataSourceInfo"
          (set_textContent ("Data for " ++ dquote ++ country first ++ dquote))
    | _ => ret tt
    end
  else
    on_element "playPauseButton"
      (λ e, set_classList (tokens_remove ["hidden-controls"] (classList e)) e) ;;
    on_element "sliderComponents"
      (λ e, set_classList (tokens_remove ["hidden-controls"] (classList e)) e) ;;
    on_element "yearSlider" (set_maxAttr (pretty (Z.of_nat (List.length all) - 1))) ;;
    cur ← get currentYearIndex ;
    on_element "yearSlider" (set_value (Js.to_string cur)) ;;
    on_element "sliderMinYear"
      (set_textContent (from_option (λ e, pretty (year e)) "" (head all))) ;;
    on_element "sliderMaxYear"
      (set_textContent (from_option (λ e, pretty (year e)) "" (last all))) ;;
    modify (λ s, set_clickListeners (S (clickListeners s)) s) ;;
    modify (λ s, set_inputListeners (S (inputListeners s)) s).

(** *** Data loading

    An [async] function runs up to its first [await] when it is called and
    is resumed by the host when the awaited fetch settles.  Each of the two
    loaders is therefore a pair: [_begin], the part that runs in the caller's
    turn and issues the request, and [_resume], the rest of the body, run
    with what [fetch] and [response.json()] produced. *)

Definition dataset_path (countryName : string) : string :=
  "data/" ++ Js.replace_all " " "_" countryName ++ "_pyramid.json".

Definition fetch (url : string) : M unit :=
  modify (λ s, set_fetches (url :: fetches s) s).

Definition console_error (line : string) : M unit :=
  modify (λ s, set_console (line :: console s) s).

(** [response.json()] builds fresh objects: the rows go to a new array. *)
Definition json_document (doc : RawDocument) : M RawCountryDataset :=
  r ← array_alloc (doc_data doc) ;
  ret {| raw_year := doc_year doc; raw_country := doc_country doc; raw_data := r |}.

(** [countryName] is [None] when the argument is [undefined]; the default
    parameter value then applies. *)
Definition loadAndDisplayChart_begin (countryName : option string) : M string :=
  let countryName := default "Algeria" countryName in
  showLoading true ;;
  let jsonFilePath := dataset_path countryName in
  fetch jsonFilePath ;;
  ret jsonFilePath.

(** The block of [loadAndDisplayChart] that reads the [year] parameter
    (the statements between [allYearsData = processRawData(rawData)] and
    [initializeChart(currentYearIndex)]). *)
Definition selectRequestedYear : M unit :=
  params ← get location_search ;
  let yearParam := params_get "year" params in
  all ← get allYearsData ;
  if Js.truthy yearParam && bool_decide (0 < List.length all)%nat
  then
    let requestedYear := Js.parseInt10 (default "" yearParam) in
    let foundIndex :=
      Js.findIndex (λ d, Js.strict_eq (Js.Num (year d)) requestedYear) all in
    if negb (bool_decide (foundIndex = -1))
    then modify (set_currentYearIndex (Js.Num foundIndex))
    else showMessage
           ("Year " ++ default "" yearParam
              ++ " not found in dataset. Defaulting to first available year.")
           "error"
  else ret tt.

Definition loadAndDisplayChart_resume
    (jsonFilePath : string) (response : FetchResult RawDocument) : M unit :=
  try_catch
    (match response with
     | NetworkError message => throw message
     | Response ok status body =>
         if negb ok
         then throw ("HTTP error! status: " ++ pretty status
                       ++ " - Could not fetch " ++ jsonFilePath)
         else
           match body with
           | None => throw "SyntaxError: the response body is not JSON"
           | Some doc =>
               rawData ← json_document doc ;
               processed ← processRawData rawData ;
               modify (set_allYearsData processed) ;;
               selectRequestedYear ;;
               cur ← get currentYearIndex ;
               initializeChart cur ;;
               setupControls ;;
               showLoading false
           end
     end)
    (λ message,
       console_error ("Error loading or processing chart data: " ++ message) ;;
       showMessage ("Error: " ++ message) "error" ;;
       on_element "dataSourceInfo" (set_textContent "Error: Could not load data.") ;;
       on_element "currentYearDisplay" (set_textContent "Year: ---") ;;
       on_element "controlsContainer"
         (λ e, set_classList (tokens_add ["hidden-controls"] (classList e)) e) ;;
       showLoading false).

(** The whole of [loadAndDisplayChart] against a network that answers the
    request for [url] with [network url]. *)
Definition loadAndDisplayChart
    (network : string → FetchResult RawDocument) (countryName : option string) : M unit :=
  jsonFilePath ← loadAndDisplayChart_begin countryName ;
  loadAndDisplayChart_resume jsonFilePath (network jsonFilePath).

Definition loadCountryList_begin : M unit :=
  fetch "data/country_list.json".

(** [countryList.forEach(country => ... countrySelector.appendChild(option))] *)
Fixpoint append_options (countries : list string) : M unit :=
  match countries with
  | [] => ret tt
  | c :: r =>
      on_element "countrySelector"
        (λ e, set_options (options e ++ [(c, Js.replace_all "_" " " c)]) e) ;;
      append_options r
  end.

Definition loadCountryList_resume (response : FetchResult (list string)) : M unit :=
  try_catch
    (match response with
     | NetworkError message => throw message
     | Response ok status body =>
         if negb ok
         then throw "Could not load country list"
         else
           match body with
           | None => throw "SyntaxError: the response body is not JSON"
           | Some l =>
               modify (set_countryList l) ;;
               on_element "countrySelector" (set_options [("", "Select a country")]) ;;
               countries ← get countryList ;
               append_options countries ;;
               params ← get location_search ;
               let countryParam := params_get "country" params in
               if Js.truthy countryParam
                  && bool_decide (default "" countryParam ∈ countries)
               then
                 on_element "countrySelector" (set_value (default "" countryParam)) ;;
                 loadAndDisplayChart_begin countryParam ;;
                 ret tt
               else
                 let defaultCountry :=
                   if bool_decide ("Algeria" ∈ countries) then Some "Algeria"
                   else head countries in
                 on_element "countrySelector"
                   (set_value (default "undefined" defaultCountry)) ;;
                 loadAndDisplayChart_begin defaultCountry ;;
                 ret tt
           end
     end)
    (λ message,
       console_error ("Error loading country list: " ++ message) ;;
       showMessage "Could not load country list. Using default country." "error" ;;
       loadAndDisplayChart_begin (Some "Algeria") ;;
       ret tt).

(** *** Event handlers *)

(** The [change] listener of the country selector. *)
Definition onCountryChange (selectedCountry : string) : M unit :=
  if negb (bool_decide (selectedCountry = ""))
  then
    modify (λ s, set_location_search
                   (params_set "country" selectedCountry (location_search s)) s) ;;
    loadAndDisplayChart_begin (Some selectedCountry) ;;
    ret tt
  else ret tt.

(** The [resize] listener of the window. *)
Definition onResize : M unit :=
  h ← get resizeTimeout ;
  clearTimer h ;;
  id ← setTimeout CbResize ;
  modify (set_resizeTimeout (Some id)).

(** The callback of the resize timeout. *)
Definition resizeChart : M unit :=
  c ← get pyramidChart ;
  match c with
  | Some _ => on_pyramidChart chart_resize
  | None => ret tt
  end.

(** ** The host's event loop *)

Inductive Event : Type :=
| PlayPauseClick
| SliderInput (target_value : string)
| CountryChange (target_value : string)
| WindowResize
| TimerFires (id : nat)
| CatalogArrives (response : FetchResult (list string))
| DatasetArrives (jsonFilePath : string) (response : FetchResult RawDocument).

Definition run_callback (cb : Callback) : M unit :=
  match cb with
  | CbTick => tick
  | CbHideMessage => hideMessage
  | CbResize => resizeChart
  end.

(** A pending timer runs its callback; a timeout leaves the table first, an
    interval stays.  An id that is not pending fires nothing. *)
Definition fire_timer (id : nat) (s : State) : State :=
  match timers s !! id with
  | None => s
  | Some (Interval cb) => state_of (run_callback cb s)
  | Some (Timeout cb) =>
      state_of (run_callback cb (set_timers (delete id (timers s)) s))
  end.

(** Every registered listener runs, in turn; an exception in one is
    reported by the host and does not stop the others. *)
Fixpoint run_listeners (n : nat) (listener : M unit) (s : State) : State :=
  match n with
  | O => s
  | S n' => run_listeners n' listener (state_of (listener s))
  end.

Definition dispatch (ev : Event) (s : State) : State :=
  match ev with
  | PlayPauseClick => run_listeners (clickListeners s) onPlayPauseClick s
  | SliderInput v => run_listeners (inputListeners s) (onSliderInput v) s
  | CountryChange v => state_of (onCountryChange v s)
  | WindowResize => state_of (onResize s)
  | TimerFires id => fire_timer id s
  | CatalogArrives r => state_of (loadCountryList_resume r s)
  | DatasetArrives p r => state_of (loadAndDisplayChart_resume p r s)
  end.

Definition run (evs : list Event) (s : State) : State :=
  foldl (λ s ev, dispatch ev s) s evs.

(** The page of [index.html] and the script's variables as declared, when
    [window.onload] runs; [search] is the query string of the address.  The
    Chart.js served today takes one chart per canvas. *)
Definition initial_document : gmap string Element :=
  list_to_map
    [ ("countrySelector", mkElement "" ["country-selector"] "" ""
                            [("", "Loading countries...")]);
      ("playPauseButton", mkElement "Play"
         ["bg-blue-500"; "hover:bg-blue-600"; "text-white"; "font-semibold";
          "py-2"; "px-6"; "rounded-lg"; "shadow-md"; "transition";
          "duration-150"; "ease-in-out"; "focus:outline-none"; "focus:ring-2";
          "focus:ring-blue-400"; "focus:ring-opacity-75"; "w-full"; "sm:w-auto"]
         "" "" []);
      ("yearSlider", mkElement ""
         ["w-full"; "h-2"; "bg-gray-200"; "rounded-lg"; "appearance-none";
          "cursor-pointer"; "accent-blue-500"] "0" "0" []);
      ("currentYearDisplay", mkElement "Year: Loading..."
         ["text-center"; "text-gray-600"; "mb-1"] "" "" []);
      ("dataSourceInfo", mkElement "Data: Loading..."
         ["text-center"; "text-gray-500"; "text-sm"] "" "" []);
      ("messageBox", mkElement ""
         ["mt-4"; "p-3"; "text-center"; "text-sm"; "rounded-lg"; "hidden"] "" "" []);
      ("controlsContainer", mkElement ""
         ["flex"; "flex-col"; "sm:flex-row"; "items-center"; "justify-center";
          "space-y-4"; "sm:space-y-0"; "sm:space-x-4"] "" "" []);
      ("sliderComponents", mkElement ""
         ["flex"; "items-center"; "space-x-2"; "w-full"; "sm:w-auto"; "sm:flex-1"]
         "" "" []);
      ("sliderMinYear", mkElement "" ["text-sm"; "text-gray-600"] "" "" []);
      ("sliderMaxYear", mkElement "" ["text-sm"; "text-gray-600"] "" "" []);
      ("loadingIndicator", mkElement "" ["loading"; "hidden"] "" "" []) ].

Definition initial_state (search : list (string * string)) : State :=
  {| pyramidChart := None;
     allYearsData := [];
     currentYearIndex := Js.Num 0;
     animationInterval := None;
     isPlaying := false;
     countryList := [];
     resizeTimeout := None;
     document := initial_document;
     clickListeners := 0;
     inputListeners := 0;
     timers := ∅;
     nextTimer := 1;
     canvasCharts := [];
     canvasExclusive := true;
     nextChartId := 0;
     heap := [];
     location_search := search;
     fetches := [];
     console := [] |}.

(** [window.onload]: the listeners of [setupEventListeners] are in place and
    [loadCountryList] has run up to its [fetch]. *)
Definition page_loaded (search : list (string * string)) : State :=
  state_of (loadCountryList_begin (initial_state search)).

(** ** Invariants of the running page *)

(** The canvas holds exactly the chart [pyramidChart] refers to. *)
Definition chart_ok (s : State) : Prop :=
  canvasCharts s = from_option (λ c, [chart_id c]) [] (pyramidChart s).

Definition timer_callback (t : Timer) : Callback :=
  match t with
  | Interval cb => cb
  | Timeout cb => cb
  end.

(** The timer [id] of the table, when it fires, runs the animation tick. *)
Definition is_tick (table : gmap nat Timer) (id : nat) : Prop :=
  timer_callback <$> table !! id = Some CbTick.

Definition tick_pending (s : State) (id : nat) : Prop :=
  is_tick (timers s) id.

(** Timer handles are fresh; the handle kept for the resize timeout is never
    the animation's; and a tick is pending exactly when [playing]: then it is
    the one interval whose handle is kept in [animationInterval]. *)
Definition timers_inv (table : gmap nat Timer) (next : nat) (playing : bool)
    (animation resize : option nat) : Prop :=
  (∀ id t, table !! id = Some t → (id < next)%nat)
  ∧ (∀ id, resize = Some id → (id < next)%nat ∧ ¬ is_tick table id)
  ∧ (if playing
     then ∃ id, animation = Some id ∧ table !! id = Some (Interval CbTick)
                ∧ ∀ id', is_tick table id' → id' = id
     else ∀ id, ¬ is_tick table id).

Definition timers_ok (s : State) : Prop :=
  timers_inv (timers s) (nextTimer s) (isPlaying s)
    (animationInterval s) (resizeTimeout s).

(** The animation controller is in its [Stopped] state. *)
Definition stopped (s : State) : Prop := isPlaying s = false.

(** Every element the script looked up is in the page. *)
Definition page_ok (s : State) : Prop :=
  ∀ id, is_Some (initial_document !! id) → is_Some (document s !! id).

(** [k] ticks of the animation interval, one after the other. *)
Definition ticks (k : nat) (s : State) : State :=
  Nat.iter k (λ s, state_of (tick s)) s.

(** ** Observations and relations between states, for the proofs *)

(** What the chart lifecycle, the timers and the series functions each work
    on. *)
Definition chart_view (s : State) : option nat * list nat :=
  (chart_id <$> pyramidChart s, canvasCharts s).

Definition timer_view (s : State)
  : gmap nat Timer * nat * bool * option nat * option nat :=
  (timers s, nextTimer s, isPlaying s, animationInterval s, resizeTimeout s).

Definition data_view (s : State) : list YearSeriesEntry * Js.num :=
  (allYearsData s, currentYearIndex s).

(** Two states agree on an observation [f]. *)
Definition same {A} (f : State → A) : State → State → Prop :=
  λ s s', f s = f s'.

(** An invariant survives from one state to the other. *)
Definition keeps (I : State → Prop) : State → State → Prop :=
  λ s s', I s → I s'.

(** Whatever the start state and whether it returns or throws, [m] leaves a
    state related to the start by [R]. *)
Definition stable {A} (R : State → State → Prop) (m : M A) : Prop :=
  ∀ s, R s (state_of (m s)).

(** [m] never throws. *)
Definition total {A} (m : M A) : Prop :=
  ∀ s, returns (m s) = true.

(** The state [initializeChart] leaves when it draws entry [e] for index
    [i]: the three DOM writes, a fresh chart alone on the canvas, and
    [pyramidChart] referring to it. *)
Definition drawn (e : YearSeriesEntry) (i : Js.num) (s : State) : State :=
  set_pyramidChart
    (Some {| chart_id := nextChartId s;
             labels := ageGroups e;
             datasets := [ {| label := "Male"; data := Z.opp <$> male e |};
                           {| label := "Female"; data := female e |} ];
             updates := 0;
             resizes := 0 |})
    (set_nextChartId (S (nextChartId s))
       (set_canvasCharts [nextChartId s]
          (set_document
             (alter (set_value (Js.to_string i)) "yearSlider"
                (alter (set_textContent
                          ("Data for " ++ dquote ++ country e ++ dquote))
                   "dataSourceInfo"
                   (alter (set_textContent ("Year: " ++ pretty (year e)))
                      "currentYearDisplay" (document s))))
             s))).

(** Two charts show the same thing, whatever their identity. *)
Definition same_picture (c c' : Chart) : Prop :=
  labels c = labels c' ∧ datasets c = datasets c'
  ∧ updates c = updates c' ∧ resizes c = resizes c'.

(** *** The initial country, in the words of the specification

    "The [country] URL query parameter, if present and a member of the
    catalog; otherwise ["Algeria"], if present in the catalog; otherwise the
    first entry of the catalog." *)
Definition initial_country_spec
    (countryParam : option string) (catalog : list string) : option string :=
  let fallback :=
    if bool_decide ("Algeria" ∈ catalog) then Some "Algeria" else head catalog in
  match countryParam with
  | Some c => if bool_decide (c ∈ catalog) then Some c else fallback
  | None => fallback
  end.

(** Between [before] and [after], [choice] was put in the country selector
    and its dataset, and no other, was requested.  A [choice] of [None] is
    [undefined]: the selector is assigned ["undefined"] and
    [loadAndDisplayChart] falls back on its default parameter. *)
Definition selected (choice : option string) (before after : State) : Prop :=
  value (element "countrySelector" after) = default "undefined" choice
  ∧ fetches after = dataset_path (default "Algeria" choice) :: fetches before.

(** The initial selection as the specification words it, on a freshly
    loaded page with query string [search] and a catalog that arrived. *)
Definition selects_as_specified
    (search : list (string * string)) (catalog : list string) : Prop :=
  let s := page_loaded search in
  let s' := state_of (loadCountryList_resume (Response true 200 (Some catalog)) s) in
  ∃ c, initial_country_spec (params_get "country" search) catalog = Some c
       ∧ selected (Some c) s s'.

(** *** The [year] parameter, in the words of the specification *)

(** The entry [e] is what the chart shows. *)
Definition shows (s : State) (e : YearSeriesEntry) : Prop :=
  ∃ c, pyramidChart s = Some c
       ∧ labels c = ageGroups e
       ∧ data <$> datasets c = [Z.opp <$> male e; female e].

(** The warning about the year [yearParam] is on display. *)
Definition warned (yearParam : string) (s : State) : Prop :=
  textContent (element "messageBox" s)
  = "Year " ++ yearParam
      ++ " not found in dataset. Defaulting to first available year."
  ∧ "hidden" ∉ classList (element "messageBox" s).

(** "[year], if present, selects the matching entry in AllYearsData by exact
    year match, or surfaces a non-fatal warning and keeps index 0 if no match
    exists": [s'] is the state once the dataset has been loaded with the
    parameter [yearParam] present. *)
Definition year_selected_or_warned (yearParam : string) (s' : State) : Prop :=
  (∀ n e, allYearsData s' !! n = Some e →
          Js.Num (year e) = Js.parseInt10 yearParam →
          currentYearIndex s' = Js.Num (Z.of_nat n) ∧ shows s' e)
  ∧ ((∀ e, e ∈ allYearsData s' → Js.Num (year e) ≠ Js.parseInt10 yearParam) →
     warned yearParam s'
     ∧ currentYearIndex s' = Js.Num 0
     ∧ ∃ e, allYearsData s' !! 0%nat = Some e ∧ shows s' e).

(** The entry [processRawData] builds from a dataset file. *)
Definition entry_of (doc : RawDocument) : YearSeriesEntry :=
  {| year := doc_year doc;
     country := doc_country doc;
     ageGroups := ageGroup <$> reverse (doc_data doc);
     male := row_male <$> reverse (doc_data doc);
     female := row_female <$> reverse (doc_data doc) |}.

(** The country [loadCountryList] settles on, as its conditions read. *)
Definition initial_choice (countryParam : option string) (catalog : list string)
  : option string :=
  if Js.truthy countryParam && bool_decide (default "" countryParam ∈ catalog)
  then countryParam
  else if bool_decide ("Algeria" ∈ catalog) then Some "Algeria" else head catalog.

(** *** States and outcomes of a load *)

(** The state once [allYearsData = processRawData(rawData)] has run on the
    file [doc]: the parsed rows and their reversed copy are in the heap. *)
Definition loaded_series (doc : RawDocument) (s : State) : State :=
  set_allYearsData [entry_of doc]
    (set_heap ((heap s ++ [doc_data doc]) ++ [reverse (doc_data doc)]) s).

(** U+00A0, as it arrives from [%C2%A0] in an address. *)
Definition no_break_space : string :=
  String (ascii_of_nat 194) (String (ascii_of_nat 160) EmptyString).

(** The dataset of the specification's example. *)
Definition example_document : RawDocument :=
  {| doc_year := 2025;
     doc_country := "Algeria";
     doc_data := [ {| ageGroup := "0-4"; row_male := 100; row_female := 95 |};
                   {| ageGroup := "5-9"; row_male := 110; row_female := 105 |} ] |}.

(** The loading indicator is not on display. *)
Definition loading_hidden (s : State) : Prop :=
  "hidden" ∈ classList (element "loadingIndicator" s).

Definition catalog_failed (r : FetchResult (list string)) : Prop :=
  (∃ message, r = NetworkError message)
  ∨ (∃ status body, r = Response false status body).

(** On a page with its elements, [m] either returns with the loading
    indicator hidden or throws; the page keeps its elements either way. *)
Definition settles {A} (m : M A) : Prop :=
  ∀ s, page_ok s →
       match m s with
       | Ret _ s' => page_ok s' ∧ loading_hidden s'
       | Throw _ s' => page_ok s'
       end.

(** *** Example states *)

Definition example_entry : YearSeriesEntry := entry_of example_document.

(** The page once the example file has been parsed and normalised. *)
Definition example_page : State := loaded_series example_document (page_loaded []).

(** The example entry, as it would read for another year. *)
Definition example_entry_in (y : Z) : YearSeriesEntry :=
  {| year := y;
     country := country example_entry;
     ageGroups := ageGroups example_entry;
     male := male example_entry;
     female := female example_entry |}.

(** A series of three years, the second of them current. *)
Definition three_years : State :=
  set_currentYearIndex (Js.Num 1)
    (set_allYearsData
       [example_entry_in 2015; example_entry_in 2020; example_entry_in 2025]
       example_page).

(** The same series with the animation started. *)
Definition playing_page : State := state_of (startAnimation three_years).

(** *** Observations on the rest of the script *)

(** The series has at most one year, the animation is stopped, and no
    listener has been added to the play button or to the slider. *)
Definition quiet (s : State) : Prop :=
  (length (allYearsData s) ≤ 1)%nat
  ∧ isPlaying s = false
  ∧ clickListeners s = 0%nat
  ∧ inputListeners s = 0%nat.

Definition quiet_view (s : State) : list YearSeriesEntry * bool * nat * nat :=
  (allYearsData s, isPlaying s, clickListeners s, inputListeners s).

(** The message box is on display with [message], in the look of an
    error. *)
Definition error_shown (message : string) (s : State) : Prop :=
  textContent (element "messageBox" s) = message
  ∧ ("hidden" ∉ classList (element "messageBox" s))
  ∧ "bg-red-100" ∈ classList (element "messageBox" s).

(** The [catch] block of [loadAndDisplayChart]. *)
Definition load_failure_handler (message : string) : M unit :=
  bind (console_error ("Error loading or processing chart data: " ++ message))
    (λ _, bind (showMessage ("Error: " ++ message) "error")
    (λ _, bind (on_element "dataSourceInfo"
                  (set_textContent "Error: Could not load data."))
    (λ _, bind (on_element "currentYearDisplay" (set_textContent "Year: ---"))
    (λ _, bind (on_element "controlsContainer"
                  (λ e, set_classList
                          (tokens_add ["hidden-controls"] (classList e)) e))
    (λ _, showLoading false))))).

(** A dataset request that does not produce a document, and the message of
    the error it raises. *)
Inductive load_fails (jsonFilePath : string) : FetchResult RawDocument → string → Prop :=
| fails_network (message : string) :
    load_fails jsonFilePath (NetworkError message) message
| fails_status (status : Z) (body : option RawDocument) :
    load_fails jsonFilePath (Response false status body)
      ("HTTP error! status: " ++ pretty status
         ++ " - Could not fetch " ++ jsonFilePath)
| fails_json (status : Z) :
    load_fails jsonFilePath (Response true status None)
      "SyntaxError: the response body is not JSON".

(** The characters of a string. *)
Definition chars (s : string) : list ascii := list_ascii_of_string s.

(** The text of the option [loadCountryList] builds for a catalog name. *)
Definition option_of (countryName : string) : string * string :=
  (countryName, Js.replace_all "_" " " countryName).

(** The catalog could not be used: the request failed, the status is not a
    success, or the body is not JSON. *)
Definition catalog_unusable (r : FetchResult (list string)) : Prop :=
  catalog_failed r ∨ ∃ status, r = Response true status None.

(** The loading indicator is on display. *)
Definition loading_shown (s : State) : Prop :=
  "hidden" ∉ classList (element "loadingIndicator" s).

(** The timer [id] of the table, when it fires, resizes the chart. *)
Definition is_resize (table : gmap nat Timer) (id : nat) : Prop :=
  timer_callback <$> table !! id = Some CbResize.

(** Timer handles are fresh, and a pending resize is the timeout whose
    handle is kept in [resizeTimeout]. *)
Definition resize_inv (table : gmap nat Timer) (next : nat) (resize : option nat) : Prop :=
  (∀ id t, table !! id = Some t → (id < next)%nat)
  ∧ (∀ id, is_resize table id → resize = Some id ∧ table !! id = Some (Timeout CbResize)).

Definition resize_ok (s : State) : Prop :=
  resize_inv (timers s) (nextTimer s) (resizeTimeout s).

(** [k] resize events of the window, one after the other. *)
Definition resizes_of_window (k : nat) : list Event := replicate k WindowResize.

(** The class names [showMessage] takes off the message box before it puts
    on those of the message's type. *)
Definition message_classes : list string :=
  ["hidden"; "bg-green-100"; "text-green-700"; "bg-red-100"; "text-red-700";
   "bg-blue-100"; "text-blue-700"].

(** The message box wears every class of [on] and none of [off]. *)
Definition box_wears (on off : list string) (s : State) : Prop :=
  (∀ c, c ∈ on → c ∈ classList (element "messageBox" s))
  ∧ (∀ c, c ∈ off → c ∉ classList (element "messageBox" s)).

(** The controls container carries the class that hides it. *)
Definition controls_hidden (s : State) : Prop :=
  "hidden-controls" ∈ classList (element "controlsContainer" s).

(** The series of three years with the second of them drawn. *)
Definition three_years_drawn : State :=
  drawn (example_entry_in 2020) (Js.Num 1) three_years.

(** The same page with the animation started. *)
Definition playing_drawn : State := state_of (startAnimation three_years_drawn).

(** A catalog of two countries. *)
Definition example_catalog : list string := ["Algeria"; "Costa_Rica"].

(** ** Basic facts *)

Example parseInt10_plain : Js.parseInt10 "2025" = Js.Num 2025.
Proof. reflexivity. Qed.

Example parseInt10_suffix : Js.parseInt10 "  -12px" = Js.Num (-12).
Proof. reflexivity. Qed.

Example parseInt10_empty : Js.parseInt10 "" = Js.NaN.
Proof. reflexivity. Qed.

(** [%C2%A02025] in an address: a no-break space, then the year. *)
Example parseInt10_no_break_space :
  Js.parseInt10 (no_break_space ++ "2025") = Js.Num 2025.
Proof. reflexivity. Qed.

(** A byte order mark, a line separator and an ideographic space before the
    sign. *)
Example parseInt10_wide_space :
  Js.parseInt10
    (String (ascii_of_nat 239) (String (ascii_of_nat 187) (String (ascii_of_nat 191)
    (String (ascii_of_nat 226) (String (ascii_of_nat 128) (String (ascii_of_nat 168)
    (String (ascii_of_nat 227) (String (ascii_of_nat 128) (String (ascii_of_nat 128)
       "-7")))))))))
  = Js.Num (-7).
Proof. reflexivity. Qed.

(** A zero width space (U+200B, [E2 80 8B]) is not white space. *)
Example parseInt10_zero_width_space :
  Js.parseInt10
    (String (ascii_of_nat 226) (String (ascii_of_nat 128) (String (ascii_of_nat 139) "7")))
  = Js.NaN.
Proof. reflexivity. Qed.

Lemma string_app_assoc (a b c : string) : (a ++ b) ++ c = a ++ b ++ c.
Proof.
  induction a as [|x a IH]; [reflexivity|].
  change (String x ((a ++ b) ++ c) = String x (a ++ b ++ c)). by rewrite IH.
Qed.

#[global] Instance same_preorder {A} (f : State → A) : PreOrder (same f).
Proof. split; unfold same; [intros s; done | intros s1 s2 s3; congruence]. Qed.

#[global] Instance keeps_preorder (I : State → Prop) : PreOrder (keeps I).
Proof. split; unfold keeps; [intros s; done | intros s1 s2 s3; auto]. Qed.

(** *** Relations that hold across a computation

    A reflexive and transitive relation that every step of a computation
    respects is respected by the whole, whether it returns or throws. *)

Section Stable.

Context (R : State → State → Prop) `{!PreOrder R}.

Lemma stable_ret {A} (a : A) : stable R (ret a).
Proof. intros s. simpl. reflexivity. Qed.

Lemma stable_throw {A} (e : string) : stable R (@throw A e).
Proof. intros s. simpl. reflexivity. Qed.

Lemma stable_get {A} (f : State → A) : stable R (get f).
Proof. intros s. simpl. reflexivity. Qed.

Lemma stable_bind {A B} (m : M A) (k : A → M B) :
  stable R m → (∀ a, stable R (k a)) → stable R (bind m k).
Proof.
  intros Hm Hk s. unfold bind. specialize (Hm s).
  destruct (m s) as [a s'|e s']; simpl in *; [|done].
  etrans; [exact Hm | apply Hk].
Qed.

Lemma stable_try_catch {A} (m : M A) (h : string → M A) :
  stable R m → (∀ e, stable R (h e)) → stable R (try_catch m h).
Proof.
  intros Hm Hh s. unfold try_catch. specialize (Hm s).
  destruct (m s) as [a s'|e s']; simpl in *; [done|].
  etrans; [exact Hm | apply Hh].
Qed.

Lemma stable_run_listeners (n : nat) (m : M unit) (s : State) :
  stable R m → R s (run_listeners n m s).
Proof.
  intros Hm. revert s. induction n as [|n IH]; intros s; simpl; [done|].
  etrans; [apply Hm | apply IH].
Qed.

End Stable.

Lemma stable_weaken {A} (R R' : State → State → Prop) (m : M A) :
  (∀ s s', R s s' → R' s s') → stable R m → stable R' m.
Proof. intros HR Hm s. apply HR, Hm. Qed.

Lemma total_ret {A} (a : A) : total (ret a).
Proof. intros s. done. Qed.

Lemma total_get {A} (f : State → A) : total (get f).
Proof. intros s. done. Qed.

Lemma total_modify (f : State → State) : total (modify f).
Proof. intros s. done. Qed.

Lemma total_bind {A B} (m : M A) (k : A → M B) :
  total m → (∀ a, total (k a)) → total (bind m k).
Proof.
  intros Hm Hk s. unfold bind. specialize (Hm s).
  destruct (m s) as [a s'|e s']; simpl in *; [apply Hk|done].
Qed.

Lemma total_try_catch {A} (m : M A) (h : string → M A) :
  (∀ e, total (h e)) → total (try_catch m h).
Proof.
  intros Hh s. unfold try_catch. destruct (m s) as [a s'|e s']; [done|apply Hh].
Qed.

(** A computation that does not throw is determined by the state it leaves. *)
Lemma total_state_of (m : M unit) (s : State) :
  total m → m s = Ret tt (state_of (m s)).
Proof. intros Hm. specialize (Hm s). by destruct (m s) as [[] s'|e s']. Qed.

Create HintDb stable discriminated.
Create HintDb total discriminated.

(** [stable_prim] settles one host operation by computing what it does to
    the observation at hand; [stable_go] takes a function apart along its
    binds and branches, using the lemmas of the [stable] database for the
    functions it calls; [total_go] does the same for the absence of
    exceptions. *)
Ltac stable_prim :=
  let s := fresh "s" in
  intros s;
  unfold on_element, modify, set_timer, setInterval, setTimeout, clearTimer,
    new_Chart, chart_destroy, array_read, array_alloc, array_reverse, fetch,
    console_error, on_pyramidChart, set_dataset_data, ret,
    same, keeps, chart_view, timer_view, data_view, page_ok,
    chart_ok, timers_ok, tick_pending, stopped;
  simpl; repeat case_match; simpl; try done.

Ltac stable_go :=
  repeat first
    [ lazymatch goal with |- PreOrder _ => apply _ end
    | apply stable_ret | apply stable_throw | apply stable_get
    | solve [auto with stable nocore]
    | apply stable_bind; [| |intros ?]
    | apply stable_try_catch; [| |intros ?]
    | progress case_match
    | solve [stable_prim] ].

Ltac total_go :=
  repeat first
    [ apply total_ret | apply total_get | apply total_modify
    | solve [auto with total nocore]
    | apply total_bind; [|intros ?]
    | apply total_try_catch; intros ?
    | progress case_match
    | solve [intros ?; done] ].

(** ** Frames: what each function leaves alone *)

Lemma showMessage_total m t : total (showMessage m t).
Proof. unfold showMessage. total_go. Qed.

Lemma showLoading_total b : total (showLoading b).
Proof. unfold showLoading. total_go. Qed.

Lemma stopAnimation_total : total stopAnimation.
Proof. pose proof showMessage_total. unfold stopAnimation, clearTimer. total_go. Qed.

Lemma startAnimation_total : total startAnimation.
Proof.
  pose proof showMessage_total.
  unfold startAnimation, setInterval, set_timer. total_go.
Qed.

Lemma setupControls_total : total setupControls.
Proof. unfold setupControls. total_go. Qed.

#[export] Hint Resolve showMessage_total showLoading_total stopAnimation_total
  startAnimation_total setupControls_total : total.

Lemma showMessage_chart m t : stable (same chart_view) (showMessage m t).
Proof. unfold showMessage. stable_go. Qed.

Lemma showMessage_data m t : stable (same data_view) (showMessage m t).
Proof. unfold showMessage. stable_go. Qed.

Lemma showMessage_pyramidChart m t : stable (same pyramidChart) (showMessage m t).
Proof. unfold showMessage. stable_go. Qed.

#[export] Hint Resolve showMessage_chart showMessage_data
  showMessage_pyramidChart : stable.

Lemma stopAnimation_data : stable (same data_view) stopAnimation.
Proof. unfold stopAnimation. stable_go. Qed.

Lemma stopAnimation_pyramidChart : stable (same pyramidChart) stopAnimation.
Proof. unfold stopAnimation. stable_go. Qed.

Lemma updateChartForAnimation_allYearsData i :
  stable (same allYearsData) (updateChartForAnimation i).
Proof. unfold updateChartForAnimation. stable_go. Qed.

Lemma updateChartForAnimation_timer i :
  stable (same timer_view) (updateChartForAnimation i).
Proof. unfold updateChartForAnimation. stable_go. Qed.

Lemma tick_allYearsData : stable (same allYearsData) tick.
Proof.
  pose proof updateChartForAnimation_allYearsData.
  unfold tick. stable_go.
Qed.

(** ** The guard of [updateChartForAnimation] *)

Lemma out_of_range_guard (z : Z) (n : nat) :
  ¬ (0 ≤ z ≤ Z.of_nat n - 1)%Z →
  Js.lt (Js.Num z) (Js.Num 0) || Js.ge (Js.Num z) (Js.Num (Z.of_nat n)) = true.
Proof.
  intros Hout. unfold Js.lt, Js.ge.
  repeat case_bool_decide; simpl; auto; lia.
Qed.

Lemma in_range_guard (z : Z) (n : nat) :
  (0 ≤ z ≤ Z.of_nat n - 1)%Z →
  Js.lt (Js.Num z) (Js.Num 0) || Js.ge (Js.Num z) (Js.Num (Z.of_nat n)) = false.
Proof.
  intros Hin. unfold Js.lt, Js.ge.
  repeat case_bool_decide; simpl; auto; lia.
Qed.

(** Once past its guard, [updateChartForAnimation] has stored the index it
    was given, also when it goes on to throw. *)
Lemma updateChartForAnimation_index (i : Js.num) (s : State) :
  currentYearIndex (state_of (updateChartForAnimation i s)) = i
  ∨ state_of (updateChartForAnimation i s) = s.
Proof.
  unfold updateChartForAnimation, bind, get, modify. cbv beta iota.
  destruct (_ || _); [by right|left].
  unfold on_element, on_pyramidChart, set_dataset_data, modify, throw.
  simpl. repeat (case_match; simplify_eq/=; try done).
Qed.

Lemma tick_index (s : State) :
  currentYearIndex (state_of (tick s))
  = Js.rem (Js.add (currentYearIndex s) (Js.Num 1)) (Js.length (allYearsData s)).
Proof.
  unfold tick, bind, get, modify. cbv beta iota.
  match goal with
  | |- context [updateChartForAnimation ?i ?s'] =>
      destruct (updateChartForAnimation_index i s') as [H|H]; rewrite H; done
  end.
Qed.

Lemma ticks_allYearsData (k : nat) (s : State) :
  allYearsData (ticks k s) = allYearsData s.
Proof.
  induction k as [|k IH]; [done|].
  unfold ticks in *. simpl. rewrite <- IH. symmetry. apply tick_allYearsData.
Qed.

Lemma ticks_index (k : nat) (s : State) (i : Z) :
  currentYearIndex s = Js.Num i →
  (0 ≤ i < Z.of_nat (length (allYearsData s)))%Z →
  currentYearIndex (ticks k s)
  = Js.Num ((i + Z.of_nat k) mod Z.of_nat (length (allYearsData s))).
Proof.
  intros Hi Hrange. induction k as [|k IH].
  - simpl. rewrite Z.add_0_r, Z.mod_small by lia. done.
  - change (ticks (S k) s) with (state_of (tick (ticks k s))).
    rewrite tick_index, IH, ticks_allYearsData. unfold Js.add, Js.rem, Js.length.
    rewrite bool_decide_eq_false_2 by lia. f_equal.
    rewrite Z.rem_mod_nonneg.
    + rewrite Zplus_mod_idemp_l. f_equal. lia.
    + pose proof (Z.mod_pos_bound (i + Z.of_nat k)
                    (Z.of_nat (length (allYearsData s)))). lia.
    + lia.
Qed.

(** C3. One tick stores [(currentYearIndex + 1) % allYearsData.length]; from
    any index of a series of length [N >= 1], [N] ticks bring
    [currentYearIndex] back to where it started, and no smaller positive
    number of ticks does. *)
Theorem tick_cycle (s : State) (N i : Z) :
  Z.of_nat (length (allYearsData s)) = N →
  (1 ≤ N)%Z →
  currentYearIndex s = Js.Num i →
  (0 ≤ i ≤ N - 1)%Z →
  currentYearIndex (state_of (tick s)) = Js.Num ((i + 1) mod N)
  ∧ currentYearIndex (ticks (Z.to_nat N) s) = Js.Num i
  ∧ ∀ k : nat, (0 < Z.of_nat k < N)%Z →
               currentYearIndex (ticks k s) ≠ Js.Num i.
Proof.
  intros HN Hpos Hi Hrange. subst N. split; [|split].
  - change (state_of (tick s)) with (ticks 1 s).
    rewrite (ticks_index 1 s i) by (done || lia). done.
  - rewrite (ticks_index _ s i) by (done || lia).
    rewrite Nat2Z.id. f_equal.
    replace (i + Z.of_nat (length (allYearsData s)))%Z
      with (i + 1 * Z.of_nat (length (allYearsData s)))%Z by lia.
    rewrite Z_mod_plus_full, Z.mod_small by lia. done.
  - intros k Hk. rewrite (ticks_index k s i) by (done || lia).
    intros [= Heq].
    destruct (Z_lt_le_dec (i + Z.of_nat k) (Z.of_nat (length (allYearsData s))))
      as [Hlt|Hge].
    + rewrite Z.mod_small in Heq by lia. lia.
    + replace (i + Z.of_nat k)
        with ((i + Z.of_nat k - Z.of_nat (length (allYearsData s)))
              + 1 * Z.of_nat (length (allYearsData s)))%Z in Heq by lia.
      rewrite Z_mod_plus_full, Z.mod_small in Heq by lia. lia.
Qed.

(** C10. For an integer [dataIndex] below [0] or at least
    [allYearsData.length], [updateChartForAnimation] returns at once and the
    state (index, chart, year display and all the rest) is the one it was
    called in. *)
Theorem updateChartForAnimation_out_of_range (s : State) (z : Z) :
  ¬ (0 ≤ z ≤ Z.of_nat (length (allYearsData s)) - 1)%Z →
  updateChartForAnimation (Js.Num z) s = Ret tt s.
Proof.
  intros Hout. unfold updateChartForAnimation, bind, get, Js.length.
  cbv beta iota. rewrite out_of_range_guard by done. reflexivity.
Qed.

(** ** [processRawData] *)

Lemma heap_alloc_reverse (h : list (list AgeRow)) (rows : list AgeRow) :
  alter reverse (length h) (h ++ [rows])%list = (h ++ [reverse rows])%list.
Proof.
  replace (length h) with (length h + 0)%nat by lia.
  by rewrite alter_app_r.
Qed.

(** The outcome of [processRawData], in full: one entry built from the
    reversed copy, and a heap that has grown by that copy. *)
Lemma processRawData_outcome (rawData : RawCountryDataset) (rows : list AgeRow) (s : State) :
  heap s !! raw_data rawData = Some rows →
  processRawData rawData s
  = Ret [ {| year := raw_year rawData;
             country := raw_country rawData;
             ageGroups := ageGroup <$> reverse rows;
             male := row_male <$> reverse rows;
             female := row_female <$> reverse rows |} ]
        (set_heap (heap s ++ [reverse rows]) s).
Proof.
  intros Hrows.
  unfold processRawData, bind, array_read, array_alloc, array_reverse, modify, ret.
  rewrite Hrows. simpl. rewrite heap_alloc_reverse.
  rewrite lookup_app_r, Nat.sub_diag by lia. simpl.
  reflexivity.
Qed.

(** C1. [processRawData] returns exactly one entry; its [ageGroups], [male]
    and [female] are the input rows' fields in reverse order, all three as
    long as the input; and every array that was in the heap before the call,
    the input's [data] among them, still holds what it held. *)
Theorem processRawData_reverses
    (rawData : RawCountryDataset) (rows : list AgeRow) (s : State) :
  heap s !! raw_data rawData = Some rows →
  ∃ entry s',
    processRawData rawData s = Ret [entry] s'
    ∧ year entry = raw_year rawData
    ∧ country entry = raw_country rawData
    ∧ ageGroups entry = reverse (ageGroup <$> rows)
    ∧ male entry = reverse (row_male <$> rows)
    ∧ female entry = reverse (row_female <$> rows)
    ∧ length (ageGroups entry) = length rows
    ∧ length (male entry) = length rows
    ∧ length (female entry) = length rows
    ∧ heap s' !! raw_data rawData = Some rows
    ∧ ∀ r, (r < length (heap s))%nat → heap s' !! r = heap s !! r.
Proof.
  intros Hrows. eexists _, _.
  split; [apply processRawData_outcome, Hrows|]. simpl.
  rewrite !fmap_reverse, !length_reverse, !length_fmap.
  repeat split; try done.
  - rewrite lookup_app_l; [done|]. by eapply lookup_lt_Some.
  - intros r Hr. by rewrite lookup_app_l.
Qed.

(** ** [initializeChart] *)

Lemma lookup_in_range {A} (l : list A) (n : nat) (x : A) :
  l !! n = Some x → (0 ≤ Z.of_nat n ≤ Z.of_nat (length l) - 1)%Z.
Proof. intros H. apply lookup_lt_Some in H. lia. Qed.

Lemma index_of_nat {A} (l : list A) (n : nat) :
  Js.index l (Js.Num (Z.of_nat n)) = l !! n.
Proof.
  unfold Js.index. rewrite bool_decide_eq_true_2 by lia. by rewrite Nat2Z.id.
Qed.

(** With the canvas in step with [pyramidChart], drawing an entry of the
    series never throws and leaves the state [drawn]. *)
Lemma initializeChart_draws (s : State) (n : nat) (e : YearSeriesEntry) :
  chart_ok s →
  allYearsData s !! n = Some e →
  initializeChart (Js.Num (Z.of_nat n)) s = Ret tt (drawn e (Js.Num (Z.of_nat n)) s).
Proof.
  intros Hok He. pose proof (lookup_in_range _ _ _ He) as Hrange.
  unfold initializeChart, bind, get, Js.length. cbv beta iota.
  rewrite <- orb_assoc, in_range_guard by done.
  rewrite bool_decide_eq_false_2 by lia. cbn [orb].
  rewrite index_of_nat, He.
  unfold chart_ok in Hok. unfold on_element, modify, chart_destroy, new_Chart.
  unfold ret, drawn. simpl.
  destruct (pyramidChart s) as [c|] eqn:Hc; simpl in *; rewrite Hok; simpl.
  - rewrite (bool_decide_eq_true_2 (chart_id c = chart_id c)) by done. simpl.
    rewrite andb_false_r. reflexivity.
  - rewrite andb_false_r. reflexivity.
Qed.

Lemma drawn_chart_ok (e : YearSeriesEntry) (i : Js.num) (s : State) :
  chart_ok (drawn e i s).
Proof. reflexivity. Qed.

(** ** The canvas holds at most the chart of [pyramidChart] *)

Lemma chart_ok_view (s s' : State) : same chart_view s s' → keeps chart_ok s s'.
Proof.
  unfold same, chart_view, keeps, chart_ok. intros [= Hc Hv] Hok.
  rewrite <- Hv, Hok. revert Hc.
  destruct (pyramidChart s), (pyramidChart s'); intros; simplify_eq/=; congruence.
Qed.

Lemma on_pyramidChart_chart_view (f : Chart → Chart) :
  (∀ c, chart_id (f c) = chart_id c) →
  stable (same chart_view) (on_pyramidChart f).
Proof.
  intros Hf s. unfold on_pyramidChart, same, chart_view.
  destruct (pyramidChart s) as [c|] eqn:Hc; simpl; rewrite ?Hc, ?Hf; done.
Qed.

Lemma set_dataset_data_chart_view (i : nat) (v : list Z) :
  stable (same chart_view) (set_dataset_data i v).
Proof.
  intros s. unfold set_dataset_data, same, chart_view.
  destruct (pyramidChart s) as [c|] eqn:Hc; simpl; rewrite ?Hc; [|done].
  destruct (datasets c !! i); simpl; rewrite ?Hc; done.
Qed.

#[export] Hint Resolve set_dataset_data_chart_view : stable.
#[export] Hint Extern 1 (stable (same chart_view) (on_pyramidChart _)) =>
  apply on_pyramidChart_chart_view; intros ?; reflexivity : stable.

Lemma updateChartForAnimation_chart_view i :
  stable (same chart_view) (updateChartForAnimation i).
Proof. unfold updateChartForAnimation. stable_go. Qed.

Lemma resizeChart_chart_view : stable (same chart_view) resizeChart.
Proof. unfold resizeChart. stable_go. Qed.

Lemma initializeChart_chart_ok i : stable (keeps chart_ok) (initializeChart i).
Proof.
  intros s Hok.
  destruct (Js.index (allYearsData s) i) as [e|] eqn:He.
  - destruct i as [|z]; [done|]. unfold Js.index in He. case_bool_decide; [|done].
    rewrite <- (Z2Nat.id z) by done.
    rewrite (initializeChart_draws s _ e) by done. apply drawn_chart_ok.
  - revert Hok. apply chart_ok_view. revert s He.
    unfold initializeChart, bind, get. cbv beta iota. intros s He.
    destruct (_ || _).
    + assert (stable (same chart_view)
        (bind (showMessage "No data available to display chart." "error")
          (λ _, bind (on_element "dataSourceInfo" (set_textContent "Error: Could not load data."))
            (λ _, on_element "currentYearDisplay" (set_textContent "Year: ---"))))) as H
        by stable_go.
      apply H.
    + rewrite He. done.
Qed.

#[export] Hint Resolve updateChartForAnimation_chart_view resizeChart_chart_view
  initializeChart_chart_ok : stable.
#[export] Hint Extern 5 (stable (keeps chart_ok) _) =>
  apply (stable_weaken (same chart_view)); [exact chart_ok_view|] : stable.

(** The handlers and loaders, laid open down to the functions that have
    frame lemmas of their own. *)
Ltac unfold_script :=
  unfold loadCountryList_resume, loadCountryList_begin, onCountryChange,
    onPlayPauseClick, onSliderInput, run_callback, loadAndDisplayChart_resume,
    loadAndDisplayChart_begin, selectRequestedYear, tick, json_document,
    processRawData, setupControls, showLoading, hideMessage.

Lemma append_options_stable (R : State → State → Prop) `{!PreOrder R} l :
  (∀ f, stable R (on_element "countrySelector" f)) →
  stable R (append_options l).
Proof.
  intros H. induction l as [|c l IH]; simpl.
  - by apply stable_ret.
  - apply stable_bind; [done|apply H|intros _; apply IH].
Qed.

Lemma append_options_chart_ok l : stable (keeps chart_ok) (append_options l).
Proof. apply append_options_stable; [apply _|]. intros f. stable_prim. Qed.
#[export] Hint Resolve append_options_chart_ok : stable.

Lemma stopAnimation_chart_ok : stable (keeps chart_ok) stopAnimation.
Proof. unfold stopAnimation. stable_go. Qed.
Lemma startAnimation_chart_ok : stable (keeps chart_ok) startAnimation.
Proof. unfold startAnimation. stable_go. Qed.
Lemma onResize_chart_ok : stable (keeps chart_ok) onResize.
Proof. unfold onResize. stable_go. Qed.
#[export] Hint Resolve stopAnimation_chart_ok startAnimation_chart_ok onResize_chart_ok : stable.

Lemma loadAndDisplayChart_resume_chart_ok p r :
  stable (keeps chart_ok) (loadAndDisplayChart_resume p r).
Proof. unfold_script. stable_go. Qed.

Lemma loadCountryList_resume_chart_ok r :
  stable (keeps chart_ok) (loadCountryList_resume r).
Proof. unfold_script. stable_go. Qed.

Lemma run_callback_chart_ok cb : stable (keeps chart_ok) (run_callback cb).
Proof. destruct cb; unfold_script; stable_go. Qed.

Lemma dispatch_chart_ok (ev : Event) (s : State) :
  chart_ok s → chart_ok (dispatch ev s).
Proof.
  destruct ev; simpl.
  - apply (stable_run_listeners (keeps chart_ok)). unfold_script. stable_go.
  - apply (stable_run_listeners (keeps chart_ok)). unfold_script. stable_go.
  - assert (stable (keeps chart_ok) (onCountryChange target_value)) as H
      by (unfold_script; stable_go). apply H.
  - apply onResize_chart_ok.
  - unfold fire_timer. destruct (timers s !! id) as [[cb|cb]|]; [| |done].
    + apply run_callback_chart_ok.
    + intros Hok. by apply run_callback_chart_ok.
  - apply loadCountryList_resume_chart_ok.
  - apply loadAndDisplayChart_resume_chart_ok.
Qed.

Lemma run_chart_ok (evs : list Event) (s : State) :
  chart_ok s → chart_ok (run evs s).
Proof.
  revert s. induction evs as [|ev evs IH]; intros s Hok; [done|].
  simpl. apply IH, dispatch_chart_ok, Hok.
Qed.

Lemma chart_ok_at_most_one (s : State) :
  chart_ok s → (length (canvasCharts s) ≤ 1)%nat.
Proof. unfold chart_ok. intros ->. destruct (pyramidChart s); simpl; lia. Qed.

Lemma drawn_document_twice (e : YearSeriesEntry) (i : Js.num) (s : State) :
  document (drawn e i (drawn e i s)) = document (drawn e i s).
Proof.
  unfold drawn. simpl.
  apply map_eq. intros k.
  rewrite !lookup_alter.
  repeat case_decide; simplify_eq;
    match goal with
    | |- context [document s !! ?x] => destruct (document s !! x); done
    end.
Qed.

(** C5. Drawing the same entry twice leaves what drawing it once leaves,
    up to the identity of the chart: the second call destroys the chart of
    the first before it constructs its own, which shows the same picture and
    is alone on the canvas; nothing else in the state differs; and from then
    on the canvas never holds more than one chart. *)
Theorem initializeChart_idempotent (s : State) (n : nat) (entry : YearSeriesEntry) :
  chart_ok s →
  allYearsData s !! n = Some entry →
  ∃ s1 s2 c1 c2,
    initializeChart (Js.Num (Z.of_nat n)) s = Ret tt s1
    ∧ initializeChart (Js.Num (Z.of_nat n)) s1 = Ret tt s2
    ∧ pyramidChart s1 = Some c1
    ∧ pyramidChart s2 = Some c2
    ∧ same_picture c1 c2
    ∧ canvasCharts s1 = [chart_id c1]
    ∧ canvasCharts s2 = [chart_id c2]
    ∧ s2 = set_pyramidChart (Some c2)
             (set_nextChartId (nextChartId s2)
                (set_canvasCharts [chart_id c2] s1))
    ∧ ∀ evs, (length (canvasCharts (run evs s2)) ≤ 1)%nat.
Proof.
  intros Hok He.
  pose proof (initializeChart_draws s n entry Hok He) as H1.
  pose proof (initializeChart_draws (drawn entry (Js.Num (Z.of_nat n)) s) n entry
                (drawn_chart_ok _ _ _) He) as H2.
  eexists _, _, _, _.
  split; [exact H1|]. split; [exact H2|].
  split; [reflexivity|]. split; [reflexivity|].
  split; [by repeat split|]. split; [reflexivity|]. split; [reflexivity|].
  split.
  - pose proof (drawn_document_twice entry (Js.Num (Z.of_nat n)) s) as Hdoc.
    unfold drawn in *. simpl in *. unfold set_pyramidChart. simpl.
    f_equal. exact Hdoc.
  - intros evs. apply chart_ok_at_most_one, run_chart_ok, drawn_chart_ok.
Qed.

(** ** What is drawn, and what is shown of it *)

Lemma tooltip_label_bar (toLocaleString : Z → string) (d : Dataset) (j : nat) (x : Z) :
  label d ≠ "" →
  data d !! j = Some x →
  tooltip_label toLocaleString (tooltip_context d j)
  = label d ++ ": " ++ toLocaleString (Z.abs x).
Proof.
  intros Hl Hx. unfold tooltip_label, tooltip_context. simpl. rewrite Hx.
  rewrite !(bool_decide_eq_false_2 (label d = "")) by done. simpl.
  by rewrite string_app_assoc.
Qed.

(** C4. The chart drawn for an entry has two datasets: the first holds the
    entry's [male] values negated, the second its [female] values as they
    are.  The tick callback of the value axis returns the absolute value of
    the tick, and the tooltip label of every bar is the dataset's label
    followed by the absolute value of the bar's datum, so that a male bar
    bound to [-m] shows [|m|]; the number handed to the formatter is never
    negative. *)
Theorem rendered_series_signs
    (toLocaleString : Z → string) (s : State) (n : nat) (entry : YearSeriesEntry) :
  chart_ok s →
  allYearsData s !! n = Some entry →
  ∃ s' c male_ds female_ds,
    initializeChart (Js.Num (Z.of_nat n)) s = Ret tt s'
    ∧ pyramidChart s' = Some c
    ∧ labels c = ageGroups entry
    ∧ datasets c = [male_ds; female_ds]
    ∧ data male_ds = Z.opp <$> male entry
    ∧ data female_ds = female entry
    ∧ (∀ v, ticks_callback v = Z.abs v ∧ (0 ≤ ticks_callback v)%Z)
    ∧ (∀ d j x, d ∈ datasets c → data d !! j = Some x →
         tooltip_label toLocaleString (tooltip_context d j)
         = label d ++ ": " ++ toLocaleString (Z.abs x)
         ∧ (0 ≤ Z.abs x)%Z)
    ∧ (∀ j m, male entry !! j = Some m →
         data male_ds !! j = Some (- m)%Z
         ∧ tooltip_label toLocaleString (tooltip_context male_ds j)
           = "Male: " ++ toLocaleString (Z.abs m))
    ∧ (∀ j f, female entry !! j = Some f →
         data female_ds !! j = Some f
         ∧ tooltip_label toLocaleString (tooltip_context female_ds j)
           = "Female: " ++ toLocaleString (Z.abs f)).
Proof.
  intros Hok He. eexists _, _, _, _.
  split; [apply initializeChart_draws; done|].
  split; [reflexivity|]. split; [reflexivity|]. split; [reflexivity|].
  split; [reflexivity|]. split; [reflexivity|].
  split; [|split; [|split]].
  - intros v. unfold ticks_callback. split; [done|apply Z.abs_nonneg].
  - intros d j x Hd Hx. split; [|apply Z.abs_nonneg].
    apply tooltip_label_bar; [|done].
    simpl in Hd. rewrite !elem_of_cons, elem_of_nil in Hd.
    destruct Hd as [->|[->|[]]]; done.
  - intros j m Hm. simpl.
    assert ((Z.opp <$> male entry) !! j = Some (- m)%Z) as Hneg
      by (by rewrite list_lookup_fmap, Hm).
    split; [done|].
    rewrite (tooltip_label_bar _ _ _ (- m)%Z) by done.
    simpl. by rewrite Z.abs_opp.
  - intros j f Hf. simpl. split; [done|].
    by rewrite (tooltip_label_bar _ _ _ f).
Qed.

(** [updateChartForAnimation] binds the same two series to the chart it
    finds, which keeps its identity and is redrawn once. *)
Lemma updateChartForAnimation_binds
    (s : State) (n : nat) (entry : YearSeriesEntry) (c : Chart) (d0 d1 : Dataset) :
  allYearsData s !! n = Some entry →
  pyramidChart s = Some c →
  datasets c = [d0; d1] →
  ∃ s' c',
    updateChartForAnimation (Js.Num (Z.of_nat n)) s = Ret tt s'
    ∧ currentYearIndex s' = Js.Num (Z.of_nat n)
    ∧ pyramidChart s' = Some c'
    ∧ chart_id c' = chart_id c
    ∧ updates c' = S (updates c)
    ∧ labels c' = ageGroups entry
    ∧ datasets c' = [ set_data (Z.opp <$> male entry) d0;
                      set_data (female entry) d1 ].
Proof.
  intros He Hc Hds. pose proof (lookup_in_range _ _ _ He) as Hrange.
  unfold updateChartForAnimation, bind, get, Js.length. cbv beta iota.
  rewrite in_range_guard by done.
  unfold modify at 1. cbv beta iota. cbn [currentYearIndex set_currentYearIndex allYearsData].
  rewrite index_of_nat, He.
  unfold on_element, modify, on_pyramidChart, set_dataset_data. simpl.
  rewrite Hc. simpl. rewrite Hds. simpl.
  eexists _, _. split; [reflexivity|]. simpl. repeat split; reflexivity.
Qed.

(** ** The timer table *)

Section TimersInv.

Context (table : gmap nat Timer) (next : nat) (playing : bool)
        (animation resize : option nat).

Lemma is_tick_insert_fresh (t : Timer) (id : nat) :
  table !! next = None →
  timer_callback t ≠ CbTick →
  is_tick (<[next := t]> table) id ↔ is_tick table id.
Proof.
  intros Hnone Ht. unfold is_tick. destruct (decide (id = next)) as [->|Hne].
  - rewrite lookup_insert_eq, Hnone. simpl. split; [intros [=]; done|intros [=]].
  - by rewrite lookup_insert_ne.
Qed.

Lemma is_tick_delete (id id' : nat) :
  is_tick (delete id table) id' ↔ id' ≠ id ∧ is_tick table id'.
Proof.
  unfold is_tick. destruct (decide (id' = id)) as [->|Hne].
  - rewrite lookup_delete_eq. simpl. split; [intros [=]|intros [? _]; done].
  - rewrite lookup_delete_ne by done. split; [done|by intros [_ ?]].
Qed.

Lemma timers_inv_fresh :
  timers_inv table next playing animation resize → table !! next = None.
Proof.
  intros (Hfresh & _). destruct (table !! next) eqn:E; [|done].
  apply Hfresh in E. lia.
Qed.

Lemma timers_inv_timeout (cb : Callback) :
  cb ≠ CbTick →
  timers_inv table next playing animation resize →
  timers_inv (<[next := Timeout cb]> table) (S next) playing animation resize.
Proof.
  intros Hcb Hinv. pose proof (timers_inv_fresh Hinv) as Hnone.
  destruct Hinv as (Hfresh & Hrz & Hplay).
  pose proof (λ id, is_tick_insert_fresh (Timeout cb) id Hnone Hcb) as Htick.
  split; [|split].
  - intros id t. destruct (decide (id = next)) as [->|Hne]; [lia|].
    rewrite lookup_insert_ne by done. intros H. apply Hfresh in H. lia.
  - intros id Hid. destruct (Hrz id Hid) as [Hlt Hno].
    split; [lia|]. by rewrite Htick.
  - destruct playing.
    + destruct Hplay as (id & Ha & Hp & Huniq). exists id.
      split; [done|]. split.
      * rewrite lookup_insert_ne; [done|]. apply Hfresh in Hp. lia.
      * intros id' H'. apply Huniq. by apply Htick.
    + intros id. rewrite Htick. apply Hplay.
Qed.

Lemma timers_inv_delete (id : nat) :
  ¬ is_tick table id →
  timers_inv table next playing animation resize →
  timers_inv (delete id table) next playing animation resize.
Proof.
  intros Hid (Hfresh & Hrz & Hplay).
  split; [|split].
  - intros id' t H. apply lookup_delete_Some in H as [_ H]. eauto.
  - intros id' Hid'. destruct (Hrz id' Hid') as [Hlt Hno].
    split; [done|]. rewrite is_tick_delete. by intros [_ ?].
  - destruct playing.
    + destruct Hplay as (a & Ha & Hp & Huniq). exists a.
      split; [done|]. split.
      * rewrite lookup_delete_ne; [done|]. intros ->. apply Hid.
        unfold is_tick. by rewrite Hp.
      * intros id' H'. apply Huniq. by apply is_tick_delete in H' as [_ ?].
    + intros id'. rewrite is_tick_delete. intros [_ ?]. by eapply Hplay.
Qed.

End TimersInv.

Lemma timers_inv_clear_resize table next playing animation resize :
  timers_inv table next playing animation resize →
  timers_inv (from_option (λ id, delete id table) table resize)
    next playing animation resize.
Proof.
  intros Hinv. destruct resize as [id|]; simpl; [|done].
  apply timers_inv_delete; [|done].
  destruct Hinv as (_ & Hrz & _). by apply (Hrz id).
Qed.

Lemma timers_inv_set_resize table next playing animation resize cb :
  cb ≠ CbTick →
  timers_inv table next playing animation resize →
  timers_inv (<[next := Timeout cb]> table) (S next) playing animation (Some next).
Proof.
  intros Hcb Hinv.
  pose proof (timers_inv_timeout _ _ _ _ _ cb Hcb Hinv) as (H1 & H2 & H3).
  split; [done|]. split; [|done].
  intros id [= <-]. split; [lia|].
  unfold is_tick. rewrite lookup_insert_eq. simpl. congruence.
Qed.

Lemma timers_inv_stop table next animation resize :
  timers_inv table next true animation resize →
  timers_inv (from_option (λ id, delete id table) table animation)
    next false animation resize.
Proof.
  intros (Hfresh & Hrz & (a & -> & Hp & Huniq)). simpl.
  split; [|split].
  - intros id t H. apply lookup_delete_Some in H as [_ H]. eauto.
  - intros id Hid. destruct (Hrz id Hid) as [Hlt Hno]. split; [done|].
    rewrite is_tick_delete. by intros [_ ?].
  - intros id. rewrite is_tick_delete. intros [Hne H]. by apply Huniq in H.
Qed.

Lemma timers_inv_start table next animation resize :
  timers_inv table next false animation resize →
  timers_inv (<[next := Interval CbTick]> table) (S next) true (Some next) resize.
Proof.
  intros (Hfresh & Hrz & Hnone).
  assert (∀ id, id ≠ next →
            is_tick (<[next:=Interval CbTick]> table) id ↔ is_tick table id) as Htick.
  { intros id Hne. unfold is_tick. by rewrite lookup_insert_ne. }
  split; [|split].
  - intros id t. destruct (decide (id = next)) as [->|Hne]; [lia|].
    rewrite lookup_insert_ne by done. intros H. apply Hfresh in H. lia.
  - intros id Hid. destruct (Hrz id Hid) as [Hlt Hno]. split; [lia|].
    rewrite Htick by lia. done.
  - exists next. split; [done|]. split; [by rewrite lookup_insert_eq|].
    intros id'. destruct (decide (id' = next)) as [->|Hne]; [done|].
    rewrite Htick by done. intros H. by apply Hnone in H.
Qed.

(** *** What the functions that touch the timer table do to it *)

Lemma showMessage_timer_view (m t : string) (s : State) :
  timer_view (state_of (showMessage m t s))
  = (<[nextTimer s := Timeout CbHideMessage]> (timers s), S (nextTimer s),
     isPlaying s, animationInterval s, resizeTimeout s).
Proof. reflexivity. Qed.

Lemma timers_ok_of_view (s : State) table next playing animation resize :
  timer_view s = (table, next, playing, animation, resize) →
  timers_inv table next playing animation resize →
  timers_ok s.
Proof. unfold timer_view, timers_ok. by intros [= -> -> -> -> ->]. Qed.

Lemma timers_ok_view (s s' : State) : same timer_view s s' → keeps timers_ok s s'.
Proof. unfold same, keeps. intros Hv Hok. eapply timers_ok_of_view; [by symmetry|done]. Qed.

Lemma showMessage_timers_ok m t : stable (keeps timers_ok) (showMessage m t).
Proof.
  intros s Hok. eapply timers_ok_of_view; [apply showMessage_timer_view|].
  by apply timers_inv_timeout.
Qed.

Lemma stopAnimation_idle (s : State) :
  isPlaying s = false → stopAnimation s = Ret tt s.
Proof. intros H. unfold stopAnimation, bind, get. by rewrite H. Qed.

Lemma stopAnimation_timer_view (s : State) :
  isPlaying s = true →
  timer_view (state_of (stopAnimation s))
  = (<[nextTimer s := Timeout CbHideMessage]>
       (from_option (λ id, delete id (timers s)) (timers s) (animationInterval s)),
     S (nextTimer s), false, animationInterval s, resizeTimeout s).
Proof.
  intros H. unfold stopAnimation, bind, get. rewrite H. simpl.
  unfold clearTimer, timer_view.
  destruct (animationInterval s) eqn:Ha; simpl; rewrite ?Ha; reflexivity.
Qed.

Lemma stopAnimation_timers_ok : stable (keeps timers_ok) stopAnimation.
Proof.
  intros s Hok. destruct (isPlaying s) eqn:Hp.
  - eapply timers_ok_of_view; [by apply stopAnimation_timer_view|].
    apply timers_inv_timeout; [done|]. apply timers_inv_stop.
    unfold timers_ok in Hok. by rewrite Hp in Hok.
  - by rewrite stopAnimation_idle.
Qed.

Lemma startAnimation_idle (s : State) :
  isPlaying s = true ∨ (length (allYearsData s) ≤ 1)%nat →
  startAnimation s = Ret tt s.
Proof.
  intros H. unfold startAnimation, bind, get. cbv beta iota.
  destruct H as [->|H]; [done|].
  rewrite (bool_decide_eq_true_2 _ H). by rewrite orb_true_r.
Qed.

Lemma startAnimation_timer_view (s : State) :
  isPlaying s = false →
  (1 < length (allYearsData s))%nat →
  timer_view (state_of (startAnimation s))
  = (<[S (nextTimer s) := Timeout CbHideMessage]>
       (<[nextTimer s := Interval CbTick]> (timers s)),
     S (S (nextTimer s)), true, Some (nextTimer s), resizeTimeout s).
Proof.
  intros Hp Hlen. unfold startAnimation, bind, get. cbv beta iota.
  rewrite Hp, bool_decide_eq_false_2 by lia. reflexivity.
Qed.

Lemma startAnimation_timers_ok : stable (keeps timers_ok) startAnimation.
Proof.
  intros s Hok.
  destruct (isPlaying s) eqn:Hp; [rewrite startAnimation_idle by auto; done|].
  destruct (decide (length (allYearsData s) ≤ 1)%nat) as [Hle|Hgt];
    [rewrite startAnimation_idle by auto; done|].
  eapply timers_ok_of_view; [apply startAnimation_timer_view; [done|lia]|].
  apply timers_inv_timeout; [done|]. eapply timers_inv_start.
  unfold timers_ok in Hok. rewrite Hp in Hok. exact Hok.
Qed.

Lemma onResize_timer_view (s : State) :
  timer_view (state_of (onResize s))
  = (<[nextTimer s := Timeout CbResize]>
       (from_option (λ id, delete id (timers s)) (timers s) (resizeTimeout s)),
     S (nextTimer s), isPlaying s, animationInterval s, Some (nextTimer s)).
Proof.
  unfold onResize, bind, get, clearTimer, timer_view. cbv beta iota.
  destruct (resizeTimeout s) eqn:Hr; simpl; rewrite ?Hr; reflexivity.
Qed.

Lemma onResize_timers_ok : stable (keeps timers_ok) onResize.
Proof.
  intros s Hok. eapply timers_ok_of_view; [apply onResize_timer_view|].
  apply timers_inv_set_resize with (resize := resizeTimeout s); [done|].
  apply timers_inv_clear_resize, Hok.
Qed.

#[export] Hint Resolve showMessage_timers_ok stopAnimation_timers_ok
  startAnimation_timers_ok onResize_timers_ok updateChartForAnimation_timer : stable.
#[export] Hint Extern 5 (stable (keeps timers_ok) _) =>
  apply (stable_weaken (same timer_view)); [exact timers_ok_view|] : stable.

Lemma append_options_timers_ok l : stable (keeps timers_ok) (append_options l).
Proof. apply append_options_stable; [apply _|]. intros f. stable_prim. Qed.
#[export] Hint Resolve append_options_timers_ok : stable.

Lemma initializeChart_timers_ok i : stable (keeps timers_ok) (initializeChart i).
Proof. unfold initializeChart. stable_go. Qed.
#[export] Hint Resolve initializeChart_timers_ok : stable.

Lemma resizeChart_timers_ok : stable (keeps timers_ok) resizeChart.
Proof. unfold resizeChart. stable_go. Qed.
#[export] Hint Resolve resizeChart_timers_ok : stable.

Lemma timeout_not_tick (s : State) (id : nat) (cb : Callback) :
  timers_ok s → timers s !! id = Some (Timeout cb) → ¬ is_tick (timers s) id.
Proof.
  intros (_ & _ & Hplay) Hid Htick. destruct (isPlaying s).
  - destruct Hplay as (a & _ & Hp & Huniq).
    apply Huniq in Htick as ->. rewrite Hid in Hp. done.
  - by apply (Hplay id).
Qed.

Lemma run_callback_timers_ok cb : stable (keeps timers_ok) (run_callback cb).
Proof. destruct cb; unfold_script; stable_go. Qed.

Lemma dispatch_timers_ok (ev : Event) (s : State) :
  timers_ok s → timers_ok (dispatch ev s).
Proof.
  destruct ev; simpl.
  - apply (stable_run_listeners (keeps timers_ok)). unfold_script. stable_go.
  - apply (stable_run_listeners (keeps timers_ok)). unfold_script. stable_go.
  - assert (stable (keeps timers_ok) (onCountryChange target_value)) as H
      by (unfold_script; stable_go). apply H.
  - apply onResize_timers_ok.
  - unfold fire_timer. destruct (timers s !! id) as [[cb|cb]|] eqn:Hid; [| |done].
    + apply run_callback_timers_ok.
    + intros Hok. apply run_callback_timers_ok.
      unfold timers_ok. simpl. apply timers_inv_delete; [|done].
      by apply (timeout_not_tick s id cb).
  - assert (stable (keeps timers_ok) (loadCountryList_resume response)) as H
      by (unfold_script; stable_go). apply H.
  - assert (stable (keeps timers_ok) (loadAndDisplayChart_resume jsonFilePath response)) as H
      by (unfold_script; stable_go). apply H.
Qed.

Lemma run_timers_ok (evs : list Event) (s : State) :
  timers_ok s → timers_ok (run evs s).
Proof.
  revert s. induction evs as [|ev evs IH]; intros s Hok; [done|].
  simpl. apply IH, dispatch_timers_ok, Hok.
Qed.

(** *** Only [startAnimation] leaves the [Stopped] state *)

Lemma stopped_view (s s' : State) : same timer_view s s' → keeps stopped s s'.
Proof. unfold same, timer_view, keeps, stopped. intros [= _ _ Hp _ _]. congruence. Qed.

#[export] Hint Extern 5 (stable (keeps stopped) _) =>
  apply (stable_weaken (same timer_view)); [exact stopped_view|] : stable.

Lemma showMessage_stopped m t : stable (keeps stopped) (showMessage m t).
Proof. unfold showMessage. stable_go. Qed.

Lemma stopAnimation_stopped : stable (keeps stopped) stopAnimation.
Proof. intros s Hs. by rewrite stopAnimation_idle. Qed.

Lemma stopAnimation_stops (s : State) : stopped (state_of (stopAnimation s)).
Proof.
  destruct (isPlaying s) eqn:Hp.
  - pose proof (stopAnimation_timer_view s Hp) as Hv.
    unfold timer_view in Hv. by injection Hv.
  - by rewrite stopAnimation_idle.
Qed.

Lemma initializeChart_stopped i : stable (keeps stopped) (initializeChart i).
Proof. pose proof showMessage_stopped. unfold initializeChart. stable_go. Qed.

Lemma append_options_stopped l : stable (keeps stopped) (append_options l).
Proof. apply append_options_stable; [apply _|]. intros f. stable_prim. Qed.

Lemma onResize_stopped : stable (keeps stopped) onResize.
Proof. unfold onResize. stable_go. Qed.

Lemma resizeChart_stopped : stable (keeps stopped) resizeChart.
Proof. unfold resizeChart. stable_go. Qed.

#[export] Hint Resolve showMessage_stopped stopAnimation_stopped
  initializeChart_stopped append_options_stopped onResize_stopped
  resizeChart_stopped : stable.

Lemma dispatch_stopped (ev : Event) (s : State) :
  ev ≠ PlayPauseClick → stopped s → stopped (dispatch ev s).
Proof.
  intros Hev. destruct ev; simpl; [done|..].
  - apply (stable_run_listeners (keeps stopped)). unfold_script. stable_go.
  - assert (stable (keeps stopped) (onCountryChange target_value)) as H
      by (unfold_script; stable_go). apply H.
  - apply onResize_stopped.
  - assert (∀ cb, stable (keeps stopped) (run_callback cb)) as Hcb
      by (intros []; unfold_script; stable_go).
    unfold fire_timer. destruct (timers s !! id) as [[cb|cb]|]; [| |done].
    + apply Hcb.
    + intros Hs. by apply Hcb.
  - assert (stable (keeps stopped) (loadCountryList_resume response)) as H
      by (unfold_script; stable_go). apply H.
  - assert (stable (keeps stopped) (loadAndDisplayChart_resume jsonFilePath response)) as H
      by (unfold_script; stable_go). apply H.
Qed.

Lemma run_stopped (evs : list Event) (s : State) :
  PlayPauseClick ∉ evs → stopped s → stopped (run evs s).
Proof.
  revert s. induction evs as [|ev evs IH]; intros s Hno Hs; [done|].
  simpl. apply not_elem_of_cons in Hno as [Hev Hno].
  apply IH; [done|]. apply dispatch_stopped; done.
Qed.

Lemma stopped_no_tick (s : State) (id : nat) :
  timers_ok s → stopped s → ¬ tick_pending s id.
Proof.
  unfold timers_ok, stopped, tick_pending. intros (_ & _ & H) Hs.
  rewrite Hs in H. apply H.
Qed.

(** With no tick pending, a timer that fires leaves the series and the index
    alone. *)
Lemma fire_timer_no_tick (s : State) (id : nat) :
  ¬ tick_pending s id → data_view (fire_timer id s) = data_view s.
Proof.
  unfold tick_pending, is_tick, fire_timer. intros Hno.
  destruct (timers s !! id) as [[[]|[]]|] eqn:Hid; simpl in Hno; try done.
  - unfold run_callback, resizeChart, bind, get, on_pyramidChart. simpl.
    destruct (pyramidChart s) eqn:E; simpl; rewrite ?E; done.
  - unfold run_callback, resizeChart, bind, get, on_pyramidChart. simpl.
    destruct (pyramidChart s) eqn:E; simpl; rewrite ?E; done.
Qed.

(** C7. Called while playing, [stopAnimation] returns with the controller
    stopped and the interval kept in [animationInterval] gone from the timer
    table, no tick left pending; as long as no click on the play button
    calls [startAnimation] again, whatever else happens, the controller
    stays stopped, no tick is pending, and a timer that fires leaves the
    series and the index alone.  Called while stopped, it changes
    nothing. *)
Theorem stopAnimation_cancels (s : State) :
  timers_ok s →
  (isPlaying s = true →
   ∃ id s',
     animationInterval s = Some id
     ∧ tick_pending s id
     ∧ stopAnimation s = Ret tt s'
     ∧ stopped s'
     ∧ timers s' !! id = None
     ∧ (∀ id', ¬ tick_pending s' id')
     ∧ ∀ evs, PlayPauseClick ∉ evs →
         stopped (run evs s')
         ∧ ∀ id', ¬ tick_pending (run evs s') id'
                  ∧ data_view (dispatch (TimerFires id') (run evs s'))
                    = data_view (run evs s'))
  ∧ (isPlaying s = false → stopAnimation s = Ret tt s).
Proof.
  intros Hok. split; [|apply stopAnimation_idle].
  intros Hp.
  pose proof Hok as (Hfresh & _ & Hplay). rewrite Hp in Hplay.
  destruct Hplay as (id & Ha & Hpending & _).
  assert (tick_pending s id) as Htick
    by (unfold tick_pending, is_tick; by rewrite Hpending).
  pose proof (stopAnimation_timers_ok s Hok) as Hok'.
  pose proof (stopAnimation_stops s) as Hs'.
  exists id, (state_of (stopAnimation s)).
  split; [done|]. split; [done|].
  split; [apply total_state_of, stopAnimation_total|].
  split; [done|]. split; [|split].
  - pose proof (stopAnimation_timer_view s Hp) as Hv.
    unfold timer_view in Hv. injection Hv as Ht _ _ _ _. rewrite Ht, Ha. simpl.
    apply Hfresh in Hpending.
    rewrite lookup_insert_ne by lia. apply lookup_delete_eq.
  - intros id'. by apply stopped_no_tick.
  - intros evs Hevs.
    pose proof (run_stopped evs _ Hevs Hs') as Hs''.
    pose proof (run_timers_ok evs _ Hok') as Hok''.
    split; [done|]. intros id'.
    pose proof (stopped_no_tick _ id' Hok'' Hs'') as Hno.
    split; [done|]. simpl. by apply fire_timer_no_tick.
Qed.

(** C6. A slider move while playing first runs [stopAnimation] to the end:
    the controller is stopped and no tick is pending, with the index and the
    chart still as they were; only then, and only if the requested index is
    not the current one, [updateChartForAnimation] is applied to that
    stopped state; the controller is stopped at the end either way. *)
Theorem slider_scrub_stops_first (s : State) (v : string) :
  timers_ok s →
  isPlaying s = true →
  ∃ s1,
    stopAnimation s = Ret tt s1
    ∧ stopped s1
    ∧ (∀ id, ¬ tick_pending s1 id)
    ∧ data_view s1 = data_view s
    ∧ pyramidChart s1 = pyramidChart s
    ∧ onSliderInput v s
      = (if negb (Js.strict_eq (Js.parseInt10 v) (currentYearIndex s))
         then updateChartForAnimation (Js.parseInt10 v) s1
         else Ret tt s1)
    ∧ stopped (state_of (onSliderInput v s)).
Proof.
  intros Hok Hp.
  pose proof (total_state_of _ s stopAnimation_total) as Hstop.
  pose proof (stopAnimation_stops s) as Hs1.
  pose proof (stopAnimation_data s) as Hdata. unfold same in Hdata.
  assert (onSliderInput v s
          = (if negb (Js.strict_eq (Js.parseInt10 v) (currentYearIndex s))
             then updateChartForAnimation (Js.parseInt10 v) (state_of (stopAnimation s))
             else Ret tt (state_of (stopAnimation s)))) as Heq.
  { unfold onSliderInput, bind at 1. rewrite Hstop. cbv beta iota.
    unfold bind, get. cbv beta iota.
    unfold data_view in Hdata. injection Hdata as _ Hidx.
    rewrite <- Hidx. simpl. destruct (negb _); reflexivity. }
  exists (state_of (stopAnimation s)).
  split; [done|]. split; [done|].
  split; [intros id; apply stopped_no_tick; [by apply stopAnimation_timers_ok|done]|].
  split; [done|]. split; [symmetry; apply stopAnimation_pyramidChart|].
  split; [done|].
  rewrite Heq. destruct (negb _); [|done].
  revert Hs1. apply stopped_view, updateChartForAnimation_timer.
Qed.

(** ** The page keeps its elements *)

Lemma on_element_page_ok id f : stable (keeps page_ok) (on_element id f).
Proof.
  intros s Hok k Hk. simpl. apply lookup_alter_is_Some. by apply Hok.
Qed.

#[export] Hint Resolve on_element_page_ok : stable.

Lemma append_options_page_ok l : stable (keeps page_ok) (append_options l).
Proof. apply append_options_stable; [apply _|]. intros f. apply on_element_page_ok. Qed.

Lemma showMessage_page_ok m t : stable (keeps page_ok) (showMessage m t).
Proof. unfold showMessage. stable_go. Qed.

#[export] Hint Resolve append_options_page_ok showMessage_page_ok : stable.

Lemma initializeChart_page_ok i : stable (keeps page_ok) (initializeChart i).
Proof. unfold initializeChart. stable_go. Qed.

Lemma updateChartForAnimation_page_ok i :
  stable (keeps page_ok) (updateChartForAnimation i).
Proof. unfold updateChartForAnimation. stable_go. Qed.

Lemma stopAnimation_page_ok : stable (keeps page_ok) stopAnimation.
Proof. unfold stopAnimation. stable_go. Qed.

Lemma startAnimation_page_ok : stable (keeps page_ok) startAnimation.
Proof. unfold startAnimation. stable_go. Qed.

#[export] Hint Resolve initializeChart_page_ok updateChartForAnimation_page_ok
  stopAnimation_page_ok startAnimation_page_ok : stable.

Lemma loadAndDisplayChart_resume_page_ok p r :
  stable (keeps page_ok) (loadAndDisplayChart_resume p r).
Proof. unfold_script. stable_go. Qed.

Lemma loadCountryList_resume_page_ok r :
  stable (keeps page_ok) (loadCountryList_resume r).
Proof. unfold_script. stable_go. Qed.

Lemma page_loaded_page_ok search : page_ok (page_loaded search).
Proof. intros id Hid. exact Hid. Qed.

Lemma page_loaded_chart_ok search : chart_ok (page_loaded search).
Proof. reflexivity. Qed.

Lemma page_loaded_timers_ok search : timers_ok (page_loaded search).
Proof.
  unfold timers_ok, timers_inv. simpl.
  split; [|split]; intros id; rewrite ?lookup_empty; done.
Qed.

(** Reading an element through the writes made to the page. *)
Lemma element_alter_eq (id : string) (f : Element → Element) (s s' : State) :
  is_Some (document s !! id) →
  document s' = alter f id (document s) →
  element id s' = f (element id s).
Proof.
  intros [e He] Hd. unfold element. rewrite Hd, lookup_alter_eq, He. done.
Qed.

Lemma element_alter_ne (id id' : string) (f : Element → Element) (s s' : State) :
  id ≠ id' →
  document s' = alter f id' (document s) →
  element id s' = element id s.
Proof.
  intros Hne Hd. unfold element. by rewrite Hd, lookup_alter_ne.
Qed.

(** ** The initial country *)

Lemma append_options_total l : total (append_options l).
Proof.
  induction l as [|c l IH]; cbn [append_options]; [apply total_ret|].
  apply total_bind; [intros s; done|intros _; apply IH].
Qed.

Lemma append_options_fetches l : stable (same fetches) (append_options l).
Proof. apply append_options_stable; [apply _|]. intros f. stable_prim. Qed.

Lemma append_options_selector_value l :
  stable (same (λ s, value (element "countrySelector" s))) (append_options l).
Proof.
  induction l as [|c l IH]; cbn [append_options]; [apply stable_ret; apply _|].
  apply stable_bind; [apply _| |intros _; apply IH].
  intros s. unfold same, element. simpl. rewrite lookup_alter_eq.
  by destruct (document s !! "countrySelector").
Qed.

Lemma loadCountryList_resume_ok (s : State) (status : Z) (catalog : list string) :
  page_ok s →
  ∃ s', loadCountryList_resume (Response true status (Some catalog)) s = Ret tt s'
        ∧ countryList s' = catalog
        ∧ selected (initial_choice (params_get "country" (location_search s)) catalog) s s'.
Proof.
  intros Hpage.
  unfold loadCountryList_resume, try_catch, bind at 1. cbn [negb].
  unfold bind at 1, modify at 1. cbv beta iota.
  unfold bind at 1, on_element at 1, modify at 1. cbv beta iota.
  unfold bind at 1, get at 1. cbv beta iota.
  cbn [countryList set_document set_countryList].
  set (s1 := set_document _ _).
  unfold bind at 1.
  rewrite (total_state_of (append_options catalog) s1 (append_options_total _)).
  cbv beta iota.
  set (s2 := state_of (append_options catalog s1)).
  assert (page_ok s2) as Hpage2.
  { apply append_options_page_ok. intros id Hid. simpl.
    apply lookup_alter_is_Some. by apply Hpage. }
  assert (fetches s2 = fetches s) as Hf by (symmetry; apply (append_options_fetches catalog s1)).
  assert (location_search s2 = location_search s) as Hloc.
  { assert (stable (same location_search) (append_options catalog)) as H.
    { apply append_options_stable; [apply _|]. intros f. stable_prim. }
    symmetry. apply (H s1). }
  assert (countryList s2 = catalog) as Hcl.
  { assert (stable (same countryList) (append_options catalog)) as H.
    { apply append_options_stable; [apply _|]. intros f. stable_prim. }
    symmetry. apply (H s1). }
  destruct (Hpage2 "countrySelector") as [e He]; [by eexists|].
  unfold bind at 1, get at 1. cbv beta iota. rewrite Hloc.
  unfold initial_choice, selected.
  destruct (Js.truthy _ && _) eqn:Hc.
  - eexists. split; [reflexivity|]. simpl. split; [done|]. rewrite Hf.
    split; [|done].
    unfold element. simpl. rewrite lookup_alter_ne by done.
    rewrite lookup_alter_eq, He. simpl.
    by destruct (params_get "country" (location_search s)).
  - eexists. split; [reflexivity|]. simpl. split; [done|]. rewrite Hf.
    split; [|done].
    unfold element. simpl. rewrite lookup_alter_ne by done.
    rewrite lookup_alter_eq, He. done.
Qed.

(** C8, as the specification words it, fails: with [?country=] in the
    address and a catalog that lists the empty name, the parameter is
    present and a member of the catalog, yet ["Algeria"] is selected. *)
Lemma empty_country_param_not_selected :
  ¬ selects_as_specified [("country", "")] [""; "Algeria"].
Proof.
  intros (c & Hc & Hvalue & _).
  vm_compute in Hc. injection Hc as <-.
  vm_compute in Hvalue. discriminate Hvalue.
Qed.

(** C8, amended. When the catalog arrives, exactly one dataset is
    requested and the selector is set to its country: the [country]
    parameter if it is present, not empty and in the catalog; otherwise
    ["Algeria"] if the catalog has it; otherwise [countryList[0]], the first
    entry of the catalog (for an empty catalog that is [undefined], and the
    default parameter of [loadAndDisplayChart] applies). *)
Theorem initial_country_resolution (s : State) (status : Z) (catalog : list string) :
  page_ok s →
  ∃ s',
    loadCountryList_resume (Response true status (Some catalog)) s = Ret tt s'
    ∧ countryList s' = catalog
    ∧ let param := params_get "country" (location_search s) in
      let usable := ∃ c, param = Some c ∧ c ≠ "" ∧ c ∈ catalog in
      (∀ c, param = Some c → c ≠ "" → c ∈ catalog → selected (Some c) s s')
      ∧ (¬ usable → "Algeria" ∈ catalog → selected (Some "Algeria") s s')
      ∧ (¬ usable → "Algeria" ∉ catalog → selected (head catalog) s s').
Proof.
  intros Hpage.
  destruct (loadCountryList_resume_ok s status catalog Hpage) as (s' & Hrun & Hcl & Hsel).
  exists s'. split; [done|]. split; [done|].
  unfold initial_choice in Hsel. cbv zeta.
  destruct (params_get "country" (location_search s)) as [p|] eqn:Hp; simpl in Hsel.
  - destruct (decide (p = "")) as [->|Hne].
    + simpl in Hsel. split; [intros c [= <-]; done|].
      split; intros _ Hin.
      * by rewrite bool_decide_eq_true_2 in Hsel.
      * by rewrite bool_decide_eq_false_2 in Hsel.
    + rewrite (bool_decide_eq_false_2 (p = "")) in Hsel by done. simpl in Hsel.
      destruct (decide (p ∈ catalog)) as [Hin|Hnin].
      * rewrite bool_decide_eq_true_2 in Hsel by done.
        split; [by intros c [= <-]|].
        split; intros Hno; destruct Hno; by exists p.
      * rewrite (bool_decide_eq_false_2 (p ∈ catalog)) in Hsel by done.
        split; [by intros c [= <-]|].
        split; intros _ Hin.
        -- by rewrite bool_decide_eq_true_2 in Hsel.
        -- by rewrite bool_decide_eq_false_2 in Hsel.
  - split; [intros c [=]|].
    split; intros _ Hin.
    + by rewrite bool_decide_eq_true_2 in Hsel.
    + by rewrite bool_decide_eq_false_2 in Hsel.
Qed.

(** The parameter names a country of the catalog: it is the one selected. *)
Lemma initial_country_resolution_witness :
  ∃ s',
    loadCountryList_resume (Response true 200 (Some ["France"; "Algeria"]))
      (page_loaded [("country", "France")]) = Ret tt s'
    ∧ selected (Some "France") (page_loaded [("country", "France")]) s'.
Proof.
  destruct (initial_country_resolution (page_loaded [("country", "France")]) 200
              ["France"; "Algeria"] (page_loaded_page_ok _))
    as (s' & Hrun & _ & Hparam & _).
  exists s'. split; [exact Hrun|].
  apply Hparam; [reflexivity|discriminate|]. apply elem_of_cons. by left.
Defined.

(** ** Loading a dataset *)

(** [findIndex] returns the first index that satisfies the test. *)
Lemma findIndex_from_spec {A} (p : A → bool) (i : Z) (l : list A) :
  (Js.findIndex_from p i l = -1 ∧ ((0 ≤ i)%Z → ∀ x, x ∈ l → p x = false))
  ∨ (∃ (n : nat) (x : A),
        Js.findIndex_from p i l = i + Z.of_nat n
        ∧ l !! n = Some x ∧ p x = true
        ∧ ∀ (m : nat) (y : A), (m < n)%nat → l !! m = Some y → p y = false).
Proof.
  revert i. induction l as [|a l IH]; intros i; simpl.
  - left. split; [done|]. intros _ x Hx. by apply elem_of_nil in Hx.
  - destruct (p a) eqn:Hpa.
    + right. exists 0%nat, a. repeat split; [lia|done|]. intros m y Hm. lia.
    + destruct (IH (i + 1)) as [[Hnone Hall]|(n & x & Hidx & Hx & Hpx & Hfirst)].
      * left. split; [done|]. intros Hi x Hin.
        apply elem_of_cons in Hin as [->|Hin]; [done|]. apply Hall; [lia|done].
      * right. exists (S n), x. repeat split; [lia|done|done|].
        intros [|m] y Hm Hy; simpl in Hy; [by injection Hy as <-|].
        apply (Hfirst m); [lia|done].
Qed.

Lemma findIndex_none {A} (p : A → bool) (l : list A) :
  (∀ x, x ∈ l → p x = false) → Js.findIndex p l = -1.
Proof.
  intros Hall. unfold Js.findIndex.
  destruct (findIndex_from_spec p 0 l) as [[H _]|(n & x & _ & Hx & Hpx & _)]; [done|].
  rewrite Hall in Hpx; [done|]. by eapply list_elem_of_lookup_2.
Qed.

Lemma findIndex_first {A} (p : A → bool) (l : list A) (n : nat) (x : A) :
  l !! n = Some x → p x = true →
  (∀ (m : nat) (y : A), (m < n)%nat → l !! m = Some y → p y = false) →
  Js.findIndex p l = Z.of_nat n.
Proof.
  intros Hx Hpx Hfirst. unfold Js.findIndex.
  destruct (findIndex_from_spec p 0 l)
    as [[_ Hall]|(n' & x' & Hidx & Hx' & Hpx' & Hfirst')].
  - rewrite Hall in Hpx; [done|lia|by eapply list_elem_of_lookup_2].
  - rewrite Hidx. destruct (lt_eq_lt_dec n n') as [[Hlt | ->] | Hgt]; [|lia|].
    + rewrite (Hfirst' n x Hlt Hx) in Hpx. done.
    + rewrite (Hfirst n' x' Hgt Hx') in Hpx'. done.
Qed.

(** The year block on any non-empty series, for a non-empty parameter: the
    first entry of the requested year becomes current, or the warning is
    shown and nothing else changes. *)
Lemma selectRequestedYear_found (s : State) (yp : string) (n : nat) (e : YearSeriesEntry) :
  params_get "year" (location_search s) = Some yp → yp ≠ "" →
  allYearsData s !! n = Some e →
  Js.Num (year e) = Js.parseInt10 yp →
  (∀ (m : nat) (y : YearSeriesEntry), (m < n)%nat → allYearsData s !! m = Some y →
     Js.Num (year y) ≠ Js.parseInt10 yp) →
  selectRequestedYear s = Ret tt (set_currentYearIndex (Js.Num (Z.of_nat n)) s).
Proof.
  intros Hyp Hne He Hyear Hfirst.
  unfold selectRequestedYear, bind, get. cbv beta iota zeta. rewrite Hyp. simpl.
  rewrite (bool_decide_eq_false_2 (yp = "")) by done.
  rewrite (bool_decide_eq_true_2 (0 < length (allYearsData s))%nat)
    by (apply lookup_lt_Some in He; lia).
  simpl.
  rewrite (findIndex_first _ _ n e He).
  - rewrite bool_decide_eq_false_2 by lia. done.
  - rewrite <- Hyear. simpl. by apply bool_decide_eq_true_2.
  - intros m y Hm Hy. specialize (Hfirst m y Hm Hy).
    destruct (Js.parseInt10 yp); simpl; [done|].
    apply bool_decide_eq_false_2. congruence.
Qed.

Lemma selectRequestedYear_not_found (s : State) (yp : string) :
  params_get "year" (location_search s) = Some yp → yp ≠ "" →
  allYearsData s ≠ [] →
  (∀ e, e ∈ allYearsData s → Js.Num (year e) ≠ Js.parseInt10 yp) →
  selectRequestedYear s
  = showMessage
      ("Year " ++ yp ++ " not found in dataset. Defaulting to first available year.")
      "error" s.
Proof.
  intros Hyp Hne Hall Hno.
  unfold selectRequestedYear, bind, get. cbv beta iota zeta. rewrite Hyp. simpl.
  rewrite (bool_decide_eq_false_2 (yp = "")) by done.
  rewrite (bool_decide_eq_true_2 (0 < length (allYearsData s))%nat)
    by (destruct (allYearsData s); simpl; [done|lia]).
  simpl. rewrite findIndex_none; [done|].
  intros e He. specialize (Hno e He).
  destruct (Js.parseInt10 yp); simpl; [done|].
  apply bool_decide_eq_false_2. congruence.
Qed.

Lemma selectRequestedYear_skipped (s : State) :
  Js.truthy (params_get "year" (location_search s)) = false →
  selectRequestedYear s = Ret tt s.
Proof.
  intros H. unfold selectRequestedYear, bind, get. cbv beta iota zeta.
  by rewrite H.
Qed.

Lemma bind_Ret {A B} (m : M A) (k : A → M B) (s s' : State) (a : A) :
  m s = Ret a s' → bind m k s = k a s'.
Proof. intros H. unfold bind. by rewrite H. Qed.

Lemma setupControls_showLoading_total :
  total (bind setupControls (λ _, showLoading false)).
Proof. total_go. Qed.

(** Once the year block has run and left index [0], the rest of
    [loadAndDisplayChart] draws the entry of the file and returns. *)
Lemma loadAndDisplayChart_resume_draws
    (s s_b : State) (path : string) (status : Z) (doc : RawDocument) :
  selectRequestedYear (loaded_series doc s) = Ret tt s_b →
  currentYearIndex s_b = Js.Num 0 →
  allYearsData s_b = [entry_of doc] →
  chart_ok s_b →
  loadAndDisplayChart_resume path (Response true status (Some doc)) s
  = Ret tt (state_of (bind setupControls (λ _, showLoading false)
                        (drawn (entry_of doc) (Js.Num 0) s_b))).
Proof.
  intros Hsel Hidx Hall Hok.
  unfold loadAndDisplayChart_resume, try_catch. cbn [negb].
  erewrite bind_Ret; [|reflexivity].
  erewrite bind_Ret;
    [|apply (processRawData_outcome _ (doc_data doc)); simpl;
      by rewrite lookup_app_r, Nat.sub_diag by lia].
  erewrite bind_Ret; [|reflexivity].
  erewrite bind_Ret; [|exact Hsel].
  erewrite bind_Ret; [|reflexivity]. rewrite Hidx.
  erewrite bind_Ret;
    [|apply (initializeChart_draws s_b 0 (entry_of doc) Hok); by rewrite Hall].
  by rewrite (total_state_of _ _ setupControls_showLoading_total).
Qed.

Lemma selectRequestedYear_total : total selectRequestedYear.
Proof. unfold selectRequestedYear. total_go. Qed.

Lemma selectRequestedYear_chart_view : stable (same chart_view) selectRequestedYear.
Proof. unfold selectRequestedYear. stable_go. Qed.

Lemma selectRequestedYear_allYearsData : stable (same allYearsData) selectRequestedYear.
Proof. unfold selectRequestedYear. stable_go. Qed.

Lemma selectRequestedYear_page_ok : stable (keeps page_ok) selectRequestedYear.
Proof. unfold selectRequestedYear. stable_go. Qed.

(** On a series of one entry the block leaves index [0] at [0]. *)
Lemma selectRequestedYear_single (s : State) (e : YearSeriesEntry) :
  allYearsData s = [e] →
  currentYearIndex s = Js.Num 0 →
  currentYearIndex (state_of (selectRequestedYear s)) = Js.Num 0.
Proof.
  intros Hall Hidx. unfold selectRequestedYear, bind, get. cbv beta iota zeta.
  rewrite Hall.
  rewrite (bool_decide_eq_true_2 (0 < length [e])%nat) by (simpl; lia).
  rewrite andb_true_r. destruct (Js.truthy _); [|done].
  unfold Js.findIndex. cbn [Js.findIndex_from].
  destruct (Js.strict_eq _ _); simpl; done.
Qed.

(** Whatever the [year] parameter, a dataset that arrives on a page whose
    index is [0] is drawn. *)
Lemma loadAndDisplayChart_resume_ok
    (s : State) (path : string) (status : Z) (doc : RawDocument) :
  chart_ok s →
  currentYearIndex s = Js.Num 0 →
  let s_b := state_of (selectRequestedYear (loaded_series doc s)) in
  loadAndDisplayChart_resume path (Response true status (Some doc)) s
  = Ret tt (state_of (bind setupControls (λ _, showLoading false)
                        (drawn (entry_of doc) (Js.Num 0) s_b))).
Proof.
  intros Hok Hidx s_b.
  apply loadAndDisplayChart_resume_draws.
  - apply total_state_of, selectRequestedYear_total.
  - by apply (selectRequestedYear_single _ (entry_of doc)).
  - symmetry. apply (selectRequestedYear_allYearsData (loaded_series doc s)).
  - apply (chart_ok_view (loaded_series doc s)); [|done].
    apply selectRequestedYear_chart_view.
Qed.

(** What the last steps of a successful load leave of the drawn state. *)
Lemma finish_data_view :
  stable (same data_view) (bind setupControls (λ _, showLoading false)).
Proof. unfold_script. stable_go. Qed.

Lemma finish_pyramidChart :
  stable (same pyramidChart) (bind setupControls (λ _, showLoading false)).
Proof. unfold_script. stable_go. Qed.

Lemma drawn_shows (e : YearSeriesEntry) (i : Js.num) (s s' : State) :
  pyramidChart s' = pyramidChart (drawn e i s) → shows s' e.
Proof. intros H. eexists. split; [exact H|]. done. Qed.

(** *** Reading the page after a load *)

Lemma on_element_other (id id' : string) (f : Element → Element) :
  id ≠ id' → stable (same (element id)) (on_element id' f).
Proof.
  intros Hne s. unfold same, element. simpl. by rewrite lookup_alter_ne.
Qed.

#[export] Hint Extern 1 (stable (same (element _)) (on_element _ _)) =>
  apply on_element_other; discriminate : stable.

Lemma finish_messageBox :
  stable (same (element "messageBox")) (bind setupControls (λ _, showLoading false)).
Proof. unfold_script. stable_go. Qed.

Lemma drawn_messageBox (e : YearSeriesEntry) (i : Js.num) (s : State) :
  element "messageBox" (drawn e i s) = element "messageBox" s.
Proof. unfold element, drawn. simpl. by rewrite !lookup_alter_ne. Qed.

Lemma tokens_remove_spec (old l : list string) (t : string) :
  t ∈ tokens_remove old l ↔ t ∈ l ∧ t ∉ old.
Proof.
  unfold tokens_remove. rewrite !list_elem_of_In, filter_In, <- !list_elem_of_In.
  rewrite negb_true_iff, bool_decide_eq_false. done.
Qed.

Lemma tokens_add_old (new l : list string) (t : string) :
  t ∈ l → t ∈ tokens_add new l.
Proof.
  revert l. induction new as [|n new IH]; intros l Hin; simpl; [done|].
  apply IH. case_bool_decide; [done|]. apply elem_of_app. by left.
Qed.

Lemma tokens_add_new (new l : list string) (t : string) :
  t ∈ new → t ∈ tokens_add new l.
Proof.
  revert l. induction new as [|n new IH]; intros l Hin; simpl.
  - by apply elem_of_nil in Hin.
  - apply elem_of_cons in Hin as [->|Hin]; [|by apply IH].
    apply tokens_add_old. case_bool_decide; [done|].
    apply elem_of_app. right. apply elem_of_cons. by left.
Qed.

#[local] Arguments tokens_add : simpl never.
#[local] Arguments tokens_remove : simpl never.

(** What [showMessage] leaves in the message box. *)
Lemma showMessage_messageBox (m t : string) (s : State) :
  page_ok s →
  textContent (element "messageBox" (state_of (showMessage m t s))) = m
  ∧ ("hidden" ∉ classList (element "messageBox" (state_of (showMessage m t s))))
  ∧ (t = "error" →
     "bg-red-100" ∈ classList (element "messageBox" (state_of (showMessage m t s)))).
Proof.
  intros Hpage. destruct (Hpage "messageBox") as [e He]; [by eexists|].
  unfold element. simpl. rewrite !lookup_alter_eq, He. simpl.
  split; [done|]. split.
  - rewrite tokens_remove_spec. intros [_ Hno]. apply Hno, elem_of_cons. by left.
  - intros ->. simpl. apply tokens_remove_spec. split.
    + apply tokens_add_new. apply elem_of_cons. by left.
    + rewrite elem_of_cons, elem_of_nil. intros [[=]|[]].
Qed.

Lemma loaded_series_page_ok (doc : RawDocument) (s : State) :
  page_ok s → page_ok (loaded_series doc s).
Proof. done. Qed.

(** C2, as the specification words it, fails: with [?year=] in the
    address the parameter is present and no entry has its year, yet no
    warning is shown. *)
Lemma empty_year_param_no_warning :
  let search := [("year", "")] in
  let s' := run [ CatalogArrives (Response true 200 (Some ["Algeria"]));
                  DatasetArrives "data/Algeria_pyramid.json"
                    (Response true 200 (Some example_document)) ]
                (page_loaded search) in
  params_get "year" search = Some ""
  ∧ ¬ year_selected_or_warned "" s'.
Proof.
  cbv zeta. split; [reflexivity|].
  intros [_ Hwarn]. destruct Hwarn as [[Htext _] _].
  - intros e _. discriminate.
  - vm_compute in Htext. discriminate Htext.
Qed.

(** A dataset that arrives on a page whose index is [0] becomes the series
    and is drawn; the message box is as the year block left it. *)
Lemma loadAndDisplayChart_resume_loaded
    (s : State) (path : string) (status : Z) (doc : RawDocument) :
  chart_ok s →
  currentYearIndex s = Js.Num 0 →
  ∃ s',
    loadAndDisplayChart_resume path (Response true status (Some doc)) s = Ret tt s'
    ∧ allYearsData s' = [entry_of doc]
    ∧ currentYearIndex s' = Js.Num 0
    ∧ shows s' (entry_of doc)
    ∧ element "messageBox" s'
      = element "messageBox" (state_of (selectRequestedYear (loaded_series doc s))).
Proof.
  intros Hok Hidx.
  pose proof (loadAndDisplayChart_resume_ok s path status doc Hok Hidx) as Hrun.
  cbv zeta in Hrun.
  set (s_b := state_of (selectRequestedYear (loaded_series doc s))) in *.
  set (s_c := drawn (entry_of doc) (Js.Num 0) s_b) in *.
  set (s' := state_of (bind setupControls (λ _, showLoading false) s_c)) in *.
  assert (allYearsData s_b = [entry_of doc]) as Hall_b
    by (symmetry; apply (selectRequestedYear_allYearsData (loaded_series doc s))).
  assert (currentYearIndex s_b = Js.Num 0) as Hidx_b
    by (by apply (selectRequestedYear_single _ (entry_of doc))).
  assert (data_view s' = data_view s_c) as Hdv
    by (symmetry; apply (finish_data_view s_c)).
  unfold data_view in Hdv. injection Hdv as Hall' Hidx'.
  change (allYearsData s_c) with (allYearsData s_b) in Hall'.
  change (currentYearIndex s_c) with (currentYearIndex s_b) in Hidx'.
  rewrite Hall_b in Hall'. rewrite Hidx_b in Hidx'.
  exists s'. split; [exact Hrun|]. split; [done|]. split; [done|]. split.
  - apply (drawn_shows _ (Js.Num 0) s_b). symmetry. apply (finish_pyramidChart s_c).
  - assert (element "messageBox" s' = element "messageBox" s_c) as ->
      by (symmetry; apply (finish_messageBox s_c)).
    apply drawn_messageBox.
Qed.

(** C2, amended. On a load with index [0] and a [year] parameter that is
    present and not empty: an entry whose year is the parsed parameter
    becomes the current one and is what the chart shows; if no entry has that
    year, the warning is on display, the index is [0] and the chart shows
    the first entry. *)
Theorem year_param_selects_or_warns
    (s : State) (path : string) (status : Z) (doc : RawDocument) (yp : string) :
  chart_ok s →
  page_ok s →
  currentYearIndex s = Js.Num 0 →
  params_get "year" (location_search s) = Some yp →
  yp ≠ "" →
  ∃ s',
    loadAndDisplayChart_resume path (Response true status (Some doc)) s = Ret tt s'
    ∧ year_selected_or_warned yp s'.
Proof.
  intros Hok Hpage Hidx Hyp Hne.
  destruct (loadAndDisplayChart_resume_loaded s path status doc Hok Hidx)
    as (s' & Hrun & Hall & Hidx' & Hshows & Hbox).
  exists s'. split; [exact Hrun|]. split.
  - intros n e He _. rewrite Hall in He.
    destruct n as [|n]; simpl in He; [|by destruct n].
    injection He as <-. done.
  - intros Hno. rewrite Hall in *.
    split; [|split; [done|by exists (entry_of doc)]].
    unfold warned. rewrite Hbox.
    rewrite (selectRequestedYear_not_found _ yp); try done.
    pose proof (showMessage_messageBox
                  ("Year " ++ (yp ++ " not found in dataset. Defaulting to first available year."))
                  "error" (loaded_series doc s) (loaded_series_page_ok _ _ Hpage))
      as (Htext & Hhidden & _).
    done.
Qed.

(** ** The loading indicator is taken down, whatever arrives *)
Lemma settles_throw {A} (e : string) : settles (@throw A e).
Proof. intros s Hpage. done. Qed.

Lemma settles_showLoading_false : settles (showLoading false).
Proof.
  intros s Hpage. simpl. split.
  - by apply (on_element_page_ok "loadingIndicator" _ s).
  - destruct (Hpage "loadingIndicator") as [e He]; [by eexists|].
    unfold loading_hidden, element. simpl. rewrite lookup_alter_eq, He. simpl.
    apply tokens_add_new, elem_of_cons. by left.
Qed.

Lemma settles_bind {A B} (m : M A) (k : A → M B) :
  stable (keeps page_ok) m → (∀ a, settles (k a)) → settles (bind m k).
Proof.
  intros Hm Hk s Hpage. unfold bind. specialize (Hm s Hpage).
  destruct (m s) as [a s'|e s']; simpl in Hm; [by apply Hk|done].
Qed.

Lemma settles_try_catch (m : M unit) (h : string → M unit) (s : State) :
  settles m → (∀ e, total (h e)) → (∀ e, settles (h e)) →
  page_ok s →
  ∃ s', try_catch m h s = Ret tt s' ∧ page_ok s' ∧ loading_hidden s'.
Proof.
  intros Hm Ht Hh Hpage. unfold try_catch. specialize (Hm s Hpage).
  destruct (m s) as [[] s'|e s'].
  - by exists s'.
  - specialize (Hh e s' Hm). specialize (Ht e s').
    destruct (h e s') as [[] s''|]; [by exists s''|done].
Qed.

Ltac settles_go :=
  repeat first
    [ apply settles_showLoading_false
    | apply settles_throw
    | apply settles_bind; [solve [stable_go]|intros ?] ].

Lemma loadAndDisplayChart_resume_settles
    (p : string) (r : FetchResult RawDocument) (s : State) :
  page_ok s →
  ∃ s', loadAndDisplayChart_resume p r s = Ret tt s' ∧ page_ok s' ∧ loading_hidden s'.
Proof.
  pose proof selectRequestedYear_page_ok.
  unfold loadAndDisplayChart_resume. apply settles_try_catch.
  - destruct r as [m|[] status [doc|]]; cbn [negb]; try apply settles_throw.
    unfold json_document, processRawData. settles_go.
  - intros e. total_go.
  - intros e. settles_go.
Qed.


Lemma begin_messageBox (c : option string) :
  stable (same (element "messageBox")) (loadAndDisplayChart_begin c).
Proof. unfold_script. stable_go. Qed.

(** C9. If the catalog cannot be fetched (the request fails or the status
    is not a success), [loadCountryList] returns normally with the warning
    on display, no catalog stored, and the dataset of ["Algeria"] requested;
    whatever that request produces, the load ends without an exception and
    with the loading indicator hidden; and if the file arrives, on a page
    whose index is [0], its entry becomes the series and is drawn. *)
Theorem catalog_failure_falls_back (s : State) (r : FetchResult (list string)) :
  catalog_failed r →
  page_ok s →
  ∃ s1,
    loadCountryList_resume r s = Ret tt s1
    ∧ textContent (element "messageBox" s1)
      = "Could not load country list. Using default country."
    ∧ ("hidden" ∉ classList (element "messageBox" s1))
    ∧ fetches s1 = "data/Algeria_pyramid.json" :: fetches s
    ∧ countryList s1 = countryList s
    ∧ (∀ response,
         ∃ s2, loadAndDisplayChart_resume "data/Algeria_pyramid.json" response s1
               = Ret tt s2
               ∧ loading_hidden s2)
    ∧ (chart_ok s → currentYearIndex s = Js.Num 0 →
       ∀ status doc,
         ∃ s2, loadAndDisplayChart_resume "data/Algeria_pyramid.json"
                 (Response true status (Some doc)) s1
               = Ret tt s2
               ∧ allYearsData s2 = [entry_of doc]
               ∧ shows s2 (entry_of doc)
               ∧ loading_hidden s2).
Proof.
  intros Hfail Hpage.
  assert (∃ line,
            loadCountryList_resume r s
            = Ret tt (state_of (loadAndDisplayChart_begin (Some "Algeria")
                        (state_of (showMessage
                           "Could not load country list. Using default country." "error"
                           (state_of (console_error line s))))))) as [line Hrun].
  { destruct Hfail as [[m ->]|(status & body & ->)]; eexists; reflexivity. }
  set (s_m := state_of (showMessage _ _ _)) in Hrun.
  set (s1 := state_of (loadAndDisplayChart_begin _ s_m)) in Hrun.
  assert (page_ok s_m) as Hpage_m by (by apply showMessage_page_ok).
  assert (page_ok s1) as Hpage1.
  { assert (stable (keeps page_ok) (loadAndDisplayChart_begin (Some "Algeria"))) as H
      by (unfold_script; stable_go).
    by apply H. }
  pose proof (showMessage_messageBox
                "Could not load country list. Using default country." "error"
                (state_of (console_error line s)) Hpage) as (Htext & Hhidden & _).
  fold s_m in Htext, Hhidden.
  assert (element "messageBox" s1 = element "messageBox" s_m) as Hbox
    by (symmetry; apply (begin_messageBox (Some "Algeria") s_m)).
  exists s1. split; [exact Hrun|].
  split; [by rewrite Hbox|]. split; [by rewrite Hbox|].
  split; [reflexivity|]. split; [reflexivity|]. split.
  - intros response.
    destruct (loadAndDisplayChart_resume_settles "data/Algeria_pyramid.json"
                response s1 Hpage1) as (s2 & Hres & _ & Hhid).
    by exists s2.
  - intros Hok Hidx status doc.
    destruct (loadAndDisplayChart_resume_loaded s1 "data/Algeria_pyramid.json"
                status doc Hok Hidx) as (s2 & Hres & Hall & _ & Hshows & _).
    destruct (loadAndDisplayChart_resume_settles "data/Algeria_pyramid.json"
                (Response true status (Some doc)) s1 Hpage1) as (s2' & Hres' & _ & Hhid).
    rewrite Hres in Hres'. injection Hres' as <-.
    by exists s2.
Qed.

(** ** Every state the page can reach *)

Lemma dispatch_page_ok (ev : Event) (s : State) :
  page_ok s → page_ok (dispatch ev s).
Proof.
  pose proof selectRequestedYear_page_ok.
  destruct ev; simpl.
  - apply (stable_run_listeners (keeps page_ok)). unfold_script. stable_go.
  - apply (stable_run_listeners (keeps page_ok)). unfold_script. stable_go.
  - assert (stable (keeps page_ok) (onCountryChange target_value)) as Hc
      by (unfold_script; stable_go). apply Hc.
  - assert (stable (keeps page_ok) onResize) as Hr
      by (unfold onResize; stable_go). apply Hr.
  - assert (∀ cb, stable (keeps page_ok) (run_callback cb)) as Hcb
      by (intros []; unfold_script; unfold resizeChart; stable_go).
    unfold fire_timer. destruct (timers s !! id) as [[cb|cb]|]; [| |done].
    + apply Hcb.
    + intros Hs. by apply Hcb.
  - apply loadCountryList_resume_page_ok.
  - apply loadAndDisplayChart_resume_page_ok.
Qed.

Lemma run_page_ok (evs : list Event) (s : State) :
  page_ok s → page_ok (run evs s).
Proof.
  revert s. induction evs as [|ev evs IH]; intros s Hok; [done|].
  simpl. apply IH, dispatch_page_ok, Hok.
Qed.

(** Whatever happens on the page after it has loaded, the three invariants
    hold. *)
Lemma reachable_ok (search : list (string * string)) (evs : list Event) :
  chart_ok (run evs (page_loaded search))
  ∧ timers_ok (run evs (page_loaded search))
  ∧ page_ok (run evs (page_loaded search)).
Proof.
  split; [|split].
  - apply run_chart_ok, page_loaded_chart_ok.
  - apply run_timers_ok, page_loaded_timers_ok.
  - apply run_page_ok, page_loaded_page_ok.
Qed.

(** [NaN] is neither below [0] nor at least the length: the guard lets it
    through, and reading [allYearsData[NaN]] throws once the index has been
    stored.  No caller passes it: the value of a range input parses to an
    integer, and the tick computes one. *)
Lemma updateChartForAnimation_NaN (s : State) :
  updateChartForAnimation Js.NaN s
  = Throw "TypeError: data is undefined" (set_currentYearIndex Js.NaN s).
Proof. reflexivity. Qed.

(** ** The theorems at work on the specification's example *)

(** The example of the specification: two rows come out youngest first. *)
Lemma processRawData_reverses_witness :
  heap example_page !! 0%nat = Some (doc_data example_document)
  ∧ ∃ entry s',
      processRawData (mkRaw 2025 "Algeria" 0) example_page = Ret [entry] s'
      ∧ ageGroups entry = ["5-9"; "0-4"]
      ∧ male entry = [110; 100]
      ∧ female entry = [105; 95]
      ∧ heap s' !! 0%nat = Some (doc_data example_document).
Proof.
  split; [reflexivity|].
  destruct (processRawData_reverses (mkRaw 2025 "Algeria" 0)
              (doc_data example_document) example_page eq_refl)
    as (entry & s' & Hrun & _ & _ & Hag & Hm & Hf & _ & _ & _ & Hheap & _).
  exists entry, s'. repeat split; assumption.
Defined.

(** [?year=1800] against a file for 2025. *)
Lemma year_param_selects_or_warns_witness :
  chart_ok (page_loaded [("year", "1800")])
  ∧ page_ok (page_loaded [("year", "1800")])
  ∧ ∃ s',
      loadAndDisplayChart_resume "data/Algeria_pyramid.json"
        (Response true 200 (Some example_document)) (page_loaded [("year", "1800")])
      = Ret tt s'
      ∧ year_selected_or_warned "1800" s'.
Proof.
  split; [reflexivity|]. split; [apply page_loaded_page_ok|].
  apply (year_param_selects_or_warns (page_loaded [("year", "1800")])
           "data/Algeria_pyramid.json" 200 example_document "1800");
    [reflexivity|apply page_loaded_page_ok|reflexivity|reflexivity|discriminate].
Defined.

(** [?year=%C2%A02025] against the file for 2025: [parseInt] skips the
    no-break space, the entry is found, and no warning is shown. *)
Example year_after_no_break_space :
  let s' := state_of (loadAndDisplayChart_resume "data/Algeria_pyramid.json"
                        (Response true 200 (Some example_document))
                        (page_loaded [("year", no_break_space ++ "2025")])) in
  currentYearIndex s' = Js.Num 0
  ∧ shows s' example_entry
  ∧ textContent (element "messageBox" s') = ""
  ∧ "hidden" ∈ classList (element "messageBox" s').
Proof.
  cbv zeta. split; [vm_compute; reflexivity|].
  split; [|split; [vm_compute; reflexivity|]].
  - eexists. split; [vm_compute; reflexivity|]. split; vm_compute; reflexivity.
  - apply (bool_decide_unpack _). vm_compute. exact I.
Qed.

(** Three years, starting from the second. *)
Lemma tick_cycle_witness :
  currentYearIndex (state_of (tick three_years)) = Js.Num 2
  ∧ currentYearIndex (ticks 3 three_years) = Js.Num 1
  ∧ ∀ k : nat, (0 < Z.of_nat k < 3)%Z →
               currentYearIndex (ticks k three_years) ≠ Js.Num 1.
Proof.
  apply (tick_cycle three_years 3 1); [reflexivity|lia|reflexivity|lia].
Defined.

(** The example drawn: the male bars are bound to [-110] and [-100], and the
    tooltip of the first shows [110]. *)
Lemma rendered_series_signs_witness :
  chart_ok example_page
  ∧ allYearsData example_page !! 0%nat = Some example_entry
  ∧ ∃ s' c male_ds female_ds,
      initializeChart (Js.Num 0) example_page = Ret tt s'
      ∧ pyramidChart s' = Some c
      ∧ datasets c = [male_ds; female_ds]
      ∧ data male_ds = [-110; -100]
      ∧ data female_ds = [105; 95]
      ∧ tooltip_label pretty (tooltip_context male_ds 0) = "Male: 110".
Proof.
  split; [reflexivity|]. split; [reflexivity|].
  destruct (rendered_series_signs pretty example_page 0 example_entry eq_refl eq_refl)
    as (s' & c & male_ds & female_ds & Hrun & Hc & _ & Hds & Hm & Hf & _ & _ & Hmale & _).
  exists s', c, male_ds, female_ds.
  repeat split; try assumption.
  destruct (Hmale 0%nat 110 eq_refl) as [_ Hlabel]. exact Hlabel.
Defined.

(** The example drawn twice. *)
Lemma initializeChart_idempotent_witness :
  chart_ok example_page
  ∧ allYearsData example_page !! 0%nat = Some example_entry
  ∧ ∃ s1 s2 c1 c2,
      initializeChart (Js.Num 0) example_page = Ret tt s1
      ∧ initializeChart (Js.Num 0) s1 = Ret tt s2
      ∧ pyramidChart s1 = Some c1
      ∧ pyramidChart s2 = Some c2
      ∧ same_picture c1 c2
      ∧ canvasCharts s2 = [chart_id c2].
Proof.
  split; [reflexivity|]. split; [reflexivity|].
  destruct (initializeChart_idempotent example_page 0 example_entry eq_refl eq_refl)
    as (s1 & s2 & c1 & c2 & H1 & H2 & Hc1 & Hc2 & Hsame & _ & Hcanvas & _).
  exists s1, s2, c1, c2. repeat split; try assumption; apply Hsame.
Defined.

Lemma three_years_timers_ok : timers_ok three_years.
Proof. exact (page_loaded_timers_ok []). Qed.

Lemma playing_page_timers_ok : timers_ok playing_page.
Proof. apply startAnimation_timers_ok, three_years_timers_ok. Qed.

(** While playing at index [1]: the slider at [1] only stops the animation,
    the slider at [2] stops it and then jumps. *)
Lemma slider_scrub_stops_first_witness :
  isPlaying playing_page = true
  ∧ ∃ s1,
      stopAnimation playing_page = Ret tt s1
      ∧ stopped s1
      ∧ onSliderInput "1" playing_page = Ret tt s1
      ∧ onSliderInput "2" playing_page = updateChartForAnimation (Js.Num 2) s1.
Proof.
  split; [reflexivity|].
  destruct (slider_scrub_stops_first playing_page "1" playing_page_timers_ok eq_refl)
    as (s1 & Hstop & Hs1 & _ & _ & _ & Hsame & _).
  destruct (slider_scrub_stops_first playing_page "2" playing_page_timers_ok eq_refl)
    as (s1' & Hstop' & _ & _ & _ & _ & Hjump & _).
  rewrite Hstop in Hstop'. injection Hstop' as <-.
  exists s1. repeat split; assumption.
Defined.

(** Stopping the running animation of the three-year series. *)
Lemma stopAnimation_cancels_witness :
  isPlaying playing_page = true
  ∧ ∃ id s',
      animationInterval playing_page = Some id
      ∧ stopAnimation playing_page = Ret tt s'
      ∧ timers s' !! id = None
      ∧ ∀ evs, PlayPauseClick ∉ evs → stopped (run evs s').
Proof.
  split; [reflexivity|].
  destruct (stopAnimation_cancels playing_page playing_page_timers_ok) as [Hplaying _].
  destruct (Hplaying eq_refl)
    as (id & s' & Ha & _ & Hstop & _ & Hgone & _ & Hlater).
  exists id, s'. repeat split; try assumption.
  intros evs Hevs. apply (Hlater evs Hevs).
Defined.

(** The catalog request fails on a freshly loaded page; the file of
    ["Algeria"] then arrives. *)
Lemma catalog_failure_falls_back_witness :
  catalog_failed (NetworkError "Failed to fetch")
  ∧ ∃ s1,
      loadCountryList_resume (NetworkError "Failed to fetch") (page_loaded []) = Ret tt s1
      ∧ fetches s1 = ["data/Algeria_pyramid.json"; "data/country_list.json"]
      ∧ ∃ s2, loadAndDisplayChart_resume "data/Algeria_pyramid.json"
                (Response true 200 (Some example_document)) s1 = Ret tt s2
              ∧ shows s2 example_entry.
Proof.
  assert (catalog_failed (NetworkError "Failed to fetch")) as Hfail
    by (left; eexists; reflexivity).
  split; [exact Hfail|].
  destruct (catalog_failure_falls_back (page_loaded []) _ Hfail (page_loaded_page_ok []))
    as (s1 & Hrun & _ & _ & Hfetch & _ & _ & Hdraw).
  exists s1. split; [exact Hrun|]. split; [exact Hfetch|].
  destruct (Hdraw eq_refl eq_refl 200 example_document) as (s2 & Hres & _ & Hshows & _).
  exists s2. split; assumption.
Defined.

(** Index [1] on a series of one entry. *)
Lemma updateChartForAnimation_out_of_range_witness :
  ¬ (0 ≤ 1 ≤ Z.of_nat (length (allYearsData example_page)) - 1)%Z
  ∧ updateChartForAnimation (Js.Num 1) example_page = Ret tt example_page.
Proof.
  assert (¬ (0 ≤ 1 ≤ Z.of_nat (length (allYearsData example_page)) - 1)%Z) as H
    by (simpl; lia).
  split; [exact H|]. apply (updateChartForAnimation_out_of_range example_page 1 H).
Defined.

#[local] Arguments tokens_replace : simpl never.

(** ** A page that never animates *)

Lemma quiet_of_view (s s' : State) : same quiet_view s s' → keeps quiet s s'.
Proof.
  unfold same, quiet_view, keeps, quiet. intros [= <- <- <- <-]. done.
Qed.

#[export] Hint Extern 5 (stable (keeps quiet) _) =>
  apply (stable_weaken (same quiet_view)); [exact quiet_of_view|] : stable.

Lemma showMessage_quiet_view m t : stable (same quiet_view) (showMessage m t).
Proof. unfold showMessage. stable_go. Qed.
#[export] Hint Resolve showMessage_quiet_view : stable.

Lemma initializeChart_quiet_view i : stable (same quiet_view) (initializeChart i).
Proof. unfold initializeChart. stable_go. Qed.

Lemma updateChartForAnimation_quiet_view i :
  stable (same quiet_view) (updateChartForAnimation i).
Proof. unfold updateChartForAnimation. stable_go. Qed.

Lemma selectRequestedYear_quiet_view : stable (same quiet_view) selectRequestedYear.
Proof. unfold selectRequestedYear. stable_go. Qed.

Lemma append_options_quiet_view l : stable (same quiet_view) (append_options l).
Proof. apply append_options_stable; [apply _|]. intros f. stable_prim. Qed.

#[export] Hint Resolve initializeChart_quiet_view updateChartForAnimation_quiet_view
  selectRequestedYear_quiet_view append_options_quiet_view : stable.

Lemma setupControls_quiet : stable (keeps quiet) setupControls.
Proof.
  intros s (Hlen & Hp & Hc & Hi).
  unfold setupControls, bind, get. cbv beta iota.
  rewrite (bool_decide_eq_true_2 _ Hlen).
  destruct (allYearsData s) as [|e [|e' l]] eqn:Hall; simpl in *; try lia.
  - unfold quiet. simpl. rewrite Hall. done.
  - unfold quiet. simpl. rewrite Hall. done.
Qed.

Lemma startAnimation_quiet : stable (keeps quiet) startAnimation.
Proof.
  intros s Hq. rewrite startAnimation_idle; [done|]. right. apply Hq.
Qed.

Lemma stopAnimation_quiet : stable (keeps quiet) stopAnimation.
Proof.
  intros s Hq. rewrite stopAnimation_idle; [done|]. apply Hq.
Qed.

#[export] Hint Resolve setupControls_quiet startAnimation_quiet stopAnimation_quiet : stable.

Lemma loaded_series_quiet (doc : RawDocument) (s : State) :
  quiet s → quiet (loaded_series doc s).
Proof. intros (Hlen & Hp & Hc & Hi). unfold quiet. simpl. auto. Qed.

Lemma loadAndDisplayChart_resume_quiet p r :
  stable (keeps quiet) (loadAndDisplayChart_resume p r).
Proof.
  unfold loadAndDisplayChart_resume. apply stable_try_catch; [apply _| |].
  - destruct r as [m|[] status [doc|]]; cbn [negb];
      try (apply stable_throw; apply _).
    intros s Hq.
    erewrite bind_Ret; [|reflexivity].
    erewrite bind_Ret;
      [|apply (processRawData_outcome _ (doc_data doc)); simpl;
        by rewrite lookup_app_r, Nat.sub_diag by lia].
    erewrite bind_Ret; [|reflexivity].
    assert (stable (keeps quiet)
              (bind selectRequestedYear
                 (λ _, bind (get currentYearIndex)
                 (λ cur, bind (initializeChart cur)
                 (λ _, bind setupControls (λ _, showLoading false)))))) as Hrest
      by (unfold showLoading; stable_go).
    apply (Hrest (loaded_series doc s) (loaded_series_quiet doc s Hq)).
  - intros e. unfold showLoading. stable_go.
Qed.

Lemma dispatch_quiet (ev : Event) (s : State) :
  quiet s → quiet (dispatch ev s).
Proof.
  intros Hq. destruct ev; simpl.
  - pose proof Hq as (_ & _ & Hc & _). by rewrite Hc.
  - pose proof Hq as (_ & _ & _ & Hi). by rewrite Hi.
  - assert (stable (keeps quiet) (onCountryChange target_value)) as H
      by (unfold_script; stable_go). by apply H.
  - assert (stable (keeps quiet) onResize) as H by (unfold onResize; stable_go).
    by apply H.
  - assert (∀ cb, stable (keeps quiet) (run_callback cb)) as Hcb
      by (intros []; unfold_script; unfold resizeChart; stable_go).
    unfold fire_timer. destruct (timers s !! id) as [[cb|cb]|]; [| |done].
    + by apply Hcb.
    + apply Hcb. exact Hq.
  - assert (stable (keeps quiet) (loadCountryList_resume response)) as H
      by (unfold_script; stable_go). by apply H.
  - by apply loadAndDisplayChart_resume_quiet.
Qed.

Lemma run_quiet (evs : list Event) (s : State) : quiet s → quiet (run evs s).
Proof.
  revert s. induction evs as [|ev evs IH]; intros s Hq; [done|].
  simpl. apply IH, dispatch_quiet, Hq.
Qed.

Lemma page_loaded_quiet search : quiet (page_loaded search).
Proof. unfold quiet. simpl. auto. Qed.

(** X1. On the page as served, whatever happens after it has loaded:
    [processRawData] makes one entry of a file, so the series never has more
    than one year, [setupControls] never adds a listener, the animation is
    never playing and no tick is ever pending; a click on the play button
    and a move of the slider change nothing at all. *)
Theorem page_never_animates (search : list (string * string)) (evs : list Event) :
  let s := run evs (page_loaded search) in
  (length (allYearsData s) ≤ 1)%nat
  ∧ isPlaying s = false
  ∧ clickListeners s = 0%nat
  ∧ inputListeners s = 0%nat
  ∧ (∀ id, ¬ tick_pending s id)
  ∧ dispatch PlayPauseClick s = s
  ∧ ∀ v, dispatch (SliderInput v) s = s.
Proof.
  cbv zeta.
  pose proof (run_quiet evs _ (page_loaded_quiet search)) as (Hlen & Hp & Hc & Hi).
  destruct (reachable_ok search evs) as (_ & Htimers & _).
  repeat split; try done.
  - intros id. by apply stopped_no_tick.
  - simpl. by rewrite Hc.
  - intros v. simpl. by rewrite Hi.
Qed.

(** ** The play button *)

(** Reads an element through a chain of writes to the page. *)
Ltac read_element :=
  unfold element; simpl;
  repeat first [rewrite lookup_alter_eq | rewrite lookup_alter_ne by done].

Lemma page_ok_lookup (s : State) (id : string) :
  page_ok s → is_Some (initial_document !! id) → ∃ e, document s !! id = Some e.
Proof. intros Hpage Hid. by apply Hpage. Qed.

Lemma onPlayPauseClick_stopped (s : State) :
  isPlaying s = false → onPlayPauseClick s = startAnimation s.
Proof. intros H. unfold onPlayPauseClick, bind, get. by rewrite H. Qed.

Lemma onPlayPauseClick_playing (s : State) :
  isPlaying s = true → onPlayPauseClick s = stopAnimation s.
Proof. intros H. unfold onPlayPauseClick, bind, get. by rewrite H. Qed.

Lemma startAnimation_data : stable (same data_view) startAnimation.
Proof. unfold startAnimation. stable_go. Qed.

Lemma startAnimation_pyramidChart : stable (same pyramidChart) startAnimation.
Proof. unfold startAnimation. stable_go. Qed.

Lemma startAnimation_button (s : State) :
  page_ok s → isPlaying s = false → (1 < length (allYearsData s))%nat →
  textContent (element "playPauseButton" (state_of (startAnimation s))) = "Pause".
Proof.
  intros Hpage Hp Hlen.
  destruct (page_ok_lookup s "playPauseButton" Hpage) as [e He]; [by eexists|].
  unfold startAnimation, bind, get. cbv beta iota.
  rewrite Hp, bool_decide_eq_false_2 by lia. read_element. by rewrite He.
Qed.

Lemma stopAnimation_button (s : State) :
  page_ok s → isPlaying s = true →
  textContent (element "playPauseButton" (state_of (stopAnimation s))) = "Play".
Proof.
  intros Hpage Hp.
  destruct (page_ok_lookup s "playPauseButton" Hpage) as [e He]; [by eexists|].
  unfold stopAnimation, bind, get. cbv beta iota. rewrite Hp. cbn [negb].
  unfold clearTimer. simpl. destruct (animationInterval s); read_element; by rewrite He.
Qed.

(** What [startAnimation] does when it does start. *)
Lemma startAnimation_starts (s : State) :
  timers_ok s → isPlaying s = false → (1 < length (allYearsData s))%nat →
  let s1 := state_of (startAnimation s) in
  startAnimation s = Ret tt s1
  ∧ timers_ok s1
  ∧ isPlaying s1 = true
  ∧ animationInterval s1 = Some (nextTimer s)
  ∧ timers s1 !! nextTimer s = Some (Interval CbTick)
  ∧ (∀ id, tick_pending s1 id → id = nextTimer s).
Proof.
  intros Hok Hp Hlen s1.
  pose proof (startAnimation_timers_ok s Hok) as Hok1. fold s1 in Hok1.
  pose proof (startAnimation_timer_view s Hp Hlen) as Hv. fold s1 in Hv.
  unfold timer_view in Hv. injection Hv as Ht Hn Hp1 Ha Hr.
  split; [apply total_state_of, startAnimation_total|].
  split; [done|]. split; [done|]. split; [done|].
  destruct Hok1 as (_ & _ & Hplay). rewrite Hp1, Ha in Hplay.
  destruct Hplay as (id & [= <-] & Hpending & Huniq). done.
Qed.

Lemma stopAnimation_stops_playing (s : State) :
  timers_ok s → isPlaying s = true →
  let s1 := state_of (stopAnimation s) in
  stopAnimation s = Ret tt s1
  ∧ timers_ok s1
  ∧ stopped s1
  ∧ (∀ id, ¬ tick_pending s1 id).
Proof.
  intros Hok Hp s1.
  pose proof (stopAnimation_timers_ok s Hok) as Hok1. fold s1 in Hok1.
  pose proof (stopAnimation_stops s) as Hs1. fold s1 in Hs1.
  split; [apply total_state_of, stopAnimation_total|].
  split; [done|]. split; [done|]. intros id. by apply stopped_no_tick.
Qed.

(** X2. On a stopped page with more than one year, the play button's
    listener starts the animation: the controller is playing, the interval
    it has just set is the only pending tick, its handle is kept in
    [animationInterval], and the button reads "Pause".  Run again, the
    listener stops it: no tick is pending, the button reads "Play", and the
    series, the index and the chart are as before the first click. *)
Theorem play_pause_click_toggles (s : State) :
  timers_ok s →
  page_ok s →
  isPlaying s = false →
  (1 < length (allYearsData s))%nat →
  ∃ s1 s2,
    onPlayPauseClick s = Ret tt s1
    ∧ isPlaying s1 = true
    ∧ animationInterval s1 = Some (nextTimer s)
    ∧ timers s1 !! nextTimer s = Some (Interval CbTick)
    ∧ (∀ id, tick_pending s1 id → id = nextTimer s)
    ∧ textContent (element "playPauseButton" s1) = "Pause"
    ∧ onPlayPauseClick s1 = Ret tt s2
    ∧ isPlaying s2 = false
    ∧ (∀ id, ¬ tick_pending s2 id)
    ∧ textContent (element "playPauseButton" s2) = "Play"
    ∧ data_view s2 = data_view s
    ∧ pyramidChart s2 = pyramidChart s.
Proof.
  intros Hok Hpage Hp Hlen.
  destruct (startAnimation_starts s Hok Hp Hlen)
    as (Hrun1 & Hok1 & Hp1 & Ha1 & Ht1 & Huniq).
  set (s1 := state_of (startAnimation s)) in *.
  assert (page_ok s1) as Hpage1 by (by apply startAnimation_page_ok).
  destruct (stopAnimation_stops_playing s1 Hok1 Hp1) as (Hrun2 & Hok2 & Hs2 & Hno).
  set (s2 := state_of (stopAnimation s1)) in *.
  exists s1, s2.
  split; [by rewrite onPlayPauseClick_stopped|].
  split; [done|]. split; [done|]. split; [done|]. split; [done|].
  split; [by apply startAnimation_button|].
  split; [by rewrite onPlayPauseClick_playing|].
  split; [done|]. split; [done|].
  split; [by apply stopAnimation_button|].
  split.
  - transitivity (data_view s1); symmetry;
      [apply (stopAnimation_data s1)|apply (startAnimation_data s)].
  - transitivity (pyramidChart s1); symmetry;
      [apply (stopAnimation_pyramidChart s1)|apply (startAnimation_pyramidChart s)].
Qed.

Lemma setupControls_timer_view : stable (same timer_view) setupControls.
Proof. unfold setupControls. stable_go. Qed.

Lemma setupControls_data_view : stable (same data_view) setupControls.
Proof. unfold setupControls. stable_go. Qed.

Lemma setupControls_many_years (s : State) :
  (1 < length (allYearsData s))%nat →
  clickListeners (state_of (setupControls s)) = S (clickListeners s)
  ∧ inputListeners (state_of (setupControls s)) = S (inputListeners s).
Proof.
  intros Hlen. unfold setupControls, bind, get. cbv beta iota.
  rewrite bool_decide_eq_false_2 by lia. done.
Qed.

(** X8. [setupControls] adds its listeners each time it runs on a
    series of several years and never removes one.  After two runs the play
    button has two click listeners: one click then starts the animation and
    stops it again, and no tick is pending; after one run a click starts
    it. *)
Theorem click_listeners_accumulate (s : State) :
  timers_ok s →
  isPlaying s = false →
  (1 < length (allYearsData s))%nat →
  clickListeners s = 0%nat →
  let once := state_of (setupControls s) in
  let twice := state_of (setupControls once) in
  clickListeners once = 1%nat
  ∧ clickListeners twice = 2%nat
  ∧ inputListeners twice = S (S (inputListeners s))
  ∧ isPlaying (dispatch PlayPauseClick once) = true
  ∧ isPlaying (dispatch PlayPauseClick twice) = false
  ∧ ∀ id, ¬ tick_pending (dispatch PlayPauseClick twice) id.
Proof.
  intros Hok Hp Hlen Hc once twice.
  assert (∀ t, timer_view (state_of (setupControls t)) = timer_view t) as Htv
    by (intros t; symmetry; apply setupControls_timer_view).
  assert (∀ t, data_view (state_of (setupControls t)) = data_view t) as Hdv
    by (intros t; symmetry; apply setupControls_data_view).
  assert (∀ t, timers_ok t → isPlaying t = false →
               (1 < length (allYearsData t))%nat →
               let t' := state_of (setupControls t) in
               timers_ok t' ∧ isPlaying t' = false
               ∧ (1 < length (allYearsData t'))%nat) as Hkeep.
  { intros t Ht Htp Htl. cbv zeta.
    specialize (Htv t). specialize (Hdv t).
    split; [by apply (timers_ok_view t)|].
    unfold timer_view in Htv. injection Htv as _ _ Hpl _ _.
    unfold data_view in Hdv. injection Hdv as Hall _.
    rewrite Hpl, Hall. done. }
  destruct (Hkeep s Hok Hp Hlen) as (Hok1 & Hp1 & Hlen1). fold once in Hok1, Hp1, Hlen1.
  destruct (Hkeep once Hok1 Hp1 Hlen1) as (Hok2 & Hp2 & Hlen2).
  fold twice in Hok2, Hp2, Hlen2.
  destruct (setupControls_many_years s Hlen) as [Hc1 Hi1]. fold once in Hc1, Hi1.
  destruct (setupControls_many_years once Hlen1) as [Hc2 Hi2]. fold twice in Hc2, Hi2.
  rewrite Hc in Hc1. rewrite Hc1 in Hc2. rewrite Hi1 in Hi2.
  split; [done|]. split; [done|]. split; [done|].
  split.
  - simpl. rewrite Hc1. simpl. rewrite onPlayPauseClick_stopped by done.
    apply (startAnimation_starts once Hok1 Hp1 Hlen1).
  - simpl. rewrite Hc2. simpl. rewrite (onPlayPauseClick_stopped twice) by done.
    destruct (startAnimation_starts twice Hok2 Hp2 Hlen2) as (_ & Hok3 & Hp3 & _).
    rewrite onPlayPauseClick_playing by done.
    destruct (stopAnimation_stops_playing _ Hok3 Hp3) as (_ & _ & Hs & Hno).
    done.
Qed.

(** ** Nothing to draw, and a load that fails *)

Lemma showMessage_error_shown (m : string) (s : State) :
  page_ok s → error_shown m (state_of (showMessage m "error" s)).
Proof.
  intros Hpage.
  destruct (showMessage_messageBox m "error" s Hpage) as (H1 & H2 & H3).
  split; [done|]. split; [done|]. by apply H3.
Qed.

Lemma showMessage_element_other (id m t : string) (s : State) :
  id ≠ "messageBox" →
  element id (state_of (showMessage m t s)) = element id s.
Proof. intros Hne. unfold element. simpl. by rewrite !lookup_alter_ne. Qed.

Lemma showMessage_returns (m t : string) (s : State) :
  showMessage m t s = Ret tt (state_of (showMessage m t s)).
Proof. apply total_state_of, showMessage_total. Qed.

(** The branch of [initializeChart] for a series without the entry asked
    for. *)
Lemma initializeChart_no_data_outcome (i : Js.num) (s : State) :
  (allYearsData s = []
   ∨ ∃ z, i = Js.Num z ∧ ¬ (0 ≤ z ≤ Z.of_nat (length (allYearsData s)) - 1)%Z) →
  let s_m := state_of (showMessage "No data available to display chart." "error" s) in
  initializeChart i s
  = Ret tt (set_document
              (alter (set_textContent "Year: ---") "currentYearDisplay"
                 (alter (set_textContent "Error: Could not load data.")
                    "dataSourceInfo" (document s_m)))
              s_m).
Proof.
  intros Hcase. cbv zeta.
  unfold initializeChart. unfold bind at 1. unfold get. cbv beta iota.
  assert (bool_decide (length (allYearsData s) = 0%nat)
          || Js.lt i (Js.Num 0) || Js.ge i (Js.length (allYearsData s)) = true) as ->.
  { destruct Hcase as [->|(z & -> & Hout)]; [done|].
    rewrite <- orb_assoc. unfold Js.length. rewrite out_of_range_guard by done.
    apply orb_true_r. }
  erewrite bind_Ret; [|apply showMessage_returns].
  generalize (state_of (showMessage "No data available to display chart." "error" s)).
  intros t. reflexivity.
Qed.

(** X3. With an empty series, or an index outside it,
    [initializeChart] returns without touching the chart: the error
    "No data available to display chart." is on display, the data source
    reads "Error: Could not load data.", the year reads "Year: ---", and
    the slider, [pyramidChart], the canvas, the series and the index are
    unchanged. *)
Theorem initializeChart_without_data (i : Js.num) (s : State) :
  page_ok s →
  (allYearsData s = []
   ∨ ∃ z, i = Js.Num z ∧ ¬ (0 ≤ z ≤ Z.of_nat (length (allYearsData s)) - 1)%Z) →
  ∃ s',
    initializeChart i s = Ret tt s'
    ∧ error_shown "No data available to display chart." s'
    ∧ textContent (element "dataSourceInfo" s') = "Error: Could not load data."
    ∧ textContent (element "currentYearDisplay" s') = "Year: ---"
    ∧ element "yearSlider" s' = element "yearSlider" s
    ∧ pyramidChart s' = pyramidChart s
    ∧ canvasCharts s' = canvasCharts s
    ∧ data_view s' = data_view s.
Proof.
  intros Hpage Hcase.
  pose proof (initializeChart_no_data_outcome i s Hcase) as Hrun. cbv zeta in Hrun.
  pose proof (showMessage_error_shown "No data available to display chart." s Hpage)
    as (Hm1 & Hm2 & Hm3).
  pose proof (showMessage_element_other "yearSlider"
                "No data available to display chart." "error" s) as Hslider.
  pose proof (showMessage_page_ok "No data available to display chart." "error" s Hpage)
    as Hpage_m.
  pose proof (showMessage_pyramidChart "No data available to display chart." "error" s)
    as Hpc.
  pose proof (showMessage_chart "No data available to display chart." "error" s) as Hcv.
  pose proof (showMessage_data "No data available to display chart." "error" s) as Hdv.
  unfold same in Hpc, Hcv, Hdv.
  set (s_m := state_of (showMessage _ _ s)) in *. clearbody s_m.
  destruct (page_ok_lookup s_m "dataSourceInfo" Hpage_m) as [e1 He1]; [by eexists|].
  destruct (page_ok_lookup s_m "currentYearDisplay" Hpage_m) as [e2 He2]; [by eexists|].
  eexists. split; [exact Hrun|].
  split.
  { unfold error_shown, element in *. simpl. rewrite !lookup_alter_ne by done. done. }
  split; [read_element; by rewrite He1|].
  split; [read_element; by rewrite He2|].
  split.
  { rewrite <- Hslider by done. unfold element. simpl.
    by rewrite !lookup_alter_ne. }
  split; [done|]. split; [|done].
  unfold chart_view in Hcv. by injection Hcv.
Qed.

Lemma load_fails_handler (p : string) (r : FetchResult RawDocument) (m : string) (s : State) :
  load_fails p r m →
  loadAndDisplayChart_resume p r s = load_failure_handler m s.
Proof. intros []; reflexivity. Qed.

Lemma load_failure_display (s_m : State) :
  bind (on_element "dataSourceInfo" (set_textContent "Error: Could not load data."))
    (λ _, bind (on_element "currentYearDisplay" (set_textContent "Year: ---"))
    (λ _, bind (on_element "controlsContainer"
                  (λ e, set_classList
                          (tokens_add ["hidden-controls"] (classList e)) e))
    (λ _, showLoading false))) s_m
  = Ret tt (set_document
              (alter (λ e, set_classList (tokens_add ["hidden"] (classList e)) e)
                 "loadingIndicator"
                 (alter (λ e, set_classList
                                (tokens_add ["hidden-controls"] (classList e)) e)
                    "controlsContainer"
                    (alter (set_textContent "Year: ---") "currentYearDisplay"
                       (alter (set_textContent "Error: Could not load data.")
                          "dataSourceInfo" (document s_m)))))
              s_m).
Proof. reflexivity. Qed.

Lemma load_failure_handler_outcome (m : string) (s : State) :
  let s_c := state_of (console_error ("Error loading or processing chart data: " ++ m) s) in
  let s_m := state_of (showMessage ("Error: " ++ m) "error" s_c) in
  load_failure_handler m s
  = Ret tt (set_document
              (alter (λ e, set_classList (tokens_add ["hidden"] (classList e)) e)
                 "loadingIndicator"
                 (alter (λ e, set_classList
                                (tokens_add ["hidden-controls"] (classList e)) e)
                    "controlsContainer"
                    (alter (set_textContent "Year: ---") "currentYearDisplay"
                       (alter (set_textContent "Error: Could not load data.")
                          "dataSourceInfo" (document s_m)))))
              s_m).
Proof.
  cbv zeta. unfold load_failure_handler.
  erewrite bind_Ret; [|reflexivity].
  erewrite bind_Ret; [|apply showMessage_returns].
  apply load_failure_display.
Qed.

(** X4. A dataset request that fails (the network, a status that
    is not a success, or a body that is not JSON) is handled inside
    [loadAndDisplayChart]: it returns, the error is logged and shown as
    "Error: " followed by its message, the data source and year read as
    errors, the controls container is hidden, the loading indicator is taken
    down, and the chart, the canvas, the series and the index stay as they
    were. *)
Theorem loadAndDisplayChart_failure
    (p : string) (r : FetchResult RawDocument) (m : string) (s : State) :
  page_ok s →
  load_fails p r m →
  ∃ s',
    loadAndDisplayChart_resume p r s = Ret tt s'
    ∧ error_shown ("Error: " ++ m) s'
    ∧ textContent (element "dataSourceInfo" s') = "Error: Could not load data."
    ∧ textContent (element "currentYearDisplay" s') = "Year: ---"
    ∧ "hidden-controls" ∈ classList (element "controlsContainer" s')
    ∧ loading_hidden s'
    ∧ console s' = ("Error loading or processing chart data: " ++ m) :: console s
    ∧ pyramidChart s' = pyramidChart s
    ∧ canvasCharts s' = canvasCharts s
    ∧ data_view s' = data_view s.
Proof.
  intros Hpage Hfail.
  rewrite (load_fails_handler p r m s Hfail).
  pose proof (load_failure_handler_outcome m s) as Hrun. cbv zeta in Hrun.
  set (s_c := state_of (console_error _ s)) in *.
  assert (page_ok s_c) as Hpage_c by done.
  pose proof (showMessage_error_shown ("Error: " ++ m) s_c Hpage_c) as (Hm1 & Hm2 & Hm3).
  pose proof (showMessage_page_ok ("Error: " ++ m) "error" s_c Hpage_c) as Hpage_m.
  pose proof (showMessage_pyramidChart ("Error: " ++ m) "error" s_c) as Hpc.
  pose proof (showMessage_chart ("Error: " ++ m) "error" s_c) as Hcv.
  pose proof (showMessage_data ("Error: " ++ m) "error" s_c) as Hdv.
  assert (console (state_of (showMessage ("Error: " ++ m) "error" s_c)) = console s_c)
    as Hcons by reflexivity.
  unfold same in Hpc, Hcv, Hdv.
  set (s_m := state_of (showMessage _ _ s_c)) in *. clearbody s_m.
  destruct (page_ok_lookup s_m "dataSourceInfo" Hpage_m) as [e1 He1]; [by eexists|].
  destruct (page_ok_lookup s_m "currentYearDisplay" Hpage_m) as [e2 He2]; [by eexists|].
  destruct (page_ok_lookup s_m "controlsContainer" Hpage_m) as [e3 He3]; [by eexists|].
  destruct (page_ok_lookup s_m "loadingIndicator" Hpage_m) as [e4 He4]; [by eexists|].
  eexists. split; [exact Hrun|].
  split.
  { unfold error_shown, element in *. simpl. rewrite !lookup_alter_ne by done. done. }
  split; [read_element; by rewrite He1|].
  split; [read_element; by rewrite He2|].
  split.
  { read_element. rewrite He3. simpl. apply tokens_add_new, elem_of_cons. by left. }
  split.
  { unfold loading_hidden. read_element. rewrite He4. simpl.
    apply tokens_add_new, elem_of_cons. by left. }
  split; [exact Hcons|].
  split; [symmetry; exact Hpc|].
  split; [|symmetry; exact Hdv].
  unfold chart_view in Hcv. injection Hcv as _ Hcanvas. symmetry. exact Hcanvas.
Qed.

(** ** [setupControls] *)

Lemma tokens_remove_gone (old l : list string) (t : string) :
  t ∈ old → t ∉ tokens_remove old l.
Proof. intros Hin. rewrite tokens_remove_spec. by intros [_ ?]. Qed.

(** X7. [setupControls] returns and leaves the series, the index
    and the chart alone.  With at most one year it hides the play button and
    the slider, adds no listener, and for exactly one year writes the year
    and the data source.  With more years it shows both, sets the slider's
    maximum to the last index and its value to the current one, labels its
    ends with the first and the last year, and adds one listener to the
    button and one to the slider. *)
Theorem setupControls_shows_or_hides (s : State) :
  page_ok s →
  ∃ s',
    setupControls s = Ret tt s'
    ∧ data_view s' = data_view s
    ∧ pyramidChart s' = pyramidChart s
    ∧ ((length (allYearsData s) ≤ 1)%nat →
       "hidden-controls" ∈ classList (element "playPauseButton" s')
       ∧ "hidden-controls" ∈ classList (element "sliderComponents" s')
       ∧ clickListeners s' = clickListeners s
       ∧ inputListeners s' = inputListeners s
       ∧ ∀ e, allYearsData s = [e] →
              textContent (element "currentYearDisplay" s') = "Year: " ++ pretty (year e)
              ∧ textContent (element "dataSourceInfo" s')
                = "Data for " ++ dquote ++ country e ++ dquote)
    ∧ ((1 < length (allYearsData s))%nat →
       ("hidden-controls" ∉ classList (element "playPauseButton" s'))
       ∧ ("hidden-controls" ∉ classList (element "sliderComponents" s'))
       ∧ maxAttr (element "yearSlider" s')
         = pretty (Z.of_nat (length (allYearsData s)) - 1)
       ∧ value (element "yearSlider" s') = Js.to_string (currentYearIndex s)
       ∧ (∀ e, head (allYearsData s) = Some e →
               textContent (element "sliderMinYear" s') = pretty (year e))
       ∧ (∀ e, last (allYearsData s) = Some e →
               textContent (element "sliderMaxYear" s') = pretty (year e))
       ∧ clickListeners s' = S (clickListeners s)
       ∧ inputListeners s' = S (inputListeners s)).
Proof.
  intros Hpage.
  destruct (page_ok_lookup s "playPauseButton" Hpage) as [e1 He1]; [by eexists|].
  destruct (page_ok_lookup s "sliderComponents" Hpage) as [e2 He2]; [by eexists|].
  destruct (page_ok_lookup s "yearSlider" Hpage) as [e3 He3]; [by eexists|].
  destruct (page_ok_lookup s "sliderMinYear" Hpage) as [e4 He4]; [by eexists|].
  destruct (page_ok_lookup s "sliderMaxYear" Hpage) as [e5 He5]; [by eexists|].
  destruct (page_ok_lookup s "currentYearDisplay" Hpage) as [e6 He6]; [by eexists|].
  destruct (page_ok_lookup s "dataSourceInfo" Hpage) as [e7 He7]; [by eexists|].
  exists (state_of (setupControls s)).
  split; [apply total_state_of, setupControls_total|].
  split; [symmetry; apply setupControls_data_view|].
  split.
  { assert (stable (same pyramidChart) setupControls) as H
      by (unfold setupControls; stable_go).
    symmetry. apply H. }
  unfold setupControls, bind, get. cbv beta iota.
  split; intros Hlen.
  - rewrite (bool_decide_eq_true_2 _ Hlen).
    destruct (allYearsData s) as [|e [|e' l]] eqn:Hall; simpl in Hlen; try lia.
    + split; [read_element; rewrite He1; simpl; apply tokens_add_new, elem_of_cons; by left|].
      split; [read_element; rewrite He2; simpl; apply tokens_add_new, elem_of_cons; by left|].
      split; [done|]. split; [done|]. intros e [=].
    + split; [read_element; rewrite He1; simpl; apply tokens_add_new, elem_of_cons; by left|].
      split; [read_element; rewrite He2; simpl; apply tokens_add_new, elem_of_cons; by left|].
      split; [done|]. split; [done|]. intros e0 [= <-].
      split; read_element; [by rewrite He6|by rewrite He7].
  - rewrite bool_decide_eq_false_2 by lia.
    split; [read_element; rewrite He1; simpl; apply tokens_remove_gone, elem_of_cons; by left|].
    split; [read_element; rewrite He2; simpl; apply tokens_remove_gone, elem_of_cons; by left|].
    split; [read_element; by rewrite He3|].
    split; [read_element; by rewrite He3|].
    split; [intros e Hh; read_element; by rewrite He4, Hh|].
    split; [intros e Hl; read_element; by rewrite He5, Hl|].
    done.
Qed.

(** ** [updateChartForAnimation] on a drawn chart *)

(** X9. For an index inside the series and a chart with its two
    datasets, [updateChartForAnimation] returns having made the index
    current and rebound the same chart object: same identity, same canvas,
    same dataset labels, one more [update()], the entry's age groups as
    labels, its male counts negated and its female counts as data; the year
    display reads the entry's year, and the timers and the series are
    untouched. *)
Theorem updateChartForAnimation_in_place
    (s : State) (n : nat) (entry : YearSeriesEntry) (c : Chart) (d0 d1 : Dataset) :
  page_ok s →
  allYearsData s !! n = Some entry →
  pyramidChart s = Some c →
  datasets c = [d0; d1] →
  ∃ s' c',
    updateChartForAnimation (Js.Num (Z.of_nat n)) s = Ret tt s'
    ∧ currentYearIndex s' = Js.Num (Z.of_nat n)
    ∧ allYearsData s' = allYearsData s
    ∧ pyramidChart s' = Some c'
    ∧ chart_id c' = chart_id c
    ∧ canvasCharts s' = canvasCharts s
    ∧ updates c' = S (updates c)
    ∧ labels c' = ageGroups entry
    ∧ label <$> datasets c' = label <$> datasets c
    ∧ data <$> datasets c' = [Z.opp <$> male entry; female entry]
    ∧ textContent (element "currentYearDisplay" s') = "Year: " ++ pretty (year entry)
    ∧ timer_view s' = timer_view s.
Proof.
  intros Hpage He Hc Hds.
  destruct (updateChartForAnimation_binds s n entry c d0 d1 He Hc Hds)
    as (s' & c' & Hrun & Hidx & Hc' & Hid & Hup & Hl & Hds').
  destruct (page_ok_lookup s "currentYearDisplay" Hpage) as [e1 He1]; [by eexists|].
  pose proof (updateChartForAnimation_allYearsData (Js.Num (Z.of_nat n)) s) as Hall.
  pose proof (updateChartForAnimation_timer (Js.Num (Z.of_nat n)) s) as Htv.
  pose proof (updateChartForAnimation_chart_view (Js.Num (Z.of_nat n)) s) as Hcv.
  unfold same in Hall, Htv, Hcv. rewrite Hrun in Hall, Htv, Hcv. simpl in Hall, Htv, Hcv.
  exists s', c'.
  split; [done|]. split; [done|]. split; [done|]. split; [done|]. split; [done|].
  split; [unfold chart_view in Hcv; by injection Hcv|].
  split; [done|]. split; [done|].
  split; [by rewrite Hds', Hds|]. split; [by rewrite Hds'|].
  assert (state_of (updateChartForAnimation (Js.Num (Z.of_nat n)) s) = s') as Hs'
    by (by rewrite Hrun).
  rewrite <- Hs'. clear Hrun Hs' Hall Htv Hcv Hidx Hc' Hid Hup Hl Hds'.
  pose proof (lookup_in_range _ _ _ He) as Hrange.
  assert (∀ P : State → Prop,
    (∀ c', P (set_pyramidChart (Some c')
      (set_document
         (alter (set_value (pretty (Z.of_nat n))) "yearSlider"
            (alter (set_textContent ("Year: " ++ pretty (year entry)))
               "currentYearDisplay" (document s)))
         (set_currentYearIndex (Js.Num (Z.of_nat n)) s)))) →
    P (state_of (updateChartForAnimation (Js.Num (Z.of_nat n)) s))) as Hshape.
  { intros P HP.
    unfold updateChartForAnimation, bind, get, Js.length. cbv beta iota.
    rewrite in_range_guard by done.
    unfold modify at 1. cbv beta iota.
    cbn [currentYearIndex set_currentYearIndex allYearsData].
    rewrite index_of_nat, He.
    unfold on_element, modify, on_pyramidChart, set_dataset_data. simpl.
    rewrite Hc. simpl. rewrite Hds. simpl. apply HP. }
  apply Hshape. intros c''.
  split; [read_element; by rewrite He1|]. done.
Qed.

(** X10. [updateChartForAnimation] assumes there is a chart.  For
    an index inside the series while [pyramidChart] is unset it throws, after
    it has stored the index and written the year display and the slider;
    the series and the canvas are unchanged. *)
Theorem updateChartForAnimation_without_chart
    (s : State) (n : nat) (entry : YearSeriesEntry) :
  page_ok s →
  allYearsData s !! n = Some entry →
  pyramidChart s = None →
  ∃ e s',
    updateChartForAnimation (Js.Num (Z.of_nat n)) s = Throw e s'
    ∧ currentYearIndex s' = Js.Num (Z.of_nat n)
    ∧ textContent (element "currentYearDisplay" s') = "Year: " ++ pretty (year entry)
    ∧ value (element "yearSlider" s') = pretty (Z.of_nat n)
    ∧ pyramidChart s' = None
    ∧ canvasCharts s' = canvasCharts s
    ∧ allYearsData s' = allYearsData s.
Proof.
  intros Hpage He Hc.
  destruct (page_ok_lookup s "currentYearDisplay" Hpage) as [e1 He1]; [by eexists|].
  destruct (page_ok_lookup s "yearSlider" Hpage) as [e2 He2]; [by eexists|].
  pose proof (lookup_in_range _ _ _ He) as Hrange.
  unfold updateChartForAnimation, bind, get, Js.length. cbv beta iota.
  rewrite in_range_guard by done.
  unfold modify at 1. cbv beta iota.
  cbn [currentYearIndex set_currentYearIndex allYearsData].
  rewrite index_of_nat, He.
  unfold on_element, modify, on_pyramidChart, set_dataset_data. simpl.
  rewrite Hc. eexists _, _. split; [reflexivity|]. simpl.
  split; [done|]. split; [read_element; by rewrite He1|].
  split; [read_element; by rewrite He2|]. done.
Qed.

(** ** Country names, file paths and the selector *)

Lemma chars_app (a b : string) : chars (a ++ b) = (chars a ++ chars b)%list.
Proof.
  induction a as [|x a IH]; [done|].
  change (chars (String x (a ++ b)) = (x :: chars a ++ chars b)%list).
  change (x :: chars (a ++ b) = (x :: chars a ++ chars b)%list).
  by rewrite IH.
Qed.

Lemma chars_replace_all (c d : ascii) (s : string) :
  chars (Js.replace_all c d s) = (λ x, if bool_decide (x = c) then d else x) <$> chars s.
Proof.
  induction s as [|x s IH]; [done|].
  unfold chars in *. cbn [Js.replace_all list_ascii_of_string]. rewrite IH. done.
Qed.

Lemma replace_all_absent (c d : ascii) (s : string) :
  c ≠ d → c ∉ chars (Js.replace_all c d s).
Proof.
  intros Hne. rewrite chars_replace_all. intros Hin.
  apply list_elem_of_fmap in Hin as (x & Hx & _).
  case_bool_decide; congruence.
Qed.

Lemma replace_all_back (s : string) :
  Js.replace_all " " "_" (Js.replace_all "_" " " s) = Js.replace_all " " "_" s.
Proof.
  induction s as [|x s IH]; [done|].
  cbn [Js.replace_all]. rewrite IH. f_equal.
  repeat case_bool_decide; congruence.
Qed.

Lemma replace_all_idem (s : string) :
  Js.replace_all " " "_" (Js.replace_all " " "_" s) = Js.replace_all " " "_" s.
Proof.
  induction s as [|x s IH]; [done|].
  cbn [Js.replace_all]. rewrite IH. f_equal.
  repeat case_bool_decide; congruence.
Qed.

Lemma dataset_path_display (c : string) :
  dataset_path (Js.replace_all "_" " " c) = dataset_path c.
Proof. unfold dataset_path. by rewrite replace_all_back. Qed.

(** X13. The path of a country's file is the same for the
    catalog's name, for the name as the selector displays it (underscores
    shown as spaces) and for the name with its spaces already replaced; no
    path has a space in it and no displayed name an underscore. *)
Theorem dataset_path_of_display_name (countryName : string) :
  dataset_path (Js.replace_all "_" " " countryName) = dataset_path countryName
  ∧ dataset_path (Js.replace_all " " "_" countryName) = dataset_path countryName
  ∧ (" "%char ∉ chars (dataset_path countryName))
  ∧ ("_"%char ∉ chars (Js.replace_all "_" " " countryName)).
Proof.
  split; [apply dataset_path_display|].
  split; [unfold dataset_path; by rewrite replace_all_idem|].
  split; [|by apply replace_all_absent].
  unfold dataset_path. rewrite !chars_app.
  rewrite !elem_of_app. intros [H|[H|H]].
  - revert H. apply (bool_decide_unpack _). vm_compute. exact I.
  - by apply replace_all_absent in H.
  - revert H. apply (bool_decide_unpack _). vm_compute. exact I.
Qed.

Lemma append_options_options (l : list string) (s : State) :
  is_Some (document s !! "countrySelector") →
  options (element "countrySelector" (state_of (append_options l s)))
  = (options (element "countrySelector" s) ++ (option_of <$> l))%list.
Proof.
  revert s. induction l as [|c l IH]; intros s [e He].
  - simpl. by rewrite app_nil_r.
  - cbn [append_options]. unfold bind, on_element, modify. cbv beta iota.
    rewrite IH.
    + unfold element. simpl. rewrite lookup_alter_eq, He. simpl.
      by rewrite <- app_assoc.
    + simpl. rewrite lookup_alter_eq, He. by eexists.
Qed.

Lemma begin_selector (c : option string) :
  stable (same (element "countrySelector")) (loadAndDisplayChart_begin c).
Proof.
  intros s. unfold same, loadAndDisplayChart_begin, showLoading, fetch, bind,
    on_element, modify, element. simpl. by rewrite lookup_alter_ne.
Qed.

Lemma loadCountryList_resume_shape (s : State) (status : Z) (catalog : list string) :
  let s1 := set_document
              (alter (set_options [("", "Select a country")]) "countrySelector" (document s))
              (set_countryList catalog s) in
  let s2 := state_of (append_options catalog s1) in
  let choice := initial_choice (params_get "country" (location_search s2)) catalog in
  loadCountryList_resume (Response true status (Some catalog)) s
  = Ret tt (state_of (loadAndDisplayChart_begin choice
              (set_document
                 (alter (set_value (default "undefined" choice)) "countrySelector"
                    (document s2)) s2))).
Proof.
  intros s1 s2 choice.
  unfold loadCountryList_resume, try_catch, bind at 1. cbn [negb].
  unfold bind at 1, modify at 1. cbv beta iota.
  unfold bind at 1, on_element at 1, modify at 1. cbv beta iota.
  unfold bind at 1, get at 1. cbv beta iota.
  cbn [countryList set_document set_countryList].
  change (document (set_countryList catalog s)) with (document s). fold s1.
  unfold bind at 1.
  rewrite (total_state_of (append_options catalog) s1 (append_options_total _)).
  cbv beta iota. fold s2.
  assert (countryList s2 = catalog) as Hcl.
  { assert (stable (same countryList) (append_options catalog)) as H.
    { apply append_options_stable; [apply _|]. intros f. stable_prim. }
    symmetry. apply (H s1). }
  unfold bind at 1, get at 1. cbv beta iota.
  subst choice. unfold initial_choice.
  destruct (Js.truthy _ && _) eqn:Hc.
  - destruct (params_get "country" (location_search s2)); [|done]. reflexivity.
  - reflexivity.
Qed.

(** X14. When the catalog arrives the selector's options are
    replaced by the placeholder ["Select a country"] followed by one option
    per catalog entry, in catalog order, whose value is the entry and whose
    text is the entry with underscores shown as spaces; loading by the text
    would ask for the same file as loading by the value.  No message is
    shown, nothing is logged and no timer is set. *)
Theorem catalog_fills_selector (s : State) (status : Z) (catalog : list string) :
  page_ok s →
  let s' := state_of (loadCountryList_resume (Response true status (Some catalog)) s) in
  options (element "countrySelector" s')
  = ("", "Select a country") :: (option_of <$> catalog)
  ∧ (∀ c, c ∈ catalog →
       ∃ text, (c, text) ∈ options (element "countrySelector" s')
               ∧ ("_"%char ∉ chars text)
               ∧ dataset_path text = dataset_path c)
  ∧ element "messageBox" s' = element "messageBox" s
  ∧ console s' = console s
  ∧ timers s' = timers s.
Proof.
  intros Hpage s'.
  pose proof (loadCountryList_resume_shape s status catalog) as Hshape.
  cbv zeta in Hshape. subst s'. rewrite Hshape. clear Hshape. cbn [state_of].
  set (s1 := set_document _ (set_countryList catalog s)).
  set (s2 := state_of (append_options catalog s1)).
  set (choice := initial_choice _ _).
  set (s3 := set_document _ s2).
  destruct (Hpage "countrySelector") as [e0 He0]; [by eexists|].
  assert (is_Some (document s1 !! "countrySelector")) as Hsel1.
  { subst s1. simpl. rewrite lookup_alter_eq, He0. by eexists. }
  pose proof (append_options_options catalog s1 Hsel1) as Ho.
  assert (options (element "countrySelector" s1) = [("", "Select a country")]) as Ho1.
  { subst s1. unfold element. simpl. by rewrite lookup_alter_eq, He0. }
  rewrite Ho1 in Ho. simpl in Ho. fold s2 in Ho.
  assert (is_Some (document s2 !! "countrySelector")) as [e He].
  { apply append_options_page_ok; [|by eexists].
    intros id Hid. subst s1. simpl. apply lookup_alter_is_Some. by apply Hpage. }
  unfold element in Ho. rewrite He in Ho. simpl in Ho.
  assert (options (element "countrySelector" (state_of (loadAndDisplayChart_begin choice s3)))
          = ("", "Select a country") :: (option_of <$> catalog)) as Hopts.
  { rewrite <- (begin_selector choice s3).
    subst s3. unfold element. simpl. by rewrite lookup_alter_eq, He. }
  split; [exact Hopts|]. split.
  { intros c Hc. exists (Js.replace_all "_" " " c).
    split; [|split].
    + rewrite Hopts. apply elem_of_cons. right.
      apply list_elem_of_fmap. by exists c.
    + by apply replace_all_absent.
    + apply dataset_path_display. }
  assert (stable (same (λ s, (element "messageBox" s, console s, timers s)))
            (append_options catalog)) as Hk.
  { apply append_options_stable; [apply _|]. intros f t. unfold same, element. simpl.
    by rewrite lookup_alter_ne. }
  specialize (Hk s1). unfold same in Hk. fold s2 in Hk.
  assert ((element "messageBox" s1, console s1, timers s1)
          = (element "messageBox" s, console s, timers s)) as Hk1.
  { subst s1. unfold element. simpl. by rewrite lookup_alter_ne. }
  rewrite Hk1 in Hk. clear Hk1.
  assert ((element "messageBox" (state_of (loadAndDisplayChart_begin choice s3)),
           console (state_of (loadAndDisplayChart_begin choice s3)),
           timers (state_of (loadAndDisplayChart_begin choice s3)))
          = (element "messageBox" s2, console s2, timers s2)) as Hk3.
  { unfold loadAndDisplayChart_begin, showLoading, fetch, bind, on_element, modify,
      element. subst s3. simpl. by rewrite !lookup_alter_ne. }
  rewrite <- Hk in Hk3.
  split; [exact (f_equal (λ x, x.1.1) Hk3)|].
  split; [exact (f_equal (λ x, x.1.2) Hk3)|exact (f_equal snd Hk3)].
Qed.

(** ** When the catalog cannot be used *)

Lemma begin_loading_shown (c : option string) (s : State) :
  page_ok s → loading_shown (state_of (loadAndDisplayChart_begin c s)).
Proof.
  intros Hpage. destruct (Hpage "loadingIndicator") as [e He]; [by eexists|].
  unfold loading_shown, element. simpl. rewrite lookup_alter_eq, He. simpl.
  apply tokens_remove_gone, elem_of_cons. by left.
Qed.

(** X15. A catalog whose body is not JSON is treated like one that
    could not be fetched.  In each of these cases [loadCountryList] returns;
    the failure is logged, the warning is on display as an error, the file
    of ["Algeria"] is requested and the loading indicator is up; the
    selector (its options and its value), the stored catalog, the address,
    the series, the index and the chart are unchanged. *)
Theorem catalog_unusable_falls_back (s : State) (r : FetchResult (list string)) :
  catalog_unusable r →
  page_ok s →
  ∃ reason s',
    loadCountryList_resume r s = Ret tt s'
    ∧ console s' = ("Error loading country list: " ++ reason) :: console s
    ∧ error_shown "Could not load country list. Using default country." s'
    ∧ fetches s' = "data/Algeria_pyramid.json" :: fetches s
    ∧ loading_shown s'
    ∧ element "countrySelector" s' = element "countrySelector" s
    ∧ countryList s' = countryList s
    ∧ location_search s' = location_search s
    ∧ data_view s' = data_view s
    ∧ pyramidChart s' = pyramidChart s.
Proof.
  intros Hfail Hpage.
  assert (∃ reason,
            loadCountryList_resume r s
            = Ret tt (state_of (loadAndDisplayChart_begin (Some "Algeria")
                        (state_of (showMessage
                           "Could not load country list. Using default country." "error"
                           (state_of (console_error
                              ("Error loading country list: " ++ reason) s))))))) as [reason Hrun].
  { destruct Hfail as [[[m ->]|(status & body & ->)]|[status ->]]; eexists; reflexivity. }
  set (s_c := state_of (console_error _ s)) in Hrun.
  set (s_m := state_of (showMessage _ _ _)) in Hrun.
  set (s1 := state_of (loadAndDisplayChart_begin _ s_m)) in Hrun.
  assert (page_ok s_m) as Hpage_m by (by apply showMessage_page_ok).
  assert (error_shown "Could not load country list. Using default country." s_m) as Hshown
    by (by apply showMessage_error_shown).
  assert (element "messageBox" s1 = element "messageBox" s_m) as Hbox
    by (symmetry; apply (begin_messageBox (Some "Algeria") s_m)).
  exists reason, s1. split; [exact Hrun|].
  split; [reflexivity|].
  split; [unfold error_shown; by rewrite Hbox|].
  split; [reflexivity|].
  split; [by apply begin_loading_shown|].
  split.
  { transitivity (element "countrySelector" s_m).
    - symmetry. apply (begin_selector (Some "Algeria") s_m).
    - subst s_m. by rewrite showMessage_element_other. }
  done.
Qed.

(** ** Choosing a country *)

Lemma params_get_filter (k name : string) (ps : list (string * string)) :
  k ≠ name →
  params_get k (List.filter (λ p, negb (bool_decide (p.1 = name))) ps) = params_get k ps.
Proof.
  intros Hne. induction ps as [|[k0 w] ps IH]; [done|]. simpl.
  repeat case_bool_decide; simplify_eq/=; rewrite ?bool_decide_eq_true_2 by done;
    rewrite ?bool_decide_eq_false_2 by done; done.
Qed.

Lemma params_get_set (name v : string) (ps : list (string * string)) :
  params_get name (params_set name v ps) = Some v.
Proof.
  induction ps as [|[k0 w] ps IH]; simpl.
  - by rewrite bool_decide_eq_true_2.
  - case_bool_decide; simpl.
    + by rewrite bool_decide_eq_true_2.
    + by rewrite bool_decide_eq_false_2.
Qed.

Lemma params_get_set_ne (k name v : string) (ps : list (string * string)) :
  k ≠ name →
  params_get k (params_set name v ps) = params_get k ps.
Proof.
  intros Hne. induction ps as [|[k0 w] ps IH]; simpl.
  - by rewrite bool_decide_eq_false_2.
  - case_bool_decide; simpl.
    + subst k0. rewrite !bool_decide_eq_false_2 by done. by apply params_get_filter.
    + case_bool_decide; [done|]. exact IH.
Qed.

(** X16. Choosing the placeholder of the country selector changes
    nothing.  Choosing a country sets the [country] parameter of the address
    to it and leaves every other parameter as it was, requests that
    country's file and puts the loading indicator up; until the file arrives
    the series, the index, the chart, the timers and the message box are
    unchanged. *)
Theorem country_change_requests_dataset (selectedCountry : string) (s : State) :
  page_ok s →
  let s' := dispatch (CountryChange selectedCountry) s in
  (selectedCountry = "" → s' = s)
  ∧ (selectedCountry ≠ "" →
       params_get "country" (location_search s') = Some selectedCountry
       ∧ (∀ k, k ≠ "country" →
            params_get k (location_search s') = params_get k (location_search s))
       ∧ fetches s' = dataset_path selectedCountry :: fetches s
       ∧ loading_shown s'
       ∧ data_view s' = data_view s
       ∧ pyramidChart s' = pyramidChart s
       ∧ timer_view s' = timer_view s
       ∧ element "messageBox" s' = element "messageBox" s).
Proof.
  intros Hpage s'. subst s'. unfold dispatch, onCountryChange. split.
  - intros ->. reflexivity.
  - intros Hne. rewrite bool_decide_eq_false_2 by done. cbn [negb].
    unfold bind at 1, modify at 1. cbv beta iota.
    set (s1 := set_location_search _ s).
    assert (page_ok s1) as Hpage1 by exact Hpage.
    unfold bind at 1.
    destruct (loadAndDisplayChart_begin (Some selectedCountry) s1) as [p s2|p s2] eqn:Hb;
      [|discriminate Hb].
    assert (s2 = state_of (loadAndDisplayChart_begin (Some selectedCountry) s1)) as ->
      by (by rewrite Hb).
    cbn [ret state_of]. clear Hb.
    split; [apply params_get_set|].
    split; [intros k Hk; by apply params_get_set_ne|].
    split; [reflexivity|].
    split; [by apply begin_loading_shown|].
    split; [reflexivity|]. split; [reflexivity|]. split; [reflexivity|].
    exact (eq_sym (begin_messageBox (Some selectedCountry) s1)).
Qed.

(** ** The resize timeout *)

Lemma resize_inv_insert table next resize (t : Timer) :
  timer_callback t ≠ CbResize →
  resize_inv table next resize →
  resize_inv (<[next := t]> table) (S next) resize.
Proof.
  intros Hcb (Hfresh & Hrz). split.
  - intros id t'. destruct (decide (id = next)) as [->|Hne]; [lia|].
    rewrite lookup_insert_ne by done. intros H. apply Hfresh in H. lia.
  - intros id. unfold is_resize. destruct (decide (id = next)) as [->|Hne].
    + rewrite lookup_insert_eq. simpl. congruence.
    + rewrite lookup_insert_ne by done. apply Hrz.
Qed.

Lemma resize_inv_delete table next resize (id : nat) :
  resize_inv table next resize →
  resize_inv (delete id table) next resize.
Proof.
  intros (Hfresh & Hrz). split.
  - intros id' t H. apply lookup_delete_Some in H as [_ H]. eauto.
  - intros id'. unfold is_resize. destruct (decide (id' = id)) as [->|Hne].
    + by rewrite lookup_delete_eq.
    + rewrite lookup_delete_ne by done. apply Hrz.
Qed.

Lemma resize_inv_clear table next resize (h : option nat) :
  resize_inv table next resize →
  resize_inv (from_option (λ id, delete id table) table h) next resize.
Proof. destruct h; simpl; [apply resize_inv_delete|done]. Qed.

Lemma resize_inv_again table next resize :
  resize_inv table next resize →
  resize_inv (<[next := Timeout CbResize]>
                (from_option (λ id, delete id table) table resize))
    (S next) (Some next).
Proof.
  intros (Hfresh & Hrz). split.
  - intros id t. destruct (decide (id = next)) as [->|Hne]; [lia|].
    rewrite lookup_insert_ne by done. intros H.
    assert (table !! id = Some t) as H'.
    { destruct resize; simpl in H; [|done]. by apply lookup_delete_Some in H as [_ H]. }
    apply Hfresh in H'. lia.
  - intros id. unfold is_resize. destruct (decide (id = next)) as [->|Hne].
    + rewrite lookup_insert_eq. done.
    + rewrite lookup_insert_ne by done. intros H. exfalso.
      destruct resize as [r|]; simpl in H.
      * destruct (decide (id = r)) as [->|Hr]; [by rewrite lookup_delete_eq in H|].
        rewrite lookup_delete_ne in H by done.
        apply Hrz in H as [[= ->] _]. done.
      * by apply Hrz in H as [? _].
Qed.

Lemma resize_ok_of_view (s : State) table next playing animation resize :
  timer_view s = (table, next, playing, animation, resize) →
  resize_inv table next resize →
  resize_ok s.
Proof. unfold timer_view, resize_ok. by intros [= -> -> _ _ ->]. Qed.

Lemma resize_ok_view (s s' : State) : same timer_view s s' → keeps resize_ok s s'.
Proof. unfold same, keeps. intros Hv Hok. eapply resize_ok_of_view; [by symmetry|done]. Qed.

Lemma showMessage_resize_ok m t : stable (keeps resize_ok) (showMessage m t).
Proof.
  intros s Hok. eapply resize_ok_of_view; [apply showMessage_timer_view|].
  by apply resize_inv_insert.
Qed.

Lemma stopAnimation_resize_ok : stable (keeps resize_ok) stopAnimation.
Proof.
  intros s Hok. destruct (isPlaying s) eqn:Hp.
  - eapply resize_ok_of_view; [by apply stopAnimation_timer_view|].
    apply resize_inv_insert; [done|]. by apply resize_inv_clear.
  - by rewrite stopAnimation_idle.
Qed.

Lemma startAnimation_resize_ok : stable (keeps resize_ok) startAnimation.
Proof.
  intros s Hok.
  destruct (isPlaying s) eqn:Hp; [rewrite startAnimation_idle by auto; done|].
  destruct (decide (length (allYearsData s) ≤ 1)%nat) as [Hle|Hgt];
    [rewrite startAnimation_idle by auto; done|].
  eapply resize_ok_of_view; [apply startAnimation_timer_view; [done|lia]|].
  apply resize_inv_insert; [done|]. by apply resize_inv_insert.
Qed.

Lemma onResize_resize_ok : stable (keeps resize_ok) onResize.
Proof.
  intros s Hok. eapply resize_ok_of_view; [apply onResize_timer_view|].
  by apply resize_inv_again.
Qed.

#[export] Hint Resolve showMessage_resize_ok stopAnimation_resize_ok
  startAnimation_resize_ok onResize_resize_ok : stable.
#[export] Hint Extern 5 (stable (keeps resize_ok) _) =>
  apply (stable_weaken (same timer_view)); [exact resize_ok_view|] : stable.

Lemma append_options_resize_ok l : stable (keeps resize_ok) (append_options l).
Proof. apply append_options_stable; [apply _|]. intros f. stable_prim. Qed.
#[export] Hint Resolve append_options_resize_ok : stable.

Lemma initializeChart_resize_ok i : stable (keeps resize_ok) (initializeChart i).
Proof. unfold initializeChart. stable_go. Qed.
#[export] Hint Resolve initializeChart_resize_ok : stable.

Lemma resizeChart_resize_ok : stable (keeps resize_ok) resizeChart.
Proof. unfold resizeChart. stable_go. Qed.
#[export] Hint Resolve resizeChart_resize_ok : stable.

Lemma run_callback_resize_ok cb : stable (keeps resize_ok) (run_callback cb).
Proof. destruct cb; unfold_script; stable_go. Qed.

Lemma dispatch_resize_ok (ev : Event) (s : State) :
  resize_ok s → resize_ok (dispatch ev s).
Proof.
  destruct ev; simpl.
  - apply (stable_run_listeners (keeps resize_ok)). unfold_script. stable_go.
  - apply (stable_run_listeners (keeps resize_ok)). unfold_script. stable_go.
  - assert (stable (keeps resize_ok) (onCountryChange target_value)) as H
      by (unfold_script; stable_go). apply H.
  - apply onResize_resize_ok.
  - unfold fire_timer. destruct (timers s !! id) as [[cb|cb]|] eqn:Hid; [| |done].
    + apply run_callback_resize_ok.
    + intros Hok. apply run_callback_resize_ok.
      unfold resize_ok. simpl. by apply resize_inv_delete.
  - assert (stable (keeps resize_ok) (loadCountryList_resume response)) as H
      by (unfold_script; stable_go). apply H.
  - assert (stable (keeps resize_ok) (loadAndDisplayChart_resume jsonFilePath response)) as H
      by (unfold_script; stable_go). apply H.
Qed.

Lemma run_resize_ok (evs : list Event) (s : State) :
  resize_ok s → resize_ok (run evs s).
Proof.
  revert s. induction evs as [|ev evs IH]; intros s Hok; [done|].
  simpl. apply IH, dispatch_resize_ok, Hok.
Qed.

Lemma page_loaded_resize_ok search : resize_ok (page_loaded search).
Proof.
  unfold resize_ok, resize_inv, is_resize. simpl.
  split; intros id; rewrite ?lookup_empty; done.
Qed.

Lemma onResize_pending (s : State) :
  resize_ok s →
  let s' := dispatch WindowResize s in
  resize_ok s'
  ∧ timers s' !! nextTimer s = Some (Timeout CbResize)
  ∧ resizeTimeout s' = Some (nextTimer s)
  ∧ nextTimer s' = S (nextTimer s)
  ∧ pyramidChart s' = pyramidChart s.
Proof.
  intros Hok s'. split; [by apply dispatch_resize_ok|].
  pose proof (onResize_timer_view s) as Hv. unfold timer_view in Hv.
  injection Hv as Ht Hn _ _ Hr. subst s'. cbn [dispatch].
  rewrite Ht, Hn, Hr. split; [by rewrite lookup_insert_eq|].
  split; [done|]. split; [done|].
  unfold onResize, bind, get, clearTimer. cbv beta iota.
  by destruct (resizeTimeout s).
Qed.

Lemma resizes_pending (k : nat) (s : State) :
  resize_ok s →
  let s' := run (resizes_of_window (S k)) s in
  resize_ok s'
  ∧ timers s' !! (nextTimer s + k)%nat = Some (Timeout CbResize)
  ∧ resizeTimeout s' = Some (nextTimer s + k)%nat
  ∧ pyramidChart s' = pyramidChart s.
Proof.
  revert s. induction k as [|k IH]; intros s Hok.
  - destruct (onResize_pending s Hok) as (H1 & H2 & H3 & _ & H5).
    cbn. rewrite Nat.add_0_r. done.
  - destruct (onResize_pending s Hok) as (H1 & _ & _ & H4 & H5).
    specialize (IH (dispatch WindowResize s) H1).
    cbv zeta in IH. rewrite H4, H5 in IH.
    replace (nextTimer s + S k)%nat with (S (nextTimer s) + k)%nat by lia.
    exact IH.
Qed.

(** X17. Resizing is debounced.  On the page as served, whatever has
    happened before, after any number of [resize] events in a row exactly one
    resize timeout is pending, the one set by the last event, and the chart
    has not been touched; when that timeout fires, the chart, if there is
    one, is resized once, and no resize timeout is left. *)
Theorem resize_debounced
    (search : list (string * string)) (evs : list Event) (k : nat) :
  let s := run evs (page_loaded search) in
  let s' := run (resizes_of_window (S k)) s in
  let s'' := dispatch (TimerFires (nextTimer s + k)) s' in
  is_resize (timers s') (nextTimer s + k)
  ∧ (∀ id, is_resize (timers s') id → id = (nextTimer s + k)%nat)
  ∧ pyramidChart s' = pyramidChart s
  ∧ pyramidChart s'' = chart_resize <$> pyramidChart s
  ∧ (∀ id, ¬ is_resize (timers s'') id).
Proof.
  intros s s' s''.
  assert (resize_ok s) as Hok by apply run_resize_ok, page_loaded_resize_ok.
  destruct (resizes_pending k s Hok) as (Hok' & Hp & Hr & Hc). fold s' in Hok', Hp, Hr, Hc.
  assert (∀ id, is_resize (timers s') id → id = (nextTimer s + k)%nat) as Huniq.
  { intros id Hid. apply Hok' in Hid as [Hid _]. rewrite Hr in Hid. by injection Hid. }
  split; [unfold is_resize; by rewrite Hp|]. split; [exact Huniq|]. split; [exact Hc|].
  subst s''. cbn [dispatch]. unfold fire_timer. rewrite Hp.
  cbn [run_callback]. set (s1 := set_timers _ s').
  assert (pyramidChart s1 = pyramidChart s) as Hc1 by exact Hc.
  assert (∀ id, ¬ is_resize (timers s1) id) as Hnone.
  { intros id. subst s1. cbn [timers set_timers]. unfold is_resize.
    destruct (decide (id = (nextTimer s + k)%nat)) as [->|Hne].
    - by rewrite lookup_delete_eq.
    - rewrite lookup_delete_ne by done. intros H. by apply Huniq in H. }
  clearbody s1.
  unfold resizeChart, bind, get, on_pyramidChart. cbv beta iota. rewrite !Hc1.
  destruct (pyramidChart s) as [c|]; rewrite ?Hc1; cbn [state_of ret]; [|done].
  split; [reflexivity|]. exact Hnone.
Qed.

(** ** The message box *)

Lemma tokens_add_spec (new l : list string) (t : string) :
  t ∈ tokens_add new l ↔ t ∈ l ∨ t ∈ new.
Proof.
  split.
  - revert l. induction new as [|n new IH]; intros l; cbn [tokens_add]; [by left|].
    intros H. apply IH in H as [H|H].
    + case_bool_decide; [by left|].
      apply elem_of_app in H as [H|H]; [by left|].
      apply list_elem_of_singleton in H as ->. right. apply elem_of_cons. by left.
    + right. apply elem_of_cons. by right.
  - intros [H|H]; [by apply tokens_add_old|by apply tokens_add_new].
Qed.

Lemma showMessage_classList (m t : string) (s : State) :
  page_ok s →
  classList (element "messageBox" (state_of (showMessage m t s)))
  = tokens_remove ["hidden"]
      (tokens_add
         (if bool_decide (t = "success") then ["bg-green-100"; "text-green-700"]
          else if bool_decide (t = "error") then ["bg-red-100"; "text-red-700"]
          else ["bg-blue-100"; "text-blue-700"])
         (tokens_remove message_classes (classList (element "messageBox" s)))).
Proof.
  intros Hpage. destruct (Hpage "messageBox") as [e He]; [by eexists|].
  unfold element. simpl. rewrite !lookup_alter_eq, He. reflexivity.
Qed.

Ltac token_facts :=
  repeat match goal with
  | H : _ ∈ _ :: _ |- _ => apply elem_of_cons in H as [H|H]; [try discriminate H|]
  | H : _ ∈ [] |- _ => by apply elem_of_nil in H
  | H : _ ∧ _ |- _ => destruct H
  | H : _ ∨ _ |- _ => destruct H
  end.

Lemma showMessage_box_wears (m t : string) (s : State) :
  page_ok s →
  let s' := state_of (showMessage m t s) in
  (t = "success" →
   box_wears ["bg-green-100"; "text-green-700"]
     ["bg-red-100"; "text-red-700"; "bg-blue-100"; "text-blue-700"] s')
  ∧ (t = "error" →
     box_wears ["bg-red-100"; "text-red-700"]
       ["bg-green-100"; "text-green-700"; "bg-blue-100"; "text-blue-700"] s')
  ∧ (t ≠ "success" → t ≠ "error" →
     box_wears ["bg-blue-100"; "text-blue-700"]
       ["bg-green-100"; "text-green-700"; "bg-red-100"; "text-red-700"] s').
Proof.
  intros Hpage s'. subst s'. unfold box_wears.
  rewrite (showMessage_classList m t s Hpage).
  set (l := classList (element "messageBox" s)). clearbody l.
  assert (∀ x, x ∈ message_classes → x ∉ tokens_remove message_classes l) as Hoff
    by (intros x Hx; by apply tokens_remove_gone).
  assert (∀ x new, x ∈ new → x ≠ "hidden" →
            x ∈ tokens_remove ["hidden"] (tokens_add new (tokens_remove message_classes l)))
    as Hon.
  { intros x new Hx Hne. rewrite tokens_remove_spec, tokens_add_spec.
    split; [by right|]. intros H. by apply list_elem_of_singleton in H. }
  assert (∀ x new, x ∈ message_classes → x ∉ new →
            x ∉ tokens_remove ["hidden"] (tokens_add new (tokens_remove message_classes l)))
    as Hnot.
  { intros x new Hx Hnew. rewrite tokens_remove_spec, tokens_add_spec.
    intros [[H|H] _]; [by apply (Hoff x)|done]. }
  assert (∀ x (l : list string), bool_decide (x ∈ l) = true → x ∈ l) as Hin
    by (intros x l0; apply bool_decide_eq_true_1).
  assert (∀ x (l : list string), bool_decide (x ∈ l) = false → x ∉ l) as Hout
    by (intros x l0; apply bool_decide_eq_false_1).
  split; [|split].
  - intros ->. rewrite bool_decide_eq_true_2 by done. split; intros c Hc.
    + apply Hon; [done|]. intros ->. token_facts.
    + token_facts; subst c; (apply Hnot; [by apply Hin|by apply Hout]).
  - intros ->. rewrite bool_decide_eq_false_2 by done.
    rewrite bool_decide_eq_true_2 by done. split; intros c Hc.
    + apply Hon; [done|]. intros ->. token_facts.
    + token_facts; subst c; (apply Hnot; [by apply Hin|by apply Hout]).
  - intros H1 H2. rewrite !bool_decide_eq_false_2 by done. split; intros c Hc.
    + apply Hon; [done|]. intros ->. token_facts.
    + token_facts; subst c; (apply Hnot; [by apply Hin|by apply Hout]).
Qed.

(** X18. [showMessage] returns with the message in the box, the box
    on display, and the box wearing the two classes of the message's type
    and none of the other types': green for ["success"], red for
    ["error"], blue for anything else.  The other classes of the box are
    untouched.  It sets one timeout; when that fires the box is hidden, the
    text still in it, and the timeout is gone. *)
Theorem showMessage_displays (message type : string) (s : State) :
  page_ok s →
  let s' := state_of (showMessage message type s) in
  let s'' := dispatch (TimerFires (nextTimer s)) s' in
  showMessage message type s = Ret tt s'
  ∧ textContent (element "messageBox" s') = message
  ∧ ("hidden" ∉ classList (element "messageBox" s'))
  ∧ (type = "success" →
     box_wears ["bg-green-100"; "text-green-700"]
       ["bg-red-100"; "text-red-700"; "bg-blue-100"; "text-blue-700"] s')
  ∧ (type = "error" →
     box_wears ["bg-red-100"; "text-red-700"]
       ["bg-green-100"; "text-green-700"; "bg-blue-100"; "text-blue-700"] s')
  ∧ (type ≠ "success" → type ≠ "error" →
     box_wears ["bg-blue-100"; "text-blue-700"]
       ["bg-green-100"; "text-green-700"; "bg-red-100"; "text-red-700"] s')
  ∧ (∀ c, c ∉ message_classes →
          c ∈ classList (element "messageBox" s')
          ↔ c ∈ classList (element "messageBox" s))
  ∧ timers s' = <[nextTimer s := Timeout CbHideMessage]> (timers s)
  ∧ textContent (element "messageBox" s'') = message
  ∧ "hidden" ∈ classList (element "messageBox" s'')
  ∧ timers s'' = delete (nextTimer s) (timers s').
Proof.
  intros Hpage s' s''.
  split; [apply showMessage_returns|].
  destruct (showMessage_messageBox message type s Hpage) as (Ht & Hh & _).
  split; [exact Ht|]. split; [exact Hh|].
  destruct (showMessage_box_wears message type s Hpage) as (H1 & H2 & H3).
  split; [exact H1|]. split; [exact H2|]. split; [exact H3|].
  split.
  { intros c Hc. subst s'. rewrite (showMessage_classList message type s Hpage).
    rewrite tokens_remove_spec, tokens_add_spec, tokens_remove_spec.
    assert (c ≠ "hidden") as Hne.
    { intros ->. apply Hc. apply elem_of_cons. by left. }
    assert (c ∉ ["hidden"]) as Hne' by (intros H; by apply list_elem_of_singleton in H).
    split.
    - intros [[[H _]|H] _]; [done|]. exfalso. apply Hc.
      repeat case_bool_decide; token_facts; subst c;
        apply (bool_decide_unpack _); vm_compute; exact I.
    - intros H. split; [|done]. by left. }
  split; [reflexivity|].
  assert (timers s' !! nextTimer s = Some (Timeout CbHideMessage)) as Hp.
  { subst s'. simpl. by rewrite lookup_insert_eq. }
  assert (page_ok s') as Hpage' by (by apply showMessage_page_ok).
  destruct (Hpage' "messageBox") as [e He]; [by eexists|].
  change (textContent (element "messageBox" s') = message) in Ht.
  unfold element in Ht. rewrite He in Ht. simpl in Ht.
  subst s''. cbn [dispatch]. unfold fire_timer. rewrite Hp.
  cbn [run_callback]. clearbody s'.
  unfold hideMessage, on_element, modify, element. simpl.
  rewrite lookup_alter_eq, He. simpl.
  split; [exact Ht|]. split; [|done].
  apply tokens_add_new, elem_of_cons. by left.
Qed.

(** X19. [showMessage] does not cancel the timeout of the message
    before it.  When two messages follow each other, the timeout of the
    first, when it fires, hides the box while it shows the second; the
    second's own timeout is still pending. *)
Theorem earlier_timeout_hides_later_message
    (m1 t1 m2 t2 : string) (s : State) :
  page_ok s →
  let s1 := state_of (showMessage m1 t1 s) in
  let s2 := state_of (showMessage m2 t2 s1) in
  let s3 := dispatch (TimerFires (nextTimer s)) s2 in
  textContent (element "messageBox" s2) = m2
  ∧ ("hidden" ∉ classList (element "messageBox" s2))
  ∧ textContent (element "messageBox" s3) = m2
  ∧ "hidden" ∈ classList (element "messageBox" s3)
  ∧ timers s3 !! S (nextTimer s) = Some (Timeout CbHideMessage).
Proof.
  intros Hpage s1 s2 s3.
  assert (page_ok s1) as Hpage1 by (by apply showMessage_page_ok).
  assert (page_ok s2) as Hpage2 by (by apply showMessage_page_ok).
  destruct (showMessage_messageBox m2 t2 s1 Hpage1) as (Ht & Hh & _).
  fold s2 in Ht, Hh.
  split; [exact Ht|]. split; [exact Hh|].
  assert (nextTimer s1 = S (nextTimer s)) as Hn by reflexivity.
  assert (timers s2 = <[S (nextTimer s) := Timeout CbHideMessage]>
                        (<[nextTimer s := Timeout CbHideMessage]> (timers s))) as Htab.
  { subst s2. change (timers (state_of (showMessage m2 t2 s1)))
      with (<[nextTimer s1 := Timeout CbHideMessage]> (timers s1)).
    by rewrite Hn. }
  assert (timers s2 !! nextTimer s = Some (Timeout CbHideMessage)) as Hp.
  { rewrite Htab, lookup_insert_ne by lia. by rewrite lookup_insert_eq. }
  destruct (Hpage2 "messageBox") as [e He]; [by eexists|].
  unfold element in Ht. rewrite He in Ht. simpl in Ht.
  subst s3. cbn [dispatch]. unfold fire_timer. rewrite Hp.
  cbn [run_callback]. clearbody s2.
  unfold hideMessage, on_element, modify, element. simpl.
  rewrite lookup_alter_eq, He. simpl.
  split; [exact Ht|]. split; [apply tokens_add_new, elem_of_cons; by left|].
  rewrite Htab, lookup_delete_ne by lia. by rewrite lookup_insert_eq.
Qed.

(** ** The slider's value *)

Lemma digit_value_pretty_N_char (d : N) :
  (d < 10)%N → Js.digit_value (pretty_N_char d) = Some (Z.of_N d).
Proof.
  intros Hd.
  assert (d = 0 ∨ d = 1 ∨ d = 2 ∨ d = 3 ∨ d = 4 ∨ d = 5 ∨ d = 6 ∨ d = 7 ∨ d = 8 ∨ d = 9)%N
    as H by lia.
  repeat (destruct H as [->|H]; [reflexivity|]). by subst d.
Qed.

(** Reading the decimal digits [pretty] writes for [x] gives [x] back. *)
Lemma digits_prefix_pretty_N_go (x : N) :
  (0 < x)%N →
  ∃ k : Z, ∀ (a : option Z) (s : string),
    Js.digits_prefix a (pretty_N_go x s)
    = Js.digits_prefix (Some (default 0 a * k + Z.of_N x)) s.
Proof.
  induction (N.lt_wf_0 x) as [x _ IH]. intros Hx.
  assert (x `mod` 10 < 10)%N as Hd by (apply N.mod_lt; lia).
  pose proof (N.div_mod x 10 ltac:(lia)) as Hdm.
  destruct (decide (x `div` 10 = 0)%N) as [Hq|Hq].
  - exists 10. intros a s. rewrite pretty_N_go_step, Hq, pretty_N_go_0 by done.
    cbn [Js.digits_prefix]. rewrite digit_value_pretty_N_char by done.
    apply (f_equal (λ v, Js.digits_prefix (Some v) s)).
    rewrite Hq, N.mul_0_r, N.add_0_l in Hdm. rewrite <- Hdm. lia.
  - destruct (IH (x `div` 10)%N) as [k Hk]; [apply N.div_lt; lia|by apply N.neq_0_lt_0|].
    exists (10 * k). intros a s. rewrite pretty_N_go_step, Hk by done.
    cbn [Js.digits_prefix]. rewrite digit_value_pretty_N_char by done.
    cbn [default from_option id].
    apply (f_equal (λ v, Js.digits_prefix (Some v) s)).
    apply (f_equal Z.of_N) in Hdm. rewrite N2Z.inj_add, N2Z.inj_mul in Hdm.
    generalize dependent (Z.of_N (x `div` 10)). generalize (Z.of_N (x `mod` 10)).
    generalize (Z.of_N x). intros. change (Z.of_N 10) with 10 in *. unfold id. lia.
Qed.

Lemma pretty_N_go_head (x : N) (s : string) :
  (0 < x)%N →
  ∃ d rest, (d < 10)%N ∧ pretty_N_go x s = String (pretty_N_char d) rest.
Proof.
  revert s. induction (N.lt_wf_0 x) as [x _ IH]. intros s Hx.
  rewrite pretty_N_go_step by done.
  destruct (decide (x `div` 10 = 0)%N) as [Hq|Hq].
  - rewrite Hq, pretty_N_go_0. exists (x `mod` 10)%N, s.
    split; [apply N.mod_lt; lia|done].
  - apply IH; [apply N.div_lt; lia|by apply N.neq_0_lt_0].
Qed.

Lemma parseInt10_digits (d : N) (rest : string) :
  (d < 10)%N →
  Js.parseInt10 (String (pretty_N_char d) rest)
  = match Js.digits_prefix None (String (pretty_N_char d) rest) with
    | Some m => Js.Num (1 * m)
    | None => Js.NaN
    end.
Proof.
  intros Hd.
  assert (d = 0 ∨ d = 1 ∨ d = 2 ∨ d = 3 ∨ d = 4 ∨ d = 5 ∨ d = 6 ∨ d = 7 ∨ d = 8 ∨ d = 9)%N
    as H by lia.
  repeat (destruct H as [->|H]; [reflexivity|]). by subst d.
Qed.

Lemma parseInt10_pretty_pos (p : positive) :
  Js.parseInt10 (pretty (N.pos p)) = Js.Num (Z.pos p)
  ∧ Js.parseInt10 ("-" ++ pretty (N.pos p)) = Js.Num (Z.neg p).
Proof.
  destruct (digits_prefix_pretty_N_go (N.pos p)) as [k Hk]; [lia|].
  destruct (pretty_N_go_head (N.pos p) "") as (d & rest & Hd & Hhead); [lia|].
  assert (pretty (N.pos p) = pretty_N_go (N.pos p) "") as Hpretty by reflexivity.
  pose proof (Hk None "") as Hread. cbn [Js.digits_prefix default from_option] in Hread.
  split.
  - rewrite Hpretty, Hhead, parseInt10_digits by done.
    rewrite <- Hhead, Hread. f_equal.
  - rewrite Hpretty.
    change ("-" ++ pretty_N_go (N.pos p) "") with (String "-" (pretty_N_go (N.pos p) "")).
    unfold Js.parseInt10.
    change (Js.trim_start (String "-" (pretty_N_go (N.pos p) "")))
      with (String "-" (pretty_N_go (N.pos p) "")).
    cbv beta iota zeta.
    rewrite Hread. f_equal.
Qed.

(** [parseInt] reads back the integer the interpolation wrote. *)
Lemma parseInt10_to_string (z : Z) :
  Js.parseInt10 (Js.to_string (Js.Num z)) = Js.Num z.
Proof.
  destruct z as [|p|p]; [reflexivity| |]; apply parseInt10_pretty_pos.
Qed.

(** X12. [parseInt] reads back the index the script wrote into the
    slider, so an [input] event that carries the slider's own value only
    stops the animation and redraws nothing: on a stopped page it changes
    nothing at all.  An event that carries any other integer stops the
    animation and then calls [updateChartForAnimation] with it. *)
Theorem slider_echo_does_not_redraw (s : State) (z : Z) :
  currentYearIndex s = Js.Num z →
  Js.parseInt10 (Js.to_string (currentYearIndex s)) = currentYearIndex s
  ∧ onSliderInput (Js.to_string (currentYearIndex s)) s
    = Ret tt (state_of (stopAnimation s))
  ∧ (isPlaying s = false →
     onSliderInput (Js.to_string (currentYearIndex s)) s = Ret tt s)
  ∧ (∀ z', z' ≠ z →
       onSliderInput (Js.to_string (Js.Num z')) s
       = updateChartForAnimation (Js.Num z') (state_of (stopAnimation s))).
Proof.
  intros Hidx.
  pose proof (total_state_of _ s stopAnimation_total) as Hstop.
  pose proof (stopAnimation_data s) as Hdata. unfold same, data_view in Hdata.
  injection Hdata as _ Hidx'.
  assert (∀ v, onSliderInput v s
          = (if negb (Js.strict_eq (Js.parseInt10 v) (currentYearIndex s))
             then updateChartForAnimation (Js.parseInt10 v) (state_of (stopAnimation s))
             else Ret tt (state_of (stopAnimation s)))) as Heq.
  { intros v. unfold onSliderInput, bind at 1. rewrite Hstop. cbv beta iota.
    unfold bind, get. cbv beta iota.
    rewrite <- Hidx'. simpl. destruct (negb _); reflexivity. }
  assert (onSliderInput (Js.to_string (currentYearIndex s)) s
          = Ret tt (state_of (stopAnimation s))) as Hecho.
  { rewrite Heq, Hidx, parseInt10_to_string. cbn [Js.strict_eq].
    by rewrite bool_decide_eq_true_2. }
  split; [rewrite Hidx; apply parseInt10_to_string|].
  split; [exact Hecho|]. split.
  - intros Hp. rewrite Hecho. by rewrite stopAnimation_idle.
  - intros z' Hne. rewrite Heq, Hidx, parseInt10_to_string. cbn [Js.strict_eq].
    by rewrite bool_decide_eq_false_2.
Qed.

(** ** The controls container *)

Lemma controls_hidden_view (s s' : State) :
  same (element "controlsContainer") s s' → keeps controls_hidden s s'.
Proof. unfold same, keeps, controls_hidden. by intros <-. Qed.

#[export] Hint Extern 5 (stable (keeps controls_hidden) _) =>
  apply (stable_weaken (same (element "controlsContainer")));
    [exact controls_hidden_view|] : stable.

Lemma controls_hidden_add :
  stable (keeps controls_hidden)
    (on_element "controlsContainer"
       (λ e, set_classList (tokens_add ["hidden-controls"] (classList e)) e)).
Proof.
  intros s. unfold keeps, controls_hidden, element. simpl.
  rewrite lookup_alter_eq. destruct (document s !! "controlsContainer"); simpl; [|done].
  apply tokens_add_old.
Qed.
#[export] Hint Resolve controls_hidden_add : stable.

Lemma showMessage_controls m t :
  stable (same (element "controlsContainer")) (showMessage m t).
Proof. unfold showMessage. stable_go. Qed.
#[export] Hint Resolve showMessage_controls : stable.

Lemma initializeChart_controls i :
  stable (same (element "controlsContainer")) (initializeChart i).
Proof. unfold initializeChart. stable_go. Qed.

Lemma updateChartForAnimation_controls i :
  stable (same (element "controlsContainer")) (updateChartForAnimation i).
Proof. unfold updateChartForAnimation. stable_go. Qed.

Lemma stopAnimation_controls :
  stable (same (element "controlsContainer")) stopAnimation.
Proof. unfold stopAnimation. stable_go. Qed.

Lemma startAnimation_controls :
  stable (same (element "controlsContainer")) startAnimation.
Proof. unfold startAnimation. stable_go. Qed.

Lemma append_options_controls l :
  stable (same (element "controlsContainer")) (append_options l).
Proof. apply append_options_stable; [apply _|]. intros f. stable_go. Qed.

#[export] Hint Resolve initializeChart_controls updateChartForAnimation_controls
  stopAnimation_controls startAnimation_controls append_options_controls : stable.

Lemma dispatch_controls_hidden (ev : Event) (s : State) :
  controls_hidden s → controls_hidden (dispatch ev s).
Proof.
  destruct ev; simpl.
  - apply (stable_run_listeners (keeps controls_hidden)). unfold_script. stable_go.
  - apply (stable_run_listeners (keeps controls_hidden)). unfold_script. stable_go.
  - assert (stable (keeps controls_hidden) (onCountryChange target_value)) as H
      by (unfold_script; stable_go). apply H.
  - assert (stable (keeps controls_hidden) onResize) as H
      by (unfold onResize; stable_go). apply H.
  - assert (∀ cb, stable (keeps controls_hidden) (run_callback cb)) as Hcb
      by (intros []; unfold_script; unfold resizeChart; stable_go).
    unfold fire_timer. destruct (timers s !! id) as [[cb|cb]|]; [| |done].
    + apply Hcb.
    + intros Hs. by apply Hcb.
  - assert (stable (keeps controls_hidden) (loadCountryList_resume response)) as H
      by (unfold_script; stable_go). apply H.
  - assert (stable (keeps controls_hidden)
              (loadAndDisplayChart_resume jsonFilePath response)) as H
      by (unfold_script; stable_go). apply H.
Qed.

Lemma run_controls_hidden (evs : list Event) (s : State) :
  controls_hidden s → controls_hidden (run evs s).
Proof.
  revert s. induction evs as [|ev evs IH]; intros s Hok; [done|].
  simpl. apply IH, dispatch_controls_hidden, Hok.
Qed.

Lemma load_failure_controls_hidden (m : string) (s : State) :
  page_ok s → controls_hidden (state_of (load_failure_handler m s)).
Proof.
  intros Hpage. unfold load_failure_handler.
  unfold bind at 1, console_error at 1, modify at 1. cbv beta iota.
  erewrite bind_Ret; [|apply showMessage_returns].
  set (s_m := state_of (showMessage _ _ _)).
  assert (page_ok s_m) as Hpage_m by (by apply showMessage_page_ok).
  rewrite load_failure_display. cbn [state_of].
  destruct (Hpage_m "controlsContainer") as [e He]; [by eexists|].
  clearbody s_m. unfold controls_hidden. read_element. rewrite He. simpl.
  apply tokens_add_new, elem_of_cons. by left.
Qed.

(** X5. Only the [catch] block of [loadAndDisplayChart] writes to
    the controls container, and it adds [hidden-controls]: once a load has
    failed the container carries that class whatever happens next, a later
    successful load included. *)
Theorem failed_load_hides_controls_for_good
    (p : string) (r : FetchResult RawDocument) (m : string)
    (s : State) (evs : list Event) :
  page_ok s →
  load_fails p r m →
  controls_hidden (dispatch (DatasetArrives p r) s)
  ∧ controls_hidden (run evs (dispatch (DatasetArrives p r) s)).
Proof.
  intros Hpage Hfail.
  assert (controls_hidden (dispatch (DatasetArrives p r) s)) as H.
  { cbn [dispatch]. rewrite (load_fails_handler p r m s Hfail).
    by apply load_failure_controls_hidden. }
  split; [exact H|]. by apply run_controls_hidden.
Qed.

(** ** A dataset that arrives on the page as served *)

Lemma response_cases (p : string) (r : FetchResult RawDocument) :
  (∃ m, load_fails p r m) ∨ (∃ status doc, r = Response true status (Some doc)).
Proof.
  destruct r as [m|[] status [doc|]].
  - left. eexists. constructor.
  - right. by eexists _, _.
  - left. eexists. constructor.
  - left. eexists. constructor.
  - left. eexists. constructor.
Qed.

Lemma load_failure_handler_data m : stable (same data_view) (load_failure_handler m).
Proof. unfold load_failure_handler. unfold_script. stable_go. Qed.

(** On the page as served the index never leaves [0]. *)
Lemma dispatch_index_zero (ev : Event) (s : State) :
  chart_ok s → timers_ok s → quiet s →
  currentYearIndex s = Js.Num 0 →
  currentYearIndex (dispatch ev s) = Js.Num 0.
Proof.
  intros Hchart Htimers Hquiet Hidx.
  assert (∀ s', data_view s = data_view s' → currentYearIndex s' = Js.Num 0) as Hview.
  { unfold data_view. intros s' [= _ <-]. exact Hidx. }
  destruct ev; cbn [dispatch].
  - pose proof Hquiet as (_ & _ & Hc & _). by rewrite Hc.
  - pose proof Hquiet as (_ & _ & _ & Hi). by rewrite Hi.
  - assert (stable (same data_view) (onCountryChange target_value)) as H
      by (unfold_script; stable_go). apply Hview, H.
  - assert (stable (same data_view) onResize) as H by (unfold onResize; stable_go).
    apply Hview, H.
  - apply Hview. symmetry. apply fire_timer_no_tick.
    apply stopped_no_tick; [done|]. by destruct Hquiet as (_ & ? & _).
  - assert (stable (same data_view) (loadCountryList_resume response)) as H.
    { unfold_script. stable_go. apply append_options_stable; [apply _|].
      intros f. stable_go. }
    apply Hview, H.
  - destruct (response_cases jsonFilePath response) as [[m Hm]|(status & doc & ->)].
    + rewrite (load_fails_handler _ _ _ s Hm). apply Hview, load_failure_handler_data.
    + destruct (loadAndDisplayChart_resume_loaded s jsonFilePath status doc Hchart Hidx)
        as (s' & Hrun & _ & H0 & _).
      by rewrite Hrun.
Qed.

Lemma run_index_zero (evs : list Event) (s : State) :
  chart_ok s → timers_ok s → quiet s →
  currentYearIndex s = Js.Num 0 →
  currentYearIndex (run evs s) = Js.Num 0.
Proof.
  revert s. induction evs as [|ev evs IH]; intros s Hc Ht Hq Hi; [done|].
  simpl. apply IH.
  - by apply dispatch_chart_ok.
  - by apply dispatch_timers_ok.
  - by apply dispatch_quiet.
  - by apply dispatch_index_zero.
Qed.

(** What [setupControls] and [showLoading(false)] leave on a page whose
    series has the one entry [e]. *)
Lemma finish_single (s : State) (e : YearSeriesEntry) :
  page_ok s →
  allYearsData s = [e] →
  let s' := state_of (bind setupControls (λ _, showLoading false) s) in
  textContent (element "currentYearDisplay" s') = "Year: " ++ pretty (year e)
  ∧ textContent (element "dataSourceInfo" s')
    = "Data for " ++ dquote ++ country e ++ dquote
  ∧ value (element "yearSlider" s') = value (element "yearSlider" s)
  ∧ "hidden-controls" ∈ classList (element "playPauseButton" s')
  ∧ "hidden-controls" ∈ classList (element "sliderComponents" s')
  ∧ loading_hidden s'.
Proof.
  intros Hpage Hall.
  destruct (page_ok_lookup s "playPauseButton" Hpage) as [e1 He1]; [by eexists|].
  destruct (page_ok_lookup s "sliderComponents" Hpage) as [e2 He2]; [by eexists|].
  destruct (page_ok_lookup s "currentYearDisplay" Hpage) as [e6 He6]; [by eexists|].
  destruct (page_ok_lookup s "dataSourceInfo" Hpage) as [e7 He7]; [by eexists|].
  destruct (page_ok_lookup s "loadingIndicator" Hpage) as [e8 He8]; [by eexists|].
  unfold setupControls, showLoading, bind, get. cbv beta iota zeta. rewrite Hall.
  rewrite bool_decide_eq_true_2 by (simpl; lia).
  unfold loading_hidden.
  split; [read_element; by rewrite He6|].
  split; [read_element; by rewrite He7|].
  split; [read_element; done|].
  split; [read_element; rewrite He1; simpl; apply tokens_add_new, elem_of_cons; by left|].
  split; [read_element; rewrite He2; simpl; apply tokens_add_new, elem_of_cons; by left|].
  read_element. rewrite He8. simpl. apply tokens_add_new, elem_of_cons. by left.
Qed.

(** X6. On the page as served, whatever has happened before, a
    dataset file that arrives with a JSON body is displayed: its entry is
    the whole series, the index is [0], the chart shows the entry and is
    alone on the canvas, the year and the data source read from the file,
    the slider is at ["0"], the play button and the slider are hidden (one
    year has nothing to animate), and the loading indicator is down. *)
Theorem arriving_dataset_is_displayed
    (search : list (string * string)) (evs : list Event)
    (path : string) (status : Z) (doc : RawDocument) :
  let s := run evs (page_loaded search) in
  let s' := dispatch (DatasetArrives path (Response true status (Some doc))) s in
  allYearsData s' = [entry_of doc]
  ∧ currentYearIndex s' = Js.Num 0
  ∧ shows s' (entry_of doc)
  ∧ length (canvasCharts s') = 1%nat
  ∧ textContent (element "currentYearDisplay" s') = "Year: " ++ pretty (doc_year doc)
  ∧ textContent (element "dataSourceInfo" s')
    = "Data for " ++ dquote ++ doc_country doc ++ dquote
  ∧ value (element "yearSlider" s') = "0"
  ∧ "hidden-controls" ∈ classList (element "playPauseButton" s')
  ∧ "hidden-controls" ∈ classList (element "sliderComponents" s')
  ∧ loading_hidden s'.
Proof.
  intros s s'.
  destruct (reachable_ok search evs) as (Hchart & Htimers & Hpage).
  fold s in Hchart, Htimers, Hpage.
  assert (quiet s) as Hquiet by apply run_quiet, page_loaded_quiet.
  assert (currentYearIndex s = Js.Num 0) as Hidx.
  { apply run_index_zero;
      [apply page_loaded_chart_ok|apply page_loaded_timers_ok
      |apply page_loaded_quiet|reflexivity]. }
  destruct (loadAndDisplayChart_resume_loaded s path status doc Hchart Hidx)
    as (s1 & Hrun & Hall & Hidx1 & Hshows & _).
  pose proof (loadAndDisplayChart_resume_ok s path status doc Hchart Hidx) as Hrun'.
  cbv zeta in Hrun'.
  set (s_b := state_of (selectRequestedYear (loaded_series doc s))) in Hrun'.
  set (s_c := drawn (entry_of doc) (Js.Num 0) s_b) in Hrun'.
  assert (s' = state_of (bind setupControls (λ _, showLoading false) s_c)) as Hs'
    by (subst s'; cbn [dispatch]; by rewrite Hrun').
  assert (s' = s1) as Hs1 by (subst s'; cbn [dispatch]; by rewrite Hrun).
  assert (page_ok s_b) as Hpage_b.
  { apply selectRequestedYear_page_ok. exact Hpage. }
  assert (allYearsData s_b = [entry_of doc]) as Hall_b
    by (symmetry; apply (selectRequestedYear_allYearsData (loaded_series doc s))).
  assert (page_ok s_c) as Hpage_c.
  { intros id Hid. subst s_c. unfold drawn. simpl.
    rewrite !lookup_alter_is_Some. by apply Hpage_b. }
  destruct (finish_single s_c (entry_of doc) Hpage_c Hall_b)
    as (H1 & H2 & H3 & H4 & H5 & H6).
  rewrite <- Hs' in H1, H2, H3, H4, H5, H6.
  split; [by rewrite Hs1|]. split; [by rewrite Hs1|]. split; [by rewrite Hs1|].
  split.
  { apply (dispatch_chart_ok (DatasetArrives path (Response true status (Some doc))))
      in Hchart. fold s' in Hchart. unfold chart_ok in Hchart. rewrite Hchart.
    rewrite Hs1. destruct Hshows as (c & -> & _). done. }
  split; [exact H1|]. split; [exact H2|]. split; [|done].
  rewrite H3. destruct (page_ok_lookup s_b "yearSlider" Hpage_b) as [e He]; [by eexists|].
  subst s_c. unfold drawn. clearbody s_b. read_element. by rewrite He.
Qed.

(** ** A frame of the animation *)

Lemma tick_next (s : State) (i : nat) :
  currentYearIndex s = Js.Num (Z.of_nat i) →
  (i < length (allYearsData s))%nat →
  tick s
  = updateChartForAnimation
      (Js.Num (Z.of_nat ((i + 1) mod length (allYearsData s))))
      (set_currentYearIndex
         (Js.Num (Z.of_nat ((i + 1) mod length (allYearsData s)))) s).
Proof.
  intros Hi Hlt. unfold tick, bind, get, modify. cbv beta iota.
  cbn [currentYearIndex set_currentYearIndex allYearsData]. rewrite Hi.
  unfold Js.add, Js.rem, Js.length.
  rewrite bool_decide_eq_false_2 by lia.
  rewrite Z.rem_mod_nonneg by lia.
  replace (Z.of_nat i + 1)%Z with (Z.of_nat (i + 1)) by lia.
  rewrite <- Nat2Z.inj_mod. reflexivity.
Qed.

(** X11. When the animation's interval fires, the entry after the
    current one (the first after the last) becomes current and is what the
    chart shows, on the same chart object with one more [update()]; the
    canvas, the series and the timer table are unchanged, so the interval
    stays pending. *)
Theorem animation_frame
    (s : State) (id i : nat) (entry : YearSeriesEntry) (c : Chart) (d0 d1 : Dataset) :
  timers s !! id = Some (Interval CbTick) →
  currentYearIndex s = Js.Num (Z.of_nat i) →
  (i < length (allYearsData s))%nat →
  allYearsData s !! ((i + 1) mod length (allYearsData s))%nat = Some entry →
  pyramidChart s = Some c →
  datasets c = [d0; d1] →
  let s' := dispatch (TimerFires id) s in
  currentYearIndex s' = Js.Num (Z.of_nat ((i + 1) mod length (allYearsData s)))
  ∧ shows s' entry
  ∧ (∃ c', pyramidChart s' = Some c'
           ∧ chart_id c' = chart_id c
           ∧ updates c' = S (updates c)
           ∧ label <$> datasets c' = label <$> datasets c)
  ∧ canvasCharts s' = canvasCharts s
  ∧ allYearsData s' = allYearsData s
  ∧ timer_view s' = timer_view s.
Proof.
  intros Hid Hi Hlt He Hc Hds s'. subst s'. cbn [dispatch]. unfold fire_timer.
  rewrite Hid. cbn [run_callback]. rewrite (tick_next s i Hi Hlt).
  set (n := ((i + 1) mod length (allYearsData s))%nat) in *.
  set (s1 := set_currentYearIndex (Js.Num (Z.of_nat n)) s).
  destruct (updateChartForAnimation_binds s1 n entry c d0 d1 He Hc Hds)
    as (s' & c' & Hrun & Hidx & Hc' & Hcid & Hup & Hl & Hds').
  pose proof (updateChartForAnimation_allYearsData (Js.Num (Z.of_nat n)) s1) as Hall.
  pose proof (updateChartForAnimation_timer (Js.Num (Z.of_nat n)) s1) as Htv.
  pose proof (updateChartForAnimation_chart_view (Js.Num (Z.of_nat n)) s1) as Hcv.
  unfold same in Hall, Htv, Hcv. rewrite Hrun in Hall, Htv, Hcv |- *.
  cbn [state_of] in *.
  split; [exact Hidx|]. split.
  { exists c'. split; [exact Hc'|]. split; [exact Hl|]. by rewrite Hds'. }
  split.
  { exists c'. split; [exact Hc'|]. split; [exact Hcid|]. split; [exact Hup|].
    by rewrite Hds', Hds. }
  split; [unfold chart_view in Hcv; by injection Hcv|].
  split; [by rewrite <- Hall|]. by rewrite <- Htv.
Qed.

(** ** The script at work on further examples *)

Lemma three_years_page_ok : page_ok three_years.
Proof. intros id Hid. exact Hid. Qed.

Lemma three_years_drawn_page_ok : page_ok three_years_drawn.
Proof.
  intros id Hid. unfold three_years_drawn, drawn. simpl.
  rewrite !lookup_alter_is_Some. exact Hid.
Qed.

(** A click starts the animation of the three years, a second one stops
    it. *)
Lemma play_pause_click_toggles_witness :
  ∃ s1 s2,
    onPlayPauseClick three_years = Ret tt s1
    ∧ isPlaying s1 = true
    ∧ textContent (element "playPauseButton" s1) = "Pause"
    ∧ onPlayPauseClick s1 = Ret tt s2
    ∧ isPlaying s2 = false
    ∧ textContent (element "playPauseButton" s2) = "Play"
    ∧ data_view s2 = data_view three_years.
Proof.
  destruct (play_pause_click_toggles three_years
              three_years_timers_ok three_years_page_ok eq_refl)
    as (s1 & s2 & H1 & H2 & _ & _ & _ & H6 & H7 & H8 & _ & H10 & H11 & _).
  { simpl. lia. }
  exists s1, s2. repeat split; assumption.
Defined.

(** Before the first file has arrived there is nothing to draw. *)
Lemma initializeChart_without_data_witness :
  ∃ s',
    initializeChart (Js.Num 0) (page_loaded []) = Ret tt s'
    ∧ error_shown "No data available to display chart." s'
    ∧ textContent (element "currentYearDisplay" s') = "Year: ---"
    ∧ pyramidChart s' = None.
Proof.
  destruct (initializeChart_without_data (Js.Num 0) (page_loaded [])
              (page_loaded_page_ok []) (or_introl eq_refl))
    as (s' & H1 & H2 & _ & H4 & _ & H6 & _).
  exists s'. repeat split; try assumption; apply H2.
Defined.

(** The file of the selected country is missing. *)
Lemma loadAndDisplayChart_failure_witness :
  ∃ s',
    loadAndDisplayChart_resume "data/Atlantis_pyramid.json"
      (Response false 404 None) (page_loaded [])
    = Ret tt s'
    ∧ error_shown
        "Error: HTTP error! status: 404 - Could not fetch data/Atlantis_pyramid.json" s'
    ∧ loading_hidden s'.
Proof.
  destruct (loadAndDisplayChart_failure "data/Atlantis_pyramid.json"
              (Response false 404 None) _ (page_loaded [])
              (page_loaded_page_ok []) (fails_status _ 404 None))
    as (s' & H1 & H2 & _ & _ & _ & H6 & _).
  exists s'. split; [exact H1|]. split; [exact H2|exact H6].
Defined.

(** After the failure a file that arrives is drawn, behind hidden
    controls. *)
Lemma failed_load_hides_controls_for_good_witness :
  controls_hidden
    (run [DatasetArrives "data/Algeria_pyramid.json"
            (Response true 200 (Some example_document))]
       (dispatch (DatasetArrives "data/Atlantis_pyramid.json" (Response false 404 None))
          (page_loaded []))).
Proof.
  apply (failed_load_hides_controls_for_good "data/Atlantis_pyramid.json"
           (Response false 404 None) _ (page_loaded [])
           [DatasetArrives "data/Algeria_pyramid.json"
              (Response true 200 (Some example_document))]
           (page_loaded_page_ok []) (fails_status _ 404 None)).
Defined.

(** With three years the controls are on display and a listener is added
    to each. *)
Lemma setupControls_shows_or_hides_witness :
  ∃ s',
    setupControls three_years = Ret tt s'
    ∧ ("hidden-controls" ∉ classList (element "playPauseButton" s'))
    ∧ maxAttr (element "yearSlider" s') = "2"
    ∧ value (element "yearSlider" s') = "1"
    ∧ textContent (element "sliderMinYear" s') = "2015"
    ∧ textContent (element "sliderMaxYear" s') = "2025"
    ∧ clickListeners s' = 1%nat.
Proof.
  destruct (setupControls_shows_or_hides three_years three_years_page_ok)
    as (s' & H1 & _ & _ & _ & Hmany).
  destruct Hmany as (H2 & _ & H4 & H5 & H6 & H7 & H8 & _); [simpl; lia|].
  exists s'. split; [exact H1|]. split; [exact H2|]. split; [exact H4|].
  split; [exact H5|]. split; [exact (H6 _ eq_refl)|]. split; [exact (H7 _ eq_refl)|].
  exact H8.
Defined.

(** Set up twice, the play button takes two clicks to start. *)
Lemma click_listeners_accumulate_witness :
  clickListeners (state_of (setupControls (state_of (setupControls three_years)))) = 2%nat
  ∧ isPlaying (dispatch PlayPauseClick (state_of (setupControls three_years))) = true
  ∧ isPlaying
      (dispatch PlayPauseClick
         (state_of (setupControls (state_of (setupControls three_years)))))
    = false.
Proof.
  destruct (click_listeners_accumulate three_years three_years_timers_ok eq_refl)
    as (_ & H2 & _ & H4 & H5 & _); [simpl; lia|reflexivity|].
  split; [exact H2|]. split; [exact H4|exact H5].
Defined.

(** The chart of 2020 is rebound to 2025. *)
Lemma updateChartForAnimation_in_place_witness :
  ∃ s' c',
    updateChartForAnimation (Js.Num 2) three_years_drawn = Ret tt s'
    ∧ currentYearIndex s' = Js.Num 2
    ∧ pyramidChart s' = Some c'
    ∧ updates c' = 1%nat
    ∧ data <$> datasets c' = [[-110; -100]; [105; 95]]
    ∧ textContent (element "currentYearDisplay" s') = "Year: 2025".
Proof.
  destruct (updateChartForAnimation_in_place three_years_drawn 2
              (example_entry_in 2025) _ _ _
              three_years_drawn_page_ok eq_refl eq_refl eq_refl)
    as (s' & c' & H1 & H2 & _ & H4 & _ & _ & H7 & _ & _ & H10 & H11 & _).
  exists s', c'. repeat split; assumption.
Defined.

(** Without a chart the update stops half way. *)
Lemma updateChartForAnimation_without_chart_witness :
  ∃ e s',
    updateChartForAnimation (Js.Num 2) three_years = Throw e s'
    ∧ currentYearIndex s' = Js.Num 2
    ∧ textContent (element "currentYearDisplay" s') = "Year: 2025".
Proof.
  destruct (updateChartForAnimation_without_chart three_years 2
              (example_entry_in 2025) three_years_page_ok eq_refl eq_refl)
    as (e & s' & H1 & H2 & H3 & _).
  exists e, s'. repeat split; assumption.
Defined.

(** The interval fires while 2020 is on display: 2025 comes next. *)
Lemma animation_frame_witness :
  currentYearIndex (dispatch (TimerFires 1) playing_drawn) = Js.Num 2
  ∧ shows (dispatch (TimerFires 1) playing_drawn) (example_entry_in 2025)
  ∧ timer_view (dispatch (TimerFires 1) playing_drawn) = timer_view playing_drawn.
Proof.
  destruct (animation_frame playing_drawn 1 1 (example_entry_in 2025) _ _ _
              eq_refl eq_refl (le_S 2 2 (le_n 2)) eq_refl eq_refl eq_refl)
    as (H1 & H2 & _ & _ & _ & H6).
  split; [exact H1|]. split; [exact H2|exact H6].
Defined.

(** The slider reports the value the script gave it. *)
Lemma slider_echo_does_not_redraw_witness :
  Js.parseInt10 (Js.to_string (currentYearIndex three_years)) = Js.Num 1
  ∧ onSliderInput "1" three_years = Ret tt three_years
  ∧ onSliderInput "2" three_years
    = updateChartForAnimation (Js.Num 2) (state_of (stopAnimation three_years)).
Proof.
  destruct (slider_echo_does_not_redraw three_years 1 eq_refl) as (H1 & _ & H3 & H4).
  split; [exact H1|]. split; [exact (H3 eq_refl)|].
  apply (H4 2). discriminate.
Defined.

(** The catalog of two countries in the selector. *)
Lemma catalog_fills_selector_witness :
  options (element "countrySelector"
     (state_of (loadCountryList_resume (Response true 200 (Some example_catalog))
                  (page_loaded []))))
  = [("", "Select a country"); ("Algeria", "Algeria"); ("Costa_Rica", "Costa Rica")].
Proof.
  destruct (catalog_fills_selector (page_loaded []) 200 example_catalog
              (page_loaded_page_ok [])) as (H1 & _).
  exact H1.
Defined.

(** The catalog file is not JSON. *)
Lemma catalog_unusable_falls_back_witness :
  ∃ reason s',
    loadCountryList_resume (Response true 200 None) (page_loaded []) = Ret tt s'
    ∧ console s' = ("Error loading country list: " ++ reason) :: console (page_loaded [])
    ∧ fetches s' = "data/Algeria_pyramid.json" :: fetches (page_loaded [])
    ∧ options (element "countrySelector" s') = [("", "Loading countries...")].
Proof.
  destruct (catalog_unusable_falls_back (page_loaded []) (Response true 200 None)
              (or_intror (ex_intro _ 200 eq_refl)) (page_loaded_page_ok []))
    as (reason & s' & H1 & H2 & _ & H4 & _ & H6 & _).
  exists reason, s'. split; [exact H1|]. split; [exact H2|]. split; [exact H4|].
  by rewrite H6.
Defined.

(** Costa Rica is picked on a page opened for Algeria in 2025. *)
Lemma country_change_requests_dataset_witness :
  let s := page_loaded [("country", "Algeria"); ("year", "2025")] in
  let s' := dispatch (CountryChange "Costa_Rica") s in
  params_get "country" (location_search s') = Some "Costa_Rica"
  ∧ params_get "year" (location_search s') = Some "2025"
  ∧ fetches s' = "data/Costa_Rica_pyramid.json" :: fetches s.
Proof.
  intros s s'.
  destruct (country_change_requests_dataset "Costa_Rica" s (page_loaded_page_ok _))
    as (_ & H).
  destruct H as (H1 & H2 & H3 & _); [discriminate|].
  split; [exact H1|]. split; [|exact H3].
  etrans; [apply (H2 "year"); discriminate|reflexivity].
Defined.

(** A success message, and its timeout. *)
Lemma showMessage_displays_witness :
  let s' := state_of (showMessage "Saved." "success" (page_loaded [])) in
  textContent (element "messageBox" s') = "Saved."
  ∧ "bg-green-100" ∈ classList (element "messageBox" s')
  ∧ ("bg-red-100" ∉ classList (element "messageBox" s'))
  ∧ "hidden" ∈ classList (element "messageBox" (dispatch (TimerFires 1) s')).
Proof.
  intros s'.
  destruct (showMessage_displays "Saved." "success" (page_loaded [])
              (page_loaded_page_ok []))
    as (_ & H2 & _ & H4 & _ & _ & _ & _ & _ & H10 & _).
  destruct (H4 eq_refl) as [Hon Hoff].
  split; [exact H2|]. split; [|split; [|exact H10]].
  - apply Hon. apply elem_of_cons. by left.
  - apply Hoff. apply elem_of_cons. by left.
Defined.

(** The timeout of the message that the animation has started hides the
    message that it has paused. *)
Lemma earlier_timeout_hides_later_message_witness :
  let s2 := state_of (showMessage "Animation paused." "info"
              (state_of (showMessage "Animation started!" "info" (page_loaded [])))) in
  ("hidden" ∉ classList (element "messageBox" s2))
  ∧ textContent (element "messageBox" (dispatch (TimerFires 1) s2)) = "Animation paused."
  ∧ "hidden" ∈ classList (element "messageBox" (dispatch (TimerFires 1) s2)).
Proof.
  intros s2.
  destruct (earlier_timeout_hides_later_message
              "Animation started!" "info" "Animation paused." "info" (page_loaded [])
              (page_loaded_page_ok []))
    as (_ & H2 & H3 & H4 & _).
  split; [exact H2|]. split; [exact H3|exact H4].
Defined.
